(** * Framebuffer character driver (drivers/video/fb.c): pan-info queue,
      poll notification, open/close reference counting, read/write clamps.

    A shallow embedding of the driver's functions, followed by the
    properties of the driver's specification that were checked on it. *)

From stdpp Require Import base numbers list option gmap.
From Stdlib Require Import Strings.Byte.

Local Open Scope Z_scope.

(** ** Return codes (errno.h; the driver returns them negated) *)

Definition OK : Z := 0.
Definition ENOMEM : Z := 12.
Definition EBUSY : Z := 16.
Definition EINVAL : Z := 22.
Definition ENOTTY : Z := 25.
Definition EFBIG : Z := 27.
Definition ENOSPC : Z := 28.

(** The specification's names for the failures.  The driver has a single
    code, [-ENOSPC], for a rejected ring-buffer write and for an empty
    ring buffer. *)
Definition InvalidArgument : Z := - EINVAL.
Definition QueueFull : Z := - ENOSPC.
Definition QueueEmpty : Z := - ENOSPC.
Definition Busy : Z := - EBUSY.
Definition BufferFull : Z := - EFBIG.
Definition OutOfMemory : Z := - ENOMEM.

(** [FB_NO_OVERLAY] (nuttx/video/fb.h): the "no overlay" sentinel. *)
Definition FB_NO_OVERLAY : Z := -1.

(** [POLLOUT] (poll.h). *)
Definition POLLOUT : Z := 4.

(** ** Outcomes

    A call either returns, or leaves defined behaviour: a [DEBUGASSERT]
    that fires, an access outside an array, a division by zero. *)

Inductive trap : Type :=
  | AssertFailed
  | OutOfBounds
  | DivByZero.

Inductive outcome (A : Type) : Type :=
  | Done (a : A)
  | Trap (t : trap).
Arguments Done {A} a.
Arguments Trap {A} t.

#[global] Instance outcome_ret : MRet outcome := fun A a => Done a.
#[global] Instance outcome_bind : MBind outcome := fun A B f m =>
  match m with
  | Done a => f a
  | Trap t => Trap t
  end.

Definition returns {A} (m : outcome A) (a : A) : Prop := m = Done a.

(** ** Build configuration

    What fb.c takes from the build: [sizeof(union fb_paninfo_u)],
    [CONFIG_VIDEO_FB_NPOLLWAITERS], whether [DEBUGASSERT] is compiled in
    ([CONFIG_DEBUG_ASSERTIONS]) and the width of [size_t]. *)

Record config : Type := {
  sizeof_paninfo : nat;
  NPOLLWAITERS : nat;
  debug_assertions : bool;
  size_bits : Z;                (* width of size_t and ssize_t *)
  off_bits : Z                  (* width of off_t *)
}.

(** [DEBUGASSERT(c)] (assert.h, not part of the driver): the condition
    is checked only when assertions are compiled in, and is fatal then;
    otherwise the macro expands to nothing. *)
Definition DEBUGASSERT (cfg : config) (c : bool) : outcome unit :=
  if debug_assertions cfg && negb c then Trap AssertFailed else Done tt.

(** ** The ring buffer (nuttx/mm/circbuf.h) *)

(** Modelled from the spec: the ring-buffer collaborator, whose code
    (mm/circbuf) is not part of the driver.  It is a fixed-capacity byte
    queue; write, peek and skip transfer as many bytes as fit (are
    pending) and return that count, zero when nothing moved. *)
Record circbuf_s : Type := {
  cb_size : nat;              (* capacity in bytes *)
  cb_data : list byte         (* pending bytes, oldest first *)
}.

(** A ring buffer in cleared memory, as [kmm_zalloc] hands it out:
    nothing pending and no capacity. *)
Definition circbuf_zero : circbuf_s := {| cb_size := 0; cb_data := [] |}.

(** Modelled from the spec: [circbuf_init] with a buffer of its own (the
    [NULL] base the driver passes).  When the memory for the buffer is
    there ([ok]) the queue starts empty with the capacity asked for and 0
    is returned; when it is not, the structure is left as it was and the
    value returned is negative. *)
Definition circbuf_init (circ : circbuf_s) (bytes : nat) (ok : bool)
  : circbuf_s * Z :=
  if ok then ({| cb_size := bytes; cb_data := [] |}, 0)
  else (circ, - ENOMEM).

(** Modelled from the spec: [circbuf_used], [circbuf_space] and
    [circbuf_is_full]: the bytes pending, the bytes free, and whether no
    byte is free. *)
Definition circbuf_used (c : circbuf_s) : nat := length (cb_data c).

Definition circbuf_space (c : circbuf_s) : nat :=
  (cb_size c - circbuf_used c)%nat.

Definition circbuf_is_full (c : circbuf_s) : bool :=
  Nat.eqb (circbuf_space c) 0.

(** Modelled from the spec: [circbuf_write] appends as much of the
    request as there is room for and returns that count. *)
Definition circbuf_write (c : circbuf_s) (src : list byte) (bytes : nat)
  : circbuf_s * Z :=
  let n := Nat.min bytes (circbuf_space c) in
  ({| cb_size := cb_size c; cb_data := cb_data c ++ take n src |},
   Z.of_nat n).

(** Modelled from the spec: [circbuf_peek] copies the oldest bytes, as
    many as asked for and pending, without taking them out. *)
Definition circbuf_peek (c : circbuf_s) (bytes : nat) : list byte * Z :=
  let n := Nat.min bytes (circbuf_used c) in
  (take n (cb_data c), Z.of_nat n).

(** Modelled from the spec: [circbuf_skip] drops the oldest bytes, as
    many as asked for and pending. *)
Definition circbuf_skip (c : circbuf_s) (bytes : nat) : circbuf_s * Z :=
  let n := Nat.min bytes (circbuf_used c) in
  ({| cb_size := cb_size c; cb_data := drop n (cb_data c) |}, Z.of_nat n).

(** ** Driver state *)

(** A poll waiter ([struct pollfd *]) is known by its address. *)
Definition pollfd_ptr : Type := nat.

(** [struct fb_paninfo_s]. *)
Record fb_paninfo_s : Type := {
  buf : circbuf_s;
  fds : list (option pollfd_ptr)   (* NULL is [None] *)
}.

(** [struct fb_chardev_s].  The watchdog, when armed, holds the delay and
    the argument of its callback, the index of a pan-info slot;
    [paninfo_count] is the length of [paninfo]. *)
Record fb_chardev_s : Type := {
  plane : Z;
  vsyncoffset : Z;
  wdog : option (Z * Z);
  crefs : Z;
  paninfo : list fb_paninfo_s
}.

Definition paninfo_count (fb : fb_chardev_s) : Z :=
  Z.of_nat (length (paninfo fb)).

Definition set_paninfo (fb : fb_chardev_s) (l : list fb_paninfo_s)
  : fb_chardev_s :=
  {| plane := plane fb; vsyncoffset := vsyncoffset fb; wdog := wdog fb;
     crefs := crefs fb; paninfo := l |}.

Definition set_wdog (fb : fb_chardev_s) (w : option (Z * Z))
  : fb_chardev_s :=
  {| plane := plane fb; vsyncoffset := vsyncoffset fb; wdog := w;
     crefs := crefs fb; paninfo := paninfo fb |}.

Definition set_crefs (fb : fb_chardev_s) (n : Z) : fb_chardev_s :=
  {| plane := plane fb; vsyncoffset := vsyncoffset fb; wdog := wdog fb;
     crefs := n; paninfo := paninfo fb |}.

Definition set_vsyncoffset (fb : fb_chardev_s) (n : Z) : fb_chardev_s :=
  {| plane := plane fb; vsyncoffset := n; wdog := wdog fb;
     crefs := crefs fb; paninfo := paninfo fb |}.

(** Dereferencing [&fb->paninfo[id]]: outside the array the access is
    undefined. *)
Definition slot_at (fb : fb_chardev_s) (id : Z) : outcome fb_paninfo_s :=
  if (0 <=? id) && (id <? paninfo_count fb) then
    match paninfo fb !! Z.to_nat id with
    | Some p => Done p
    | None => Trap OutOfBounds
    end
  else Trap OutOfBounds.

Definition set_slot (fb : fb_chardev_s) (id : Z) (p : fb_paninfo_s)
  : fb_chardev_s :=
  set_paninfo fb (<[Z.to_nat id := p]> (paninfo fb)).

Definition set_buf (p : fb_paninfo_s) (c : circbuf_s) : fb_paninfo_s :=
  {| buf := c; fds := fds p |}.

Definition set_fds (p : fb_paninfo_s) (l : list (option pollfd_ptr))
  : fb_paninfo_s :=
  {| buf := buf p; fds := l |}.

(** ** Files, per-open-file state and the hardware's optional hooks *)

(** [struct fb_priv_s]. *)
Record fb_priv_s : Type := { overlay : Z }.

(** The kernel heap, as far as the driver's [fb_priv_s] allocations go:
    the live blocks by address. *)
Abbreviation kheap := (gmap nat fb_priv_s).

(** [struct file]: the fields the driver uses.  [f_priv] is the address
    of the file's [fb_priv_s], NULL being [None]. *)
Record file : Type := {
  f_priv : option nat;
  f_pos : Z
}.

(** Which optional operations of [struct fb_vtable_s] are not NULL. *)
Record fb_vtable_s : Type := {
  vt_open : bool;
  vt_close : bool;
  vt_pandisplay : bool;
  vt_panoverlay : bool
}.

(** What the surroundings answer during one call: the return value of
    [nxmutex_lock], whether [kmm_zalloc] finds memory, and the return
    value of the hardware hook if the call invokes one. *)
Record env : Type := {
  lock_ret : Z;
  alloc_ok : bool;
  hook_ret : Z
}.

(** Calls made to the hardware's open and close operations. *)
Inductive hook_call : Type :=
  | HwOpen
  | HwClose.

#[global] Instance hook_call_eq_dec : EqDecision hook_call.
Proof. solve_decision. Defined.

(** [int16_t]: conversion of a value to the type of [crefs]. *)
Definition to_int16 (z : Z) : Z := (z + 32768) mod 65536 - 32768.

(** Modelled from the spec: [kmm_zalloc] (nuttx/kmalloc.h) gives a block
    at an address not in use, or NULL when memory is short. *)
Definition kmm_zalloc (h : kheap) (ok : bool) : option nat :=
  if ok then Some (fresh (dom h)) else None.

(** Modelled from the spec: [kmm_free] releases a live block; releasing
    NULL does nothing, and releasing any other address is undefined. *)
Definition kmm_free (h : kheap) (p : option nat) : outcome kheap :=
  match p with
  | None => Done h
  | Some a => if decide (is_Some (h !! a)) then Done (delete a h)
              else Trap OutOfBounds
  end.

(** ** The hardware's answers *)

(** [struct fb_videoinfo_s], [struct fb_planeinfo_s] and
    [struct fb_overlayinfo_s]: the fields fb.c reads.  Frame memory is
    kept by content. *)
Record fb_videoinfo_s : Type := {
  vi_yres : Z;
  vi_nplanes : Z;
  vi_noverlays : Z
}.

Record fb_planeinfo_s : Type := {
  pi_fbmem : list byte;
  pi_fblen : Z;
  pi_yres_virtual : Z;
  pi_bpp : Z
}.

Record fb_overlayinfo_s : Type := {
  oi_fbmem : list byte;
  oi_fblen : Z;
  oi_yres : Z;
  oi_yres_virtual : Z;
  oi_bpp : Z
}.

(** The mandatory queries of the vtable and [getoverlayinfo], each giving
    its return value and what it stored. *)
Record fb_hw : Type := {
  getvideoinfo : Z * fb_videoinfo_s;
  getplaneinfo : Z -> Z * fb_planeinfo_s;
  getoverlayinfo : Z -> Z * fb_overlayinfo_s
}.

(** [struct fb_panelinfo_s]. *)
Record fb_panelinfo_s : Type := {
  fbmem : list byte;
  fblen : Z;
  fbcount : Z;
  bpp : Z
}.

Definition to_uint8 (z : Z) : Z := z mod 256.

(** [struct pollfd]: its address and its [priv] field, which the driver
    points at the waiter entry it took (slot, index). *)
Record pollfd : Type := {
  pfd_addr : pollfd_ptr;
  pfd_priv : option (Z * nat)
}.

(** The pan commands of [fb_ioctl].  The argument is the image of the
    local [union fb_paninfo_u] once the caller's structure has been
    copied into it; for the overlay command, with [oinfo->overlay]. *)
Inductive fb_cmd : Type :=
  | FBIOPAN_OVERLAY (ov : Z) (paninfo : list byte)
  | FBIOPAN_DISPLAY (paninfo : list byte).

(** Calls made to the hardware's pan operations, with what they
    returned. *)
Inductive pan_call : Type :=
  | HwPanOverlay (ret : Z)
  | HwPanDisplay (ret : Z).

(** What the surroundings answer during registration: whether the
    device and the slot array find memory, whether [circbuf_init] finds
    memory for the ring buffer of slot [i], and what [register_driver]
    returns. *)
Record reg_env : Type := {
  alloc_fb_ok : bool;
  alloc_paninfo_ok : bool;
  alloc_circbuf_ok : Z -> bool;
  register_driver_ret : Z
}.

Section Driver.

Context (cfg : config).

Let P : nat := sizeof_paninfo cfg.

(** ** fb_get_free_pollfds *)

Fixpoint first_free (l : list (option pollfd_ptr)) (i : nat) : option nat :=
  match l with
  | [] => None
  | None :: _ => Some i
  | Some _ :: t => first_free t (S i)
  end.

(** Returns the address of the free entry, as (slot, index), or NULL. *)
Definition fb_get_free_pollfds (fb : fb_chardev_s) (overlay : Z)
  : outcome (option (Z * nat)) :=
  let id := overlay + 1 in
  _ ← DEBUGASSERT cfg ((0 <=? id) && (id <? paninfo_count fb));
  p ← slot_at fb id;
  Done (match first_free (take (NPOLLWAITERS cfg) (fds p)) 0 with
        | Some i => Some (id, i)
        | None => None
        end).

(** ** fb_get_panbuf

    The result is the address of the slot's ring buffer, kept as the slot
    index; it is never NULL. *)
Definition fb_get_panbuf (fb : fb_chardev_s) (overlay : Z)
  : outcome (option Z) :=
  let id := overlay + 1 in
  _ ← DEBUGASSERT cfg ((0 <=? id) && (id <? paninfo_count fb));
  Done (Some id).

(** ** fb_add_paninfo

    [priv] is [vtable->priv]; the result carries its new value. *)
Definition fb_add_paninfo (priv : option fb_chardev_s) (info : list byte)
    (overlay : Z) : outcome (option fb_chardev_s * Z) :=
  match priv with
  | None => Done (None, - EINVAL)
  | Some fb =>
      panbuf ← fb_get_panbuf fb overlay;
      match panbuf with
      | None => Done (Some fb, - EINVAL)
      | Some id =>
          p ← slot_at fb id;
          let '(c, ret) := circbuf_write (buf p) info P in
          let fb' := set_slot fb id (set_buf p c) in
          _ ← DEBUGASSERT cfg (ret =? Z.of_nat P);
          Done (Some fb', if ret <=? 0 then - ENOSPC else OK)
      end
  end.

(** ** fb_do_pollnotify

    The watchdog callback.  [poll_notify(&fds[i], 1, POLLOUT)] is an
    external call; the waiters it is called on are returned, in order. *)
Definition fb_do_pollnotify (p : fb_paninfo_s) : list pollfd_ptr :=
  omap id (take (NPOLLWAITERS cfg) (fds p)).

(** ** fb_pollnotify *)

(** Modelled from the spec: [wd_start] (nuttx/wdog.h) arms the one-shot
    watchdog for a delay, a callback and its argument; arming a watchdog
    that is already armed replaces what it held. *)
Definition wd_start (fb : fb_chardev_s) (delay : Z) (arg : Z)
  : fb_chardev_s :=
  set_wdog fb (Some (delay, arg)).

(** The result is the new [vtable->priv] and the waiters signalled
    before the call returns. *)
Definition fb_pollnotify (priv : option fb_chardev_s) (overlay : Z)
  : outcome (option fb_chardev_s * list pollfd_ptr) :=
  let id := overlay + 1 in
  match priv with
  | None => Done (None, [])
  | Some fb =>
      _ ← DEBUGASSERT cfg ((0 <=? id) && (id <? paninfo_count fb));
      if 0 <? vsyncoffset fb then
        Done (Some (wd_start fb (vsyncoffset fb) id), [])
      else
        p ← slot_at fb id;
        Done (Some fb, fb_do_pollnotify p)
  end.

(** Modelled from the spec: expiry of the one-shot watchdog (the timer
    layer, nuttx/wdog.h); the timer is disarmed and the callback runs on
    the argument it was armed with. *)
Definition wdog_expire (fb : fb_chardev_s)
  : outcome (fb_chardev_s * list pollfd_ptr) :=
  match wdog fb with
  | None => Done (fb, [])
  | Some (_, arg) =>
      p ← slot_at fb arg;
      Done (set_wdog fb None, fb_do_pollnotify p)
  end.

(** ** fb_peek_paninfo

    The result is the return value and what was copied to [*info]. *)
Definition fb_peek_paninfo (priv : option fb_chardev_s) (overlay : Z)
  : outcome (Z * list byte) :=
  match priv with
  | None => Done (- EINVAL, [])
  | Some fb =>
      panbuf ← fb_get_panbuf fb overlay;
      match panbuf with
      | None => Done (- EINVAL, [])
      | Some id =>
          p ← slot_at fb id;
          let '(info, ret) := circbuf_peek (buf p) P in
          _ ← DEBUGASSERT cfg ((ret <=? 0) || (ret =? Z.of_nat P));
          Done (if ret <=? 0 then - ENOSPC else OK, info)
      end
  end.

(** ** fb_remove_paninfo

    The result is the new [vtable->priv], the return value and the
    waiters signalled before the call returns. *)
Definition fb_remove_paninfo (priv : option fb_chardev_s) (overlay : Z)
  : outcome (option fb_chardev_s * Z * list pollfd_ptr) :=
  match priv with
  | None => Done (None, - EINVAL, [])
  | Some fb =>
      panbuf ← fb_get_panbuf fb overlay;
      match panbuf with
      | None => Done (Some fb, - EINVAL, [])
      | Some id =>
          p ← slot_at fb id;
          let '(c, ret) := circbuf_skip (buf p) P in
          let fb' := set_slot fb id (set_buf p c) in
          _ ← DEBUGASSERT cfg ((ret <=? 0) || (ret =? Z.of_nat P));
          '(priv', woken) ←
            (if ret =? Z.of_nat P then fb_pollnotify (Some fb') overlay
             else Done (Some fb', []));
          Done (priv', if ret <=? 0 then - ENOSPC else OK, woken)
      end
  end.

(** ** fb_paninfo_count *)
Definition fb_paninfo_count (priv : option fb_chardev_s) (overlay : Z)
  : outcome Z :=
  match priv with
  | None => Done (- EINVAL)
  | Some fb =>
      panbuf ← fb_get_panbuf fb overlay;
      match panbuf with
      | None => Done (- EINVAL)
      | Some id =>
          p ← slot_at fb id;
          Done (Z.of_nat (circbuf_used (buf p)) / Z.of_nat P)
      end
  end.

(** ** fb_open

    The result is the return value, the device, the heap, the file and
    the hardware hooks called. *)
Definition fb_open (vt : fb_vtable_s) (e : env) (fb : fb_chardev_s)
    (h : kheap) (filep : file)
  : outcome (Z * fb_chardev_s * kheap * file * list hook_call) :=
  if lock_ret e <? 0 then Done (lock_ret e, fb, h, filep, [])
  else
    match kmm_zalloc h (alloc_ok e) with
    | None => Done (- ENOMEM, fb, h, filep, [])
    | Some priv =>
        let called := (crefs fb =? 0) && vt_open vt in
        let calls := if called then [HwOpen] else [] in
        if called && (hook_ret e <? 0) then
          (* err_fb: the block is released again *)
          Done (hook_ret e, fb, h, filep, calls)
        else
          let fb' := set_crefs fb (to_int16 (crefs fb + 1)) in
          _ ← DEBUGASSERT cfg (0 <? crefs fb');
          Done (0, fb',
                <[priv := {| overlay := FB_NO_OVERLAY |}]> h,
                {| f_priv := Some priv; f_pos := f_pos filep |},
                calls)
    end.

(** ** fb_close *)
Definition fb_close (vt : fb_vtable_s) (e : env) (fb : fb_chardev_s)
    (h : kheap) (filep : file)
  : outcome (Z * fb_chardev_s * kheap * list hook_call) :=
  _ ← DEBUGASSERT cfg (bool_decide (is_Some (f_priv filep)));
  if lock_ret e <? 0 then Done (lock_ret e, fb, h, [])
  else
    let called := (crefs fb =? 1) && vt_close vt in
    let ret := if called then hook_ret e else lock_ret e in
    let calls := if called then [HwClose] else [] in
    if 0 <=? ret then
      _ ← DEBUGASSERT cfg (0 <? crefs fb);
      h' ← kmm_free h (f_priv filep);
      Done (ret, set_crefs fb (to_int16 (crefs fb - 1)), h', calls)
    else Done (ret, fb, h, calls).

(** ** fb_get_planeinfo *)
Definition fb_get_planeinfo (hw : fb_hw) (fb : fb_chardev_s)
  : Z * fb_planeinfo_s :=
  let '(ret, pinfo) := getplaneinfo hw (plane fb) in
  if ret <? 0 then (ret, pinfo) else (OK, pinfo).

(** ** fb_get_panelinfo

    [CONFIG_FB_OVERLAY] is on.  When the query fails [*panelinfo] is
    left as it was; the callers do not read it then. *)
Definition no_panelinfo : fb_panelinfo_s :=
  {| fbmem := []; fblen := 0; fbcount := 0; bpp := 0 |}.

Definition fb_get_panelinfo (hw : fb_hw) (fb : fb_chardev_s) (ov : Z)
  : outcome (Z * fb_panelinfo_s) :=
  if negb (ov =? FB_NO_OVERLAY) then
    let '(ret, oinfo) := getoverlayinfo hw ov in
    if ret <? 0 then Done (ret, no_panelinfo)
    else
      count ← (if oi_yres_virtual oinfo =? 0 then Done 1
               else if oi_yres oinfo =? 0 then Trap DivByZero
               else Done (oi_yres_virtual oinfo / oi_yres oinfo));
      Done (OK, {| fbmem := oi_fbmem oinfo; fblen := oi_fblen oinfo;
                   fbcount := to_uint8 count; bpp := oi_bpp oinfo |})
  else
    let '(ret, pinfo) := fb_get_planeinfo hw fb in
    if ret <? 0 then Done (ret, no_panelinfo)
    else
      let '(ret, vinfo) := getvideoinfo hw in
      if ret <? 0 then Done (ret, no_panelinfo)
      else
        count ← (if pi_yres_virtual pinfo =? 0 then Done 1
                 else if vi_yres vinfo =? 0 then Trap DivByZero
                 else Done (pi_yres_virtual pinfo / vi_yres vinfo));
        Done (OK, {| fbmem := pi_fbmem pinfo; fblen := pi_fblen pinfo;
                     fbcount := to_uint8 count; bpp := pi_bpp pinfo |}).

(** ** fb_read and fb_write *)

(** Conversions to [size_t], [ssize_t] and [off_t]. *)
Definition to_size (z : Z) : Z := z mod 2 ^ size_bits cfg.

Definition to_ssize (z : Z) : Z :=
  (z + 2 ^ (size_bits cfg - 1)) mod 2 ^ size_bits cfg
  - 2 ^ (size_bits cfg - 1).

Definition to_off (z : Z) : Z :=
  (z + 2 ^ (off_bits cfg - 1)) mod 2 ^ off_bits cfg
  - 2 ^ (off_bits cfg - 1).

(** [filep->f_priv], dereferenced. *)
Definition priv_of (h : kheap) (filep : file) : outcome fb_priv_s :=
  _ ← DEBUGASSERT cfg (bool_decide (is_Some (f_priv filep)));
  match f_priv filep ≫= (h !!.) with
  | Some priv => Done priv
  | None => Trap OutOfBounds
  end.

(** [memcpy] out of and into frame memory: [size] bytes at offset
    [start]; undefined when that range leaves the memory. *)
Definition fbmem_load (mem : list byte) (start size : Z)
  : outcome (list byte) :=
  if start + size <=? Z.of_nat (length mem) then
    Done (take (Z.to_nat size) (drop (Z.to_nat start) mem))
  else Trap OutOfBounds.

Definition fbmem_store (mem : list byte) (start size : Z)
    (buffer : nat -> byte) : outcome (list byte) :=
  if start + size <=? Z.of_nat (length mem) then
    Done (take (Z.to_nat start) mem
          ++ map buffer (seq 0 (Z.to_nat size))
          ++ drop (Z.to_nat (start + size)) mem)
  else Trap OutOfBounds.

(** The result is the return value, the file and the bytes copied to
    the caller's buffer. *)
Definition fb_read (hw : fb_hw) (fb : fb_chardev_s) (h : kheap)
    (filep : file) (len : Z) : outcome (Z * file * list byte) :=
  priv ← priv_of h filep;
  '(ret, panelinfo) ← fb_get_panelinfo hw fb (overlay priv);
  if ret <? 0 then Done (ret, filep, [])
  else
    let start := to_size (f_pos filep) in
    if fblen panelinfo <=? start then Done (0, filep, [])
    else
      let end_ := to_size (start + len) in
      let end_ := if fblen panelinfo <=? end_ then fblen panelinfo
                  else end_ in
      let size := to_size (end_ - start) in
      data ← fbmem_load (fbmem panelinfo) start size;
      Done (to_ssize size,
            {| f_priv := f_priv filep;
               f_pos := to_off (f_pos filep + size) |},
            data).

(** The caller's buffer is given by content, byte by offset.  The result
    is the return value, the file and the frame memory if it was written
    to. *)
Definition fb_write (hw : fb_hw) (fb : fb_chardev_s) (h : kheap)
    (filep : file) (buffer : nat -> byte) (len : Z)
  : outcome (Z * file * option (list byte)) :=
  priv ← priv_of h filep;
  '(ret, panelinfo) ← fb_get_panelinfo hw fb (overlay priv);
  if ret <? 0 then Done (ret, filep, None)
  else
    let start := to_size (f_pos filep) in
    if fblen panelinfo <=? start then Done (- EFBIG, filep, None)
    else
      let end_ := to_size (start + len) in
      let end_ := if fblen panelinfo <=? end_ then fblen panelinfo
                  else end_ in
      let size := to_size (end_ - start) in
      mem ← fbmem_store (fbmem panelinfo) start size buffer;
      Done (to_ssize size,
            {| f_priv := f_priv filep;
               f_pos := to_off (f_pos filep + size) |},
            Some mem).

(** ** fb_ioctl, pan commands

    The result is the new device, the return value and the hardware
    calls made. *)
Definition fb_ioctl (vt : fb_vtable_s) (e : env) (fb : fb_chardev_s)
    (cmd : fb_cmd) : outcome (option fb_chardev_s * Z * list pan_call) :=
  match cmd with
  | FBIOPAN_OVERLAY ov paninfo =>
      let calls :=
        if vt_panoverlay vt then [HwPanOverlay (hook_ret e)] else [] in
      '(priv, ret) ← fb_add_paninfo (Some fb) paninfo ov;
      Done (priv, ret, calls)
  | FBIOPAN_DISPLAY paninfo =>
      let calls :=
        if vt_pandisplay vt then [HwPanDisplay (hook_ret e)] else [] in
      '(priv, ret) ← fb_add_paninfo (Some fb) paninfo FB_NO_OVERLAY;
      Done (priv, ret, calls)
  end.

(** ** fb_poll

    The result is the return value, the device, the caller's [pollfd]
    and the waiters signalled. *)
Definition fb_poll (fb : fb_chardev_s) (h : kheap) (filep : file)
    (pfd : pollfd) (setup : bool)
  : outcome (Z * fb_chardev_s * pollfd * list pollfd_ptr) :=
  _ ← DEBUGASSERT cfg (bool_decide (is_Some (f_priv filep)));
  if setup then
    priv ← priv_of h filep;
    pollfds ← fb_get_free_pollfds fb (overlay priv);
    match pollfds with
    | None => Done (- EBUSY, fb, pfd, [])
    | Some (id, i) =>
        p ← slot_at fb id;
        let fb' :=
          set_slot fb id (set_fds p (<[i := Some (pfd_addr pfd)]> (fds p))) in
        let pfd' := {| pfd_addr := pfd_addr pfd; pfd_priv := Some (id, i) |} in
        panbuf ← fb_get_panbuf fb' (overlay priv);
        match panbuf with
        | None => Trap OutOfBounds
        | Some id' =>
            p' ← slot_at fb' id';
            Done (OK, fb', pfd',
                  if circbuf_is_full (buf p') then [] else [pfd_addr pfd])
        end
    end
  else
    match pfd_priv pfd with
    | Some (id, i) =>
        p ← slot_at fb id;
        if decide (i < length (fds p))%nat then
          Done (OK, set_slot fb id (set_fds p (<[i := None]> (fds p))),
                {| pfd_addr := pfd_addr pfd; pfd_priv := None |}, [])
        else Trap OutOfBounds
    | None => Done (OK, fb, pfd, [])
    end.

(** ** fb_register_device

    The loop over the pan-info slots, which lie in cleared memory: slot
    [i] is sized from the panel information of overlay [i - 1], and the
    value [circbuf_init] returns is only asserted to be 0.  Clearing the
    frame memory is left to the hardware side of the model. *)
Fixpoint init_paninfo (hw : fb_hw) (r : reg_env) (fb : fb_chardev_s)
    (ids : list Z) : outcome (Z * list fb_paninfo_s) :=
  match ids with
  | [] => Done (OK, [])
  | i :: rest =>
      '(ret, panelinfo) ← fb_get_panelinfo hw fb (i - 1);
      if ret <? 0 then Done (ret, [])
      else
        let '(c, ret) :=
          circbuf_init circbuf_zero (Z.to_nat (fbcount panelinfo) * P)
            (alloc_circbuf_ok r i) in
        _ ← DEBUGASSERT cfg (ret =? 0);
        let slot := {| buf := c; fds := replicate (NPOLLWAITERS cfg) None |} in
        '(ret', slots) ← init_paninfo hw r fb rest;
        Done (ret', slot :: slots)
  end.

(** The result is the return value and [vtable->priv]. *)
Definition fb_register_device (hw : fb_hw) (r : reg_env) (plane : Z)
  : outcome (Z * option fb_chardev_s) :=
  if negb (alloc_fb_ok r) then Done (- ENOMEM, None)
  else
    let fb := {| plane := to_uint8 plane; vsyncoffset := 0; wdog := None;
                 crefs := 0; paninfo := [] |} in
    _ ← DEBUGASSERT cfg ((0 <=? plane) && (plane <=? 255));
    let '(ret, vinfo) := getvideoinfo hw in
    if ret <? 0 then Done (ret, None)
    else
      _ ← DEBUGASSERT cfg ((0 <? vi_nplanes vinfo)
                           && (plane <? vi_nplanes vinfo));
      let count := vi_noverlays vinfo + 1 in
      if negb (alloc_paninfo_ok r) then Done (ret, None)
      else
        '(ret, slots) ← init_paninfo hw r fb (seqZ 0 count);
        if ret <? 0 then Done (ret, None)
        else
          let ret := register_driver_ret r in
          if ret <? 0 then Done (ret, None)
          else Done (OK, Some (set_paninfo fb slots)).

(** ** Callers *)

(** A run of enqueues on one surface, as the pan ioctls make them: the
    return values are collected, oldest first. *)
Fixpoint enqueue_all (priv : option fb_chardev_s) (rs : list (list byte))
    (ov : Z) : outcome (option fb_chardev_s * list Z) :=
  match rs with
  | [] => Done (priv, [])
  | r :: rest =>
      '(priv', ret) ← fb_add_paninfo priv r ov;
      '(priv'', rets) ← enqueue_all priv' rest ov;
      Done (priv'', ret :: rets)
  end.

(** Modelled from the spec: the file layer above the driver (fs/vfs,
    not part of the driver).  [open] calls [fb_open] on a new file and
    keeps the file when the driver accepts it; [close] calls [fb_close]
    on an open file and drops the file when the driver returns success.
    A close of a file that is not open does not reach the driver. *)
Inductive vfs_call : Type :=
  | VfsOpen (e : env)
  | VfsClose (n : nat) (e : env).

Record vfs : Type := {
  v_fb : fb_chardev_s;
  v_heap : kheap;
  v_files : list file
}.

(** What one call showed: whether it was an open, the counter before
    and after, the hardware hooks called and the return value. *)
Record step_obs : Type := {
  so_open : bool;
  so_before : Z;
  so_after : Z;
  so_calls : list hook_call;
  so_ret : Z
}.

Definition vfs_step (vt : fb_vtable_s) (s : vfs) (c : vfs_call)
  : outcome (vfs * option step_obs) :=
  match c with
  | VfsOpen e =>
      '(ret, fb', h', filep', calls) ←
        fb_open vt e (v_fb s) (v_heap s) {| f_priv := None; f_pos := 0 |};
      Done ({| v_fb := fb'; v_heap := h';
               v_files := if 0 <=? ret then v_files s ++ [filep']
                          else v_files s |},
            Some {| so_open := true; so_before := crefs (v_fb s);
                    so_after := crefs fb'; so_calls := calls;
                    so_ret := ret |})
  | VfsClose n e =>
      match v_files s !! n with
      | None => Done (s, None)
      | Some filep =>
          '(ret, fb', h', calls) ← fb_close vt e (v_fb s) (v_heap s) filep;
          Done ({| v_fb := fb'; v_heap := h';
                   v_files := if 0 <=? ret then delete n (v_files s)
                              else v_files s |},
                Some {| so_open := false; so_before := crefs (v_fb s);
                        so_after := crefs fb'; so_calls := calls;
                        so_ret := ret |})
      end
  end.

Fixpoint vfs_run (vt : fb_vtable_s) (s : vfs) (cs : list vfs_call)
  : outcome (vfs * list step_obs) :=
  match cs with
  | [] => Done (s, [])
  | c :: rest =>
      '(s', o) ← vfs_step vt s c;
      '(s'', os) ← vfs_run vt s' rest;
      Done (s'', option_list o ++ os)
  end.

End Driver.

Arguments fb_open : simpl never.
Arguments fb_close : simpl never.
Arguments fb_add_paninfo : simpl never.
Arguments fb_peek_paninfo : simpl never.
Arguments fb_remove_paninfo : simpl never.
Arguments fb_paninfo_count : simpl never.
Arguments fb_pollnotify : simpl never.
Arguments fb_poll : simpl never.
Arguments fb_read : simpl never.
Arguments fb_write : simpl never.
Arguments fb_get_panelinfo : simpl never.
Arguments vfs_step : simpl never.

(** A device right after registration, before any open. *)
Definition vfs_init (fb : fb_chardev_s) : vfs :=
  {| v_fb := fb; v_heap := ∅; v_files := [] |}.

(** ** Views of the pan commands *)

Definition pan_record (cmd : fb_cmd) : list byte :=
  match cmd with
  | FBIOPAN_OVERLAY _ r => r
  | FBIOPAN_DISPLAY r => r
  end.

Definition pan_surface (cmd : fb_cmd) : Z :=
  match cmd with
  | FBIOPAN_OVERLAY ov _ => ov
  | FBIOPAN_DISPLAY _ => FB_NO_OVERLAY
  end.

Definition pan_hook (vt : fb_vtable_s) (cmd : fb_cmd) : bool :=
  match cmd with
  | FBIOPAN_OVERLAY _ _ => vt_panoverlay vt
  | FBIOPAN_DISPLAY _ => vt_pandisplay vt
  end.

Definition pan_hook_call (cmd : fb_cmd) (ret : Z) : pan_call :=
  match cmd with
  | FBIOPAN_OVERLAY _ _ => HwPanOverlay ret
  | FBIOPAN_DISPLAY _ => HwPanDisplay ret
  end.

(** The device and return value of an ioctl, without the hardware calls. *)
Definition ioctl_result (m : outcome (option fb_chardev_s * Z * list pan_call))
  : outcome (option fb_chardev_s * Z) :=
  '(priv, ret, _) ← m; Done (priv, ret).

(** ** Sample builds and devices *)

Definition cfg_release : config :=
  {| sizeof_paninfo := 4; NPOLLWAITERS := 2; debug_assertions := false;
     size_bits := 32; off_bits := 32 |}.

Definition cfg_debug : config :=
  {| sizeof_paninfo := 4; NPOLLWAITERS := 2; debug_assertions := true;
     size_bits := 32; off_bits := 32 |}.

Definition empty_slot (bytes : nat) : fb_paninfo_s :=
  {| buf := {| cb_size := bytes; cb_data := [] |}; fds := [None; None] |}.

(** A device without overlays: one slot, room for two records. *)
Definition fb_primary_only : fb_chardev_s :=
  {| plane := 0; vsyncoffset := 0; wdog := None; crefs := 0;
     paninfo := [empty_slot 8] |}.

Definition rec_a : list byte := [x01; x02; x03; x04]%byte.
Definition rec_b : list byte := [x0a; x0b; x0c; x0d]%byte.

Definition vt_all : fb_vtable_s :=
  {| vt_open := true; vt_close := true; vt_pandisplay := true;
     vt_panoverlay := true |}.

Definition env_hook (ret : Z) : env :=
  {| lock_ret := 0; alloc_ok := true; hook_ret := ret |}.

Definition file_at (a : nat) : file := {| f_priv := Some a; f_pos := 0 |}.

Definition heap_of (a : nat) : kheap :=
  {[ a := {| overlay := FB_NO_OVERLAY |} ]}.

(** ** Reference counting, as seen from the file layer *)

(** The state the file layer keeps the driver in: the counter is the
    number of open files, and the open files own distinct live blocks. *)
Definition vfs_inv (s : vfs) : Prop :=
  crefs (v_fb s) = Z.of_nat (length (v_files s)) /\
  exists addrs : list nat,
    f_priv <$> v_files s = Some <$> addrs /\
    NoDup addrs /\
    Forall (fun a => is_Some (v_heap s !! a)) addrs.

(** What one call may show.  The counter is not negative and moves by
    at most one; an open calls the open hook only when it finds the
    counter at 0, and the counter then reaches 1 exactly when the hook
    succeeds; a move from 0 to 1 without the hook being called happens
    only when the hardware has no open hook.  Likewise for close, the
    close hook and the move from 1 to 0. *)
Definition step_ok (vt : fb_vtable_s) (o : step_obs) : Prop :=
  0 <= so_before o /\ 0 <= so_after o /\
  (if so_open o then
     so_after o = so_before o \/
     (so_ret o = 0 /\ so_after o = so_before o + 1)
   else
     so_after o = so_before o \/
     (0 <= so_ret o /\ so_after o = so_before o - 1)) /\
  (if so_open o then
     (so_calls o = [HwOpen] /\ so_before o = 0 /\ vt_open vt = true /\
      (so_after o = 1 <-> 0 <= so_ret o)) \/
     (so_calls o = [] /\
      (so_before o = 0 -> so_after o = 1 -> vt_open vt = false))
   else
     (so_calls o = [HwClose] /\ so_before o = 1 /\ vt_close vt = true /\
      (so_after o = 0 <-> 0 <= so_ret o)) \/
     (so_calls o = [] /\
      (so_before o = 1 -> so_after o = 0 -> vt_close vt = false))).

(** The claim read literally: the calls of a hook are as many as the
    moves of the counter from 0 to 1 (from 1 to 0). *)
Definition rises (o : step_obs) : bool :=
  so_open o && (so_before o =? 0) && (so_after o =? 1).

Definition falls (o : step_obs) : bool :=
  negb (so_open o) && (so_before o =? 1) && (so_after o =? 0).

Definition hook_calls (k : hook_call) (os : list step_obs) : nat :=
  length (filter (fun c => c = k) (os ≫= so_calls)).

Definition count_obs (f : step_obs -> bool) (os : list step_obs) : nat :=
  length (filter (fun o => f o = true) os).

(** An environment in which nothing fails. *)
Definition env_fine (e : env) : Prop :=
  0 <= lock_ret e /\ alloc_ok e = true /\ 0 <= hook_ret e.

(** The reference-counting claim read literally, for the calls [cs] made
    on a device that has just been registered. *)
Definition hooks_exactly_on_transitions (cfg : config) (vt : fb_vtable_s)
    (fb : fb_chardev_s) (cs : list vfs_call) : Prop :=
  forall s os,
    vfs_run cfg vt (vfs_init fb) cs = Done (s, os) ->
    0 <= crefs (v_fb s) /\
    hook_calls HwOpen os = count_obs rises os /\
    hook_calls HwClose os = count_obs falls os.

(** The calls [cs], made from the state [s], never open a file while
    32767 files are open: the counter, an [int16_t], is never asked to
    go past its largest value. *)
Fixpoint refs_within (cfg : config) (vt : fb_vtable_s) (s : vfs)
    (cs : list vfs_call) : bool :=
  match cs with
  | [] => true
  | c :: rest =>
      match c with
      | VfsOpen _ => Z.of_nat (length (v_files s)) <? 32767
      | VfsClose _ _ => true
      end
      && match vfs_step cfg vt s c with
         | Done (s', _) => refs_within cfg vt s' rest
         | Trap _ => true
         end
  end.

(** ** The queue claims read literally *)

(** Enqueue then dequeue returns the record: what [fb_remove_paninfo]
    returns after the enqueue of [r] is, read through [decode], the
    record [r]. *)
Definition dequeue_returns_enqueued (cfg : config) (fb : fb_chardev_s)
    (ov : Z) (decode : Z -> list byte) (r : list byte) : Prop :=
  forall priv,
    fb_add_paninfo cfg (Some fb) r ov = Done (priv, OK) ->
    exists priv' ret woken,
      fb_remove_paninfo cfg priv ov = Done (priv', ret, woken) /\
      decode ret = r.

(** The enqueue after the ring buffer has filled up fails [QueueFull]. *)
Definition enqueue_on_full_fails (cfg : config) (fb : fb_chardev_s)
    (r : list byte) (ov : Z) : Prop :=
  exists priv, fb_add_paninfo cfg (Some fb) r ov = Done (priv, QueueFull).

(** One slot with room for two records, [data] pending. *)
Definition fb_holding (data : list byte) : fb_chardev_s :=
  {| plane := 0; vsyncoffset := 0; wdog := None; crefs := 0;
     paninfo := [{| buf := {| cb_size := 8; cb_data := data |};
                    fds := [None; None] |}] |}.

(** Hardware with one overlay whose primary plane and overlay are both
    double-buffered (virtual height twice the height). *)
Definition hw_double : fb_hw :=
  {| getvideoinfo := (0, {| vi_yres := 10; vi_nplanes := 1;
                            vi_noverlays := 1 |});
     getplaneinfo := fun _ =>
       (0, {| pi_fbmem := []; pi_fblen := 0; pi_yres_virtual := 20;
              pi_bpp := 8 |});
     getoverlayinfo := fun _ =>
       (0, {| oi_fbmem := []; oi_fblen := 0; oi_yres := 10;
              oi_yres_virtual := 20; oi_bpp := 8 |}) |}.

Definition reg_fine : reg_env :=
  {| alloc_fb_ok := true; alloc_paninfo_ok := true;
     alloc_circbuf_ok := fun _ => true; register_driver_ret := 0 |}.

(** A registration in which only the ring buffer of the primary surface
    finds no memory. *)
Definition reg_no_ring : reg_env :=
  {| alloc_fb_ok := true; alloc_paninfo_ok := true;
     alloc_circbuf_ok := fun i => negb (i =? 0); register_driver_ret := 0 |}.

(** The device [hw_double] registers as: two slots of two records. *)
Definition fb_double : fb_chardev_s :=
  {| plane := 0; vsyncoffset := 0; wdog := None; crefs := 0;
     paninfo := [empty_slot 8; empty_slot 8] |}.

(** What registration makes of slot [i]: no waiter, and the ring
    buffer [circbuf_init] left, sized from the panel information of
    overlay [i - 1]; a build with assertions got 0 from [circbuf_init]. *)
Definition slot_registered (cfg : config) (hw : fb_hw) (r : reg_env)
    (fb : fb_chardev_s) (i : Z) (slot : fb_paninfo_s) : Prop :=
  exists ret panelinfo,
    fb_get_panelinfo hw fb (i - 1) = Done (ret, panelinfo) /\
    0 <= ret /\
    let init :=
      circbuf_init circbuf_zero
        (Z.to_nat (fbcount panelinfo) * sizeof_paninfo cfg)
        (alloc_circbuf_ok r i) in
    slot = {| buf := init.1; fds := replicate (NPOLLWAITERS cfg) None |} /\
    (debug_assertions cfg = true -> init.2 = 0).

(** One slot with room for two records, [data] pending and the waiter
    entries [w]. *)
Definition fb_with (data : list byte) (w : list (option pollfd_ptr))
  : fb_chardev_s :=
  {| plane := 0; vsyncoffset := 0; wdog := None; crefs := 0;
     paninfo := [{| buf := {| cb_size := 8; cb_data := data |};
                    fds := w |}] |}.

(** ** Deferred notification on a device with an overlay *)

(** Primary surface and overlay 0 with one record pending each, waiter
    10 on the primary surface and waiter 20 on the overlay, and the
    vsync offset given. *)
Definition fb_two_surfaces (offset : Z) : fb_chardev_s :=
  {| plane := 0; vsyncoffset := offset; wdog := None; crefs := 0;
     paninfo := [{| buf := {| cb_size := 8; cb_data := rec_a |};
                    fds := [Some 10%nat; None] |};
                 {| buf := {| cb_size := 8; cb_data := rec_b |};
                    fds := [Some 20%nat; None] |}] |}.

(** The hardware reports a frame consumed on the primary surface, then
    one on overlay 0; afterwards the watchdog expires (and would expire
    again, were it still armed).  The result is every waiter signalled,
    in order. *)
Definition dequeue_both_then_expire (cfg : config) (fb : fb_chardev_s)
  : outcome (list pollfd_ptr) :=
  '(priv1, _, w1) ← fb_remove_paninfo cfg (Some fb) FB_NO_OVERLAY;
  '(priv2, _, w2) ← fb_remove_paninfo cfg priv1 0;
  match priv2 with
  | Some fb2 =>
      '(fb3, w3) ← wdog_expire cfg fb2;
      '(_, w4) ← wdog_expire cfg fb3;
      Done (w1 ++ w2 ++ w3 ++ w4)
  | None => Done (w1 ++ w2)
  end.

(** ** Sample surface for read and write *)

Definition mem_ten : list byte :=
  [x00; x01; x02; x03; x04; x05; x06; x07; x08; x09]%byte.

(** Hardware without overlays whose one plane has the frame memory
    [mem], reported at its length. *)
Definition hw_mem (mem : list byte) : fb_hw :=
  {| getvideoinfo := (0, {| vi_yres := 10; vi_nplanes := 1;
                            vi_noverlays := 0 |});
     getplaneinfo := fun _ =>
       (0, {| pi_fbmem := mem; pi_fblen := Z.of_nat (length mem);
              pi_yres_virtual := 0; pi_bpp := 8 |});
     getoverlayinfo := fun _ =>
       (- EINVAL, {| oi_fbmem := []; oi_fblen := 0; oi_yres := 0;
                     oi_yres_virtual := 0; oi_bpp := 0 |}) |}.

Definition file_pos (a : nat) (pos : Z) : file :=
  {| f_priv := Some a; f_pos := pos |}.

(** The caller's buffer for the write samples: all bytes [xff]. *)
Definition buffer_ff : nat -> byte := fun _ => xff.

(** [SIZE_MAX] where [size_t] has 32 bits. *)
Definition SIZE_MAX_32 : Z := 4294967295.

(** * The rest of the driver *)

(** ** fb_seek *)

(** [SEEK_SET], [SEEK_CUR] and [SEEK_END] (sys/types.h). *)
Definition SEEK_SET : Z := 0.
Definition SEEK_CUR : Z := 1.
Definition SEEK_END : Z := 2.

(** Conversion to [int], of the width given. *)
Definition to_int (int_bits : Z) (z : Z) : Z :=
  (z + 2 ^ (int_bits - 1)) mod 2 ^ int_bits - 2 ^ (int_bits - 1).

(** The new position is computed in [off_t]; the value returned passes
    through the local [int ret].  The result is the return value and
    the file. *)
Definition fb_seek (cfg : config) (int_bits : Z) (hw : fb_hw)
    (fb : fb_chardev_s) (h : kheap) (filep : file) (offset whence : Z)
  : outcome (Z * file) :=
  _ ← DEBUGASSERT cfg (bool_decide (is_Some (f_priv filep)));
  newpos ←
    (if whence =? SEEK_CUR then
       Done (inr (to_off cfg (f_pos filep + offset)))
     else if whence =? SEEK_SET then Done (inr offset)
     else if whence =? SEEK_END then
       priv ← priv_of cfg h filep;
       '(ret, panelinfo) ← fb_get_panelinfo hw fb (overlay priv);
       if ret <? 0 then Done (inl ret)
       else Done (inr (to_off cfg (fblen panelinfo + offset)))
     else Done (inl (- EINVAL)));
  match newpos with
  | inl ret => Done (ret, filep)
  | inr newpos =>
      if 0 <=? newpos then
        Done (to_int int_bits newpos,
              {| f_priv := f_priv filep; f_pos := newpos |})
      else Done (- EINVAL, filep)
  end.

(** ** fb_mmap *)

(** [struct mm_map_entry_s]: the fields the driver uses.  The address
    handed back is kept as the offset into the frame memory. *)
Record mm_map_entry_s : Type := {
  mm_offset : Z;
  mm_length : Z;
  mm_vaddr : option Z
}.

(** The type in which an [off_t] and a [size_t] meet in one expression:
    [size_t] unless [off_t] is the wider. *)
Definition off_size_common (cfg : config) (z : Z) : Z :=
  if off_bits cfg <=? size_bits cfg then to_size cfg z else to_off cfg z.

Definition fb_mmap (cfg : config) (hw : fb_hw) (fb : fb_chardev_s)
    (h : kheap) (filep : file) (map : mm_map_entry_s)
  : outcome (Z * mm_map_entry_s) :=
  priv ← priv_of cfg h filep;
  '(ret, panelinfo) ← fb_get_panelinfo hw fb (overlay priv);
  if ret <? 0 then Done (ret, map)
  else if (0 <=? mm_offset map)
          && (off_size_common cfg (mm_offset map)
              <? off_size_common cfg (fblen panelinfo))
          && negb (mm_length map =? 0)
          && (off_size_common cfg (mm_offset map + mm_length map)
              <=? off_size_common cfg (fblen panelinfo))
  then Done (OK, {| mm_offset := mm_offset map; mm_length := mm_length map;
                    mm_vaddr := Some (mm_offset map) |})
  else Done (- EINVAL, map).

(** ** fb_ioctl, the other commands modelled *)

(** [FBIO_SELECT_OVERLAY]: [ov] is the argument as the [int] handed to
    the hardware.  The result is the return value and the heap, in which
    the file's selection lives. *)
Definition fb_ioctl_select_overlay (cfg : config) (hw : fb_hw) (h : kheap)
    (filep : file) (ov : Z) : outcome (Z * kheap) :=
  _ ← DEBUGASSERT cfg (bool_decide (is_Some (f_priv filep)));
  let '(ret, _) := getoverlayinfo hw ov in
  if 0 <=? ret then
    match f_priv filep with
    | Some a =>
        if decide (is_Some (h !! a))
        then Done (ret, <[a := {| overlay := ov |}]> h)
        else Trap OutOfBounds
    | None => Trap OutOfBounds
    end
  else Done (ret, h).

(** The pixel formats [FBIOGET_VSCREENINFO] tells apart (nuttx/video/fb.h);
    every other format is [FB_FMT_OTHER]. *)
Inductive fb_fmt : Type :=
  | FB_FMT_Y1
  | FB_FMT_Y8
  | FB_FMT_RGB16_555
  | FB_FMT_RGB16_565
  | FB_FMT_RGB24
  | FB_FMT_RGB32
  | FB_FMT_RGBA32
  | FB_FMT_OTHER.

(** [struct fb_bitfield]. *)
Record fb_bitfield : Type := {
  bf_offset : Z;
  bf_length : Z
}.

(** The colour fields of [struct fb_var_screeninfo]. *)
Record fb_var_channels : Type := {
  red : fb_bitfield;
  green : fb_bitfield;
  blue : fb_bitfield;
  transp : fb_bitfield
}.

Definition bitfield (offset length : Z) : fb_bitfield :=
  {| bf_offset := offset; bf_length := length |}.

(** [FBIOGET_VSCREENINFO]: the switch on [vinfo.fmt], on a structure
    that has been cleared. *)
Definition vscreeninfo_channels (fmt : fb_fmt) : fb_var_channels :=
  let zero := bitfield 0 0 in
  match fmt with
  | FB_FMT_Y1 =>
      {| red := bitfield 0 1; green := bitfield 0 1; blue := bitfield 0 1;
         transp := zero |}
  | FB_FMT_Y8 =>
      {| red := bitfield 0 8; green := bitfield 0 8; blue := bitfield 0 8;
         transp := zero |}
  | FB_FMT_RGB16_555 =>
      {| red := bitfield 10 5; green := bitfield 5 5; blue := bitfield 0 5;
         transp := zero |}
  | FB_FMT_RGB16_565 =>
      {| red := bitfield 11 5; green := bitfield 5 6; blue := bitfield 0 5;
         transp := zero |}
  | FB_FMT_RGB24 | FB_FMT_RGB32 =>
      {| red := bitfield 16 8; green := bitfield 8 8; blue := bitfield 0 8;
         transp := zero |}
  | FB_FMT_RGBA32 =>
      {| red := bitfield 16 8; green := bitfield 8 8; blue := bitfield 0 8;
         transp := bitfield 24 8 |}
  | FB_FMT_OTHER =>
      {| red := zero; green := zero; blue := zero; transp := zero |}
  end.

(** ** fb_register *)

(** [up_fbinitialize] and [up_fbgetvplane] belong to the board; they are
    given by what they return, the vtable by the hardware behind it. *)
Definition fb_register (cfg : config) (up_fbinitialize : Z)
    (up_fbgetvplane : option fb_hw) (r : reg_env) (plane : Z)
  : outcome (Z * option fb_chardev_s) :=
  if up_fbinitialize <? 0 then Done (up_fbinitialize, None)
  else
    match up_fbgetvplane with
    | None => Done (- EINVAL, None)
    | Some hw => fb_register_device cfg hw r plane
    end.

(** ** Users of the queue *)

(** The hardware side takes records out in order: peek, then remove,
    [n] times.  The records seen are collected, oldest first; the run
    stops at the first call that fails. *)
Fixpoint drain (cfg : config) (priv : option fb_chardev_s) (ov : Z)
    (n : nat) : outcome (option fb_chardev_s * list (list byte)) :=
  match n with
  | O => Done (priv, [])
  | S n' =>
      '(ret, info) ← fb_peek_paninfo cfg priv ov;
      if ret <? 0 then Done (priv, [])
      else
        '(priv', ret', _) ← fb_remove_paninfo cfg priv ov;
        if ret' <? 0 then Done (priv', [])
        else
          '(priv'', infos) ← drain cfg priv' ov n';
          Done (priv'', info :: infos)
  end.

(** One call on the queues of a device, from either side. *)
Inductive qop : Type :=
  | QAdd (r : list byte) (ov : Z)
  | QPeek (ov : Z)
  | QRemove (ov : Z)
  | QCount (ov : Z)
  | QExpire.

Definition qop_surface (o : qop) : option Z :=
  match o with
  | QAdd _ ov | QPeek ov | QRemove ov | QCount ov => Some ov
  | QExpire => None
  end.

Definition run_qop (cfg : config) (fb : fb_chardev_s) (o : qop)
  : outcome (fb_chardev_s * Z) :=
  match o with
  | QAdd r ov =>
      '(priv, ret) ← fb_add_paninfo cfg (Some fb) r ov;
      Done (default fb priv, ret)
  | QPeek ov =>
      '(ret, _) ← fb_peek_paninfo cfg (Some fb) ov;
      Done (fb, ret)
  | QRemove ov =>
      '(priv, ret, _) ← fb_remove_paninfo cfg (Some fb) ov;
      Done (default fb priv, ret)
  | QCount ov =>
      ret ← fb_paninfo_count cfg (Some fb) ov;
      Done (fb, ret)
  | QExpire =>
      '(fb', _) ← wdog_expire cfg fb;
      Done (fb', OK)
  end.

Fixpoint run_qops (cfg : config) (fb : fb_chardev_s) (os : list qop)
  : outcome (fb_chardev_s * list Z) :=
  match os with
  | [] => Done (fb, [])
  | o :: rest =>
      '(fb', ret) ← run_qop cfg fb o;
      '(fb'', rets) ← run_qops cfg fb' rest;
      Done (fb'', ret :: rets)
  end.

(** A slot whose ring buffer holds whole records only, within a
    capacity of whole records. *)
Definition slot_wf (cfg : config) (p : fb_paninfo_s) : Prop :=
  exists n k : nat,
    cb_size (buf p) = (n * sizeof_paninfo cfg)%nat /\
    length (cb_data (buf p)) = (k * sizeof_paninfo cfg)%nat /\
    (k <= n)%nat.

Definition queues_wf (cfg : config) (fb : fb_chardev_s) : Prop :=
  Forall (slot_wf cfg) (paninfo fb) /\
  match wdog fb with
  | Some (_, arg) => 0 <= arg < paninfo_count fb
  | None => True
  end.

(** The calls a well-behaved user makes: surfaces of the device, records
    of the payload size. *)
Definition qop_ok (cfg : config) (fb : fb_chardev_s) (o : qop) : Prop :=
  match o with
  | QAdd r ov =>
      length r = sizeof_paninfo cfg /\ -1 <= ov <= paninfo_count fb - 2
  | QPeek ov | QRemove ov | QCount ov => -1 <= ov <= paninfo_count fb - 2
  | QExpire => True
  end.

(** ** The up-time file (fs/procfs/fs_procfsuptime.c) *)

(** [uptime_read], the conversion of the tick count to seconds and
    hundredths in the build without floating point.  [time_bits] is the
    width of the tick counter (32, or 64 with [CONFIG_SYSTEM_TIME64]),
    [uint_bits] the width of [unsigned int]; [clocks_per_sec] is
    [CLOCKS_PER_SEC] (nuttx/clock.h, not part of the file). *)
Definition uptime_seconds (time_bits uint_bits clocks_per_sec : Z)
    (ticktime : Z) : Z * Z :=
  let sec := ticktime / clocks_per_sec in
  let remainder := (ticktime mod clocks_per_sec) mod 2 ^ uint_bits in
  let csec :=
    ((100 * remainder + clocks_per_sec / 2) mod 2 ^ uint_bits)
    / clocks_per_sec in
  if 99 <? csec
  then ((sec + 1) mod 2 ^ time_bits, (csec - 100) mod 2 ^ uint_bits)
  else (sec, csec).

(** What a call on the queues may not touch, [id] being the slot it is
    called on (none for the watchdog's expiry): the plane, the number of
    slots, the reference counter, the vsync offset, every waiter array
    and capacity, and the queue of every other slot. *)
Definition queues_kept (fb fb' : fb_chardev_s) (id : option Z) : Prop :=
  plane fb' = plane fb /\
  paninfo_count fb' = paninfo_count fb /\
  crefs fb' = crefs fb /\
  vsyncoffset fb' = vsyncoffset fb /\
  (forall j, id <> Some j -> slot_at fb' j = slot_at fb j) /\
  (forall j p, slot_at fb j = Done p ->
     exists p', slot_at fb' j = Done p' /\ fds p' = fds p /\
                cb_size (buf p') = cb_size (buf p)).

(** What a call on the queues does to the one watchdog of the device:
    enqueue, peek and count leave it alone; a dequeue leaves it alone or,
    on a device with a positive vsync offset, arms it for the slot of
    its own surface in place of whatever it held; the expiry leaves it
    idle. *)
Definition wdog_after (fb fb' : fb_chardev_s) (o : qop) : Prop :=
  match o with
  | QAdd _ _ | QPeek _ | QCount _ => wdog fb' = wdog fb
  | QRemove ov =>
      wdog fb' = wdog fb \/
      (0 < vsyncoffset fb /\ wdog fb' = Some (vsyncoffset fb, ov + 1))
  | QExpire => wdog fb' = None
  end.

(** The two-surface device with a vsync offset of 5 ticks and the
    watchdog armed for the primary surface, and the same device after a
    dequeue on overlay 0. *)
Definition fb_armed : fb_chardev_s :=
  set_wdog (fb_two_surfaces 5) (Some (5, 0)).

Definition fb_rearmed : fb_chardev_s :=
  set_wdog
    (set_slot (fb_two_surfaces 5) 1
       {| buf := {| cb_size := 8; cb_data := [] |};
          fds := [Some 20%nat; None] |})
    (Some (5, 1)).

(** The panel information [hw_mem mem] answers with. *)
Definition panel_mem (mem : list byte) : fb_panelinfo_s :=
  {| fbmem := mem; fblen := Z.of_nat (length mem); fbcount := 1; bpp := 8 |}.

(** [mem_ten] after five bytes [xff] were written at offset 5. *)
Definition mem_ten_written : list byte :=
  [x00; x01; x02; x03; x04; xff; xff; xff; xff; xff]%byte.

(** The largest value, plus one, of the type in which an [off_t] and a
    [size_t] meet. *)
Definition common_max (cfg : config) : Z :=
  if off_bits cfg <=? size_bits cfg then 2 ^ size_bits cfg
  else 2 ^ (off_bits cfg - 1).

(** Hardware whose plane query fails with [-EINVAL]. *)
Definition hw_broken : fb_hw :=
  {| getvideoinfo := (0, {| vi_yres := 10; vi_nplanes := 1;
                            vi_noverlays := 0 |});
     getplaneinfo := fun _ =>
       (- EINVAL, {| pi_fbmem := []; pi_fblen := 0; pi_yres_virtual := 0;
                     pi_bpp := 0 |});
     getoverlayinfo := fun _ =>
       (- EINVAL, {| oi_fbmem := []; oi_fblen := 0; oi_yres := 0;
                     oi_yres_virtual := 0; oi_bpp := 0 |}) |}.

Definition map_of (offset length : Z) : mm_map_entry_s :=
  {| mm_offset := offset; mm_length := length; mm_vaddr := None |}.

(** The first bit past a field. *)
Definition bf_end (b : fb_bitfield) : Z := bf_offset b + bf_length b.

(** The three shapes a channel description has: nothing, one grey field
    reported for each colour, or colours packed from bit 0 upwards
    (blue, green, red and, where present, transparency). *)
Definition channels_unset (c : fb_var_channels) : Prop :=
  red c = bitfield 0 0 /\ green c = bitfield 0 0 /\
  blue c = bitfield 0 0 /\ transp c = bitfield 0 0.

Definition channels_grey (c : fb_var_channels) : Prop :=
  0 < bf_length (red c) /\ bf_offset (red c) = 0 /\
  green c = red c /\ blue c = red c /\ transp c = bitfield 0 0.

Definition channels_packed (c : fb_var_channels) : Prop :=
  bf_offset (blue c) = 0 /\ 0 < bf_length (blue c) /\
  bf_offset (green c) = bf_end (blue c) /\ 0 < bf_length (green c) /\
  bf_offset (red c) = bf_end (green c) /\ 0 < bf_length (red c) /\
  (transp c = bitfield 0 0 \/
   (bf_offset (transp c) = bf_end (red c) /\ 0 < bf_length (transp c))) /\
  bf_end (red c) <= 32 /\ bf_end (transp c) <= 32.

(** * Properties *)

(** ** Sequencing *)

Lemma bind_Done {A B} (a : A) (f : A -> outcome B) : Done a ≫= f = f a.
Proof. reflexivity. Qed.

Lemma bind_Trap {A B} (t : trap) (f : A -> outcome B) :
  Trap t ≫= f = Trap t.
Proof. reflexivity. Qed.

Lemma bind_Done_inv {A B} (m : outcome A) (f : A -> outcome B) (b : B) :
  m ≫= f = Done b -> exists a, m = Done a /\ f a = Done b.
Proof. destruct m as [a|t]; [|done]. intros H. by exists a. Qed.

(** ** Slots *)

Section SlotFacts.

Context (cfg : config).

Lemma DEBUGASSERT_holds : DEBUGASSERT cfg true = Done tt.
Proof. unfold DEBUGASSERT. by rewrite andb_false_r. Qed.

Lemma DEBUGASSERT_release (c : bool) :
  debug_assertions cfg = false -> DEBUGASSERT cfg c = Done tt.
Proof. unfold DEBUGASSERT. by intros ->. Qed.

Lemma DEBUGASSERT_fires :
  debug_assertions cfg = true -> DEBUGASSERT cfg false = Trap AssertFailed.
Proof. unfold DEBUGASSERT. by intros ->. Qed.

Lemma in_range_true (fb : fb_chardev_s) (id : Z) :
  0 <= id < paninfo_count fb ->
  (0 <=? id) && (id <? paninfo_count fb) = true.
Proof. intros [H1 H2]. apply andb_true_intro. split; lia. Qed.

Lemma in_range_false (fb : fb_chardev_s) (id : Z) :
  ~ (0 <= id < paninfo_count fb) ->
  (0 <=? id) && (id <? paninfo_count fb) = false.
Proof.
  intros H. apply andb_false_iff.
  destruct (Z.leb_spec 0 id); [right|left]; lia.
Qed.

Lemma slot_at_in_range (fb : fb_chardev_s) (id : Z) :
  0 <= id < paninfo_count fb ->
  exists p, slot_at fb id = Done p /\ paninfo fb !! Z.to_nat id = Some p.
Proof.
  intros H. unfold slot_at. rewrite in_range_true by done.
  destruct (lookup_lt_is_Some_2 (paninfo fb) (Z.to_nat id)) as [p Hp].
  { unfold paninfo_count in H. lia. }
  exists p. by rewrite Hp.
Qed.

Lemma slot_at_Done (fb : fb_chardev_s) (id : Z) (p : fb_paninfo_s) :
  slot_at fb id = Done p ->
  0 <= id < paninfo_count fb /\ paninfo fb !! Z.to_nat id = Some p.
Proof.
  unfold slot_at.
  destruct ((0 <=? id) && (id <? paninfo_count fb)) eqn:E; [|done].
  apply andb_prop in E as [E1 E2].
  destruct (paninfo fb !! Z.to_nat id) eqn:L; [|done].
  intros [= ->]. split; [lia|done].
Qed.

Lemma slot_at_lookup (fb : fb_chardev_s) (id : Z) (p : fb_paninfo_s) :
  0 <= id -> paninfo fb !! Z.to_nat id = Some p -> slot_at fb id = Done p.
Proof.
  intros H0 L. unfold slot_at.
  rewrite in_range_true, L; [done|].
  apply lookup_lt_Some in L. unfold paninfo_count. lia.
Qed.

Lemma slot_at_out_of_range (fb : fb_chardev_s) (id : Z) :
  ~ (0 <= id < paninfo_count fb) -> slot_at fb id = Trap OutOfBounds.
Proof. intros H. unfold slot_at. by rewrite in_range_false. Qed.

Lemma fb_get_panbuf_in_range (fb : fb_chardev_s) (ov : Z) :
  0 <= ov + 1 < paninfo_count fb ->
  fb_get_panbuf cfg fb ov = Done (Some (ov + 1)).
Proof.
  intros H. unfold fb_get_panbuf.
  rewrite in_range_true by done. by rewrite DEBUGASSERT_holds.
Qed.

Lemma fb_get_panbuf_never_null (fb : fb_chardev_s) (ov : Z) :
  fb_get_panbuf cfg fb ov <> Done None.
Proof.
  unfold fb_get_panbuf.
  by destruct (DEBUGASSERT cfg _) as [[]|].
Qed.

Lemma slot_at_set_slot (fb : fb_chardev_s) (id : Z) (p q : fb_paninfo_s) :
  slot_at fb id = Done p -> slot_at (set_slot fb id q) id = Done q.
Proof.
  intros H. apply slot_at_Done in H as [H1 H2].
  apply slot_at_lookup; [lia|]. simpl.
  apply list_lookup_insert_eq. by eapply lookup_lt_Some.
Qed.

Lemma paninfo_count_set_slot (fb : fb_chardev_s) (id : Z) (q : fb_paninfo_s) :
  paninfo_count (set_slot fb id q) = paninfo_count fb.
Proof. unfold paninfo_count. simpl. by rewrite length_insert. Qed.

Lemma set_slot_same (fb : fb_chardev_s) (id : Z) (p : fb_paninfo_s) :
  slot_at fb id = Done p -> set_slot fb id p = fb.
Proof.
  intros H. apply slot_at_Done in H as [_ H].
  unfold set_slot, set_paninfo. rewrite list_insert_id by done.
  by destruct fb.
Qed.

(** Outside the configured range the resolver does not give NULL: it
    trips its assertion, or hands back an address past the array. *)
Lemma out_of_range_resolution (fb : fb_chardev_s) (ov : Z) :
  ~ (0 <= ov + 1 < paninfo_count fb) ->
  (debug_assertions cfg = true /\
   fb_get_panbuf cfg fb ov = Trap AssertFailed) \/
  (debug_assertions cfg = false /\
   fb_get_panbuf cfg fb ov = Done (Some (ov + 1)) /\
   slot_at fb (ov + 1) = Trap OutOfBounds).
Proof.
  intros H. unfold fb_get_panbuf.
  rewrite in_range_false by done.
  destruct (debug_assertions cfg) eqn:E.
  - left. by rewrite DEBUGASSERT_fires.
  - right. rewrite DEBUGASSERT_release by done.
    by rewrite slot_at_out_of_range.
Qed.

End SlotFacts.

(** ** Resolution of a surface to its slot *)

Section Resolution.

Context (cfg : config).

(** Inside the configured range the slot of overlay [ov] is [ov + 1],
    the primary surface ([FB_NO_OVERLAY]) being slot 0; distinct overlays
    have distinct slots and every slot is the slot of one overlay. *)
Lemma resolve_in_range (fb : fb_chardev_s) (ov : Z) :
  -1 <= ov <= paninfo_count fb - 2 ->
  fb_get_panbuf cfg fb ov = Done (Some (ov + 1)) /\
  exists p, slot_at fb (ov + 1) = Done p.
Proof.
  intros H. split.
  - apply fb_get_panbuf_in_range. lia.
  - destruct (slot_at_in_range fb (ov + 1)) as (p & Hp & _); [lia|].
    by exists p.
Qed.

Lemma resolve_primary (fb : fb_chardev_s) :
  0 < paninfo_count fb ->
  fb_get_panbuf cfg fb FB_NO_OVERLAY = Done (Some 0).
Proof. intros H. apply (fb_get_panbuf_in_range cfg fb (-1)). lia. Qed.

Lemma resolve_onto (fb : fb_chardev_s) (id : Z) :
  0 <= id < paninfo_count fb ->
  exists ov, -1 <= ov <= paninfo_count fb - 2 /\
             fb_get_panbuf cfg fb ov = Done (Some id).
Proof.
  intros H. exists (id - 1). split; [lia|].
  rewrite fb_get_panbuf_in_range; [|lia]. do 2 f_equal. lia.
Qed.

(** The only [-EINVAL] of the queue operations: a vtable that has no
    device yet. *)
Lemma queue_ops_unregistered (info : list byte) (ov : Z) :
  fb_add_paninfo cfg None info ov = Done (None, InvalidArgument) /\
  fb_peek_paninfo cfg None ov = Done (InvalidArgument, []) /\
  fb_remove_paninfo cfg None ov = Done (None, InvalidArgument, []) /\
  fb_paninfo_count cfg None ov = Done InvalidArgument.
Proof. done. Qed.

(** C3, at the identifiers outside [-1, overlay_count - 1]: none of
    enqueue, peek, dequeue and pending_count returns [InvalidArgument]
    for a registered device; each one trips the range assertion or, with
    assertions compiled out, goes on to use a slot past the array. *)
Theorem queue_ops_out_of_range (fb : fb_chardev_s) (info : list byte)
    (ov : Z) :
  ~ (-1 <= ov <= paninfo_count fb - 2) ->
  (exists t, fb_add_paninfo cfg (Some fb) info ov = Trap t) /\
  (exists t, fb_peek_paninfo cfg (Some fb) ov = Trap t) /\
  (exists t, fb_remove_paninfo cfg (Some fb) ov = Trap t) /\
  (exists t, fb_paninfo_count cfg (Some fb) ov = Trap t).
Proof.
  intros H.
  destruct (out_of_range_resolution cfg fb ov) as [[_ E]|(_ & E & S)];
    [lia| |];
    unfold fb_add_paninfo, fb_peek_paninfo, fb_remove_paninfo,
      fb_paninfo_count; rewrite E; simpl; rewrite ?S; simpl; eauto 10.
Qed.

End Resolution.

Lemma queue_ops_out_of_range_witness :
  (exists t, fb_add_paninfo cfg_release (Some fb_primary_only) rec_a 1
             = Trap t) /\
  (exists t, fb_peek_paninfo cfg_release (Some fb_primary_only) 1
             = Trap t) /\
  (exists t, fb_remove_paninfo cfg_release (Some fb_primary_only) 1
             = Trap t) /\
  (exists t, fb_paninfo_count cfg_release (Some fb_primary_only) 1
             = Trap t).
Proof.
  apply (queue_ops_out_of_range cfg_release fb_primary_only rec_a 1).
  unfold paninfo_count. simpl. lia.
Defined.

(** Overlay 1 on a device without overlays, in both builds. *)
Example enqueue_out_of_range_release :
  fb_add_paninfo cfg_release (Some fb_primary_only) rec_a 1
  = Trap OutOfBounds.
Proof. reflexivity. Qed.

Example enqueue_out_of_range_debug :
  fb_add_paninfo cfg_debug (Some fb_primary_only) rec_a 1
  = Trap AssertFailed.
Proof. reflexivity. Qed.

(** ** Pan commands of the ioctl dispatcher *)

Section PanIoctl.

Context (cfg : config).

Lemma fb_ioctl_is_enqueue (vt : fb_vtable_s) (e : env) (fb : fb_chardev_s)
    (cmd : fb_cmd) :
  ioctl_result (fb_ioctl cfg vt e fb cmd)
  = fb_add_paninfo cfg (Some fb) (pan_record cmd) (pan_surface cmd).
Proof.
  destruct cmd; unfold fb_ioctl, ioctl_result;
    cbn [pan_record pan_surface];
    by destruct fb_add_paninfo as [[? ?]|].
Qed.


End PanIoctl.


(** ** Open and close *)

Section OpenClose.

Context (cfg : config).

Lemma DEBUGASSERT_ok (c : bool) : c = true -> DEBUGASSERT cfg c = Done tt.
Proof. intros ->. apply DEBUGASSERT_holds. Qed.

Lemma to_int16_id (z : Z) : -32768 <= z <= 32767 -> to_int16 z = z.
Proof. intros H. unfold to_int16. rewrite Z.mod_small; lia. Qed.

Lemma kmm_free_live (h : kheap) (a : nat) :
  is_Some (h !! a) -> kmm_free h (Some a) = Done (delete a h).
Proof. intros H. unfold kmm_free. by rewrite decide_True. Qed.

(** The body of [fb_close] once the lock is held, on a file whose state
    is live and a counter of at least 1. *)
Lemma fb_close_locked (vt : fb_vtable_s) (e : env) (fb : fb_chardev_s)
    (h : kheap) (filep : file) (a : nat) :
  0 <= lock_ret e ->
  f_priv filep = Some a ->
  is_Some (h !! a) ->
  1 <= crefs fb <= 32767 ->
  let called := (crefs fb =? 1) && vt_close vt in
  let ret := if called then hook_ret e else lock_ret e in
  fb_close cfg vt e fb h filep =
  if 0 <=? ret
  then Done (ret, set_crefs fb (crefs fb - 1), delete a h,
             if called then [HwClose] else [])
  else Done (ret, fb, h, if called then [HwClose] else []).
Proof.
  intros Hl Hp Ha Hc called ret. unfold fb_close.
  rewrite Hp, (DEBUGASSERT_ok (bool_decide _))
    by (by apply bool_decide_eq_true_2).
  rewrite bind_Done.
  replace (lock_ret e <? 0) with false by lia.
  fold called. fold ret.
  destruct (0 <=? ret); [|done].
  rewrite DEBUGASSERT_ok by lia. rewrite bind_Done.
  rewrite kmm_free_live by done. rewrite bind_Done.
  by rewrite to_int16_id by lia.
Qed.

(** C8: a close that holds the lock, on a file whose per-open-file state
    is live.  With the counter at 1 and the close hook failing, counter
    and heap are left as they were and the hook's error is returned; when
    the hook succeeds, or is absent, or the counter exceeds 1, the
    counter goes down by one and the file's state is released. *)
Theorem fb_close_hook_failure_keeps_reference (vt : fb_vtable_s) (e : env)
    (fb : fb_chardev_s) (h : kheap) (filep : file) (a : nat) :
  0 <= lock_ret e ->
  f_priv filep = Some a ->
  is_Some (h !! a) ->
  1 <= crefs fb <= 32767 ->
  (crefs fb = 1 -> vt_close vt = true -> hook_ret e < 0 ->
   fb_close cfg vt e fb h filep = Done (hook_ret e, fb, h, [HwClose])) /\
  (crefs fb = 1 -> vt_close vt = true -> 0 <= hook_ret e ->
   fb_close cfg vt e fb h filep
   = Done (hook_ret e, set_crefs fb 0, delete a h, [HwClose])) /\
  (vt_close vt = false \/ 1 < crefs fb ->
   fb_close cfg vt e fb h filep
   = Done (lock_ret e, set_crefs fb (crefs fb - 1), delete a h, [])).
Proof.
  intros Hl Hp Ha Hc.
  pose proof (fb_close_locked vt e fb h filep a Hl Hp Ha Hc) as E.
  cbv zeta in E. repeat split.
  - intros H1 Hv Hr. rewrite E, H1, Hv. simpl.
    by replace (0 <=? hook_ret e) with false by lia.
  - intros H1 Hv Hr. rewrite E, H1, Hv. simpl.
    by replace (0 <=? hook_ret e) with true by lia.
  - intros Hn. rewrite E.
    replace ((crefs fb =? 1) && vt_close vt) with false.
    + by replace (0 <=? lock_ret e) with true by lia.
    + destruct Hn as [->|Hn]; [by rewrite andb_false_r|].
      by replace (crefs fb =? 1) with false by lia.
Qed.

End OpenClose.

Lemma fb_close_hook_failure_keeps_reference_witness :
  fb_close cfg_debug vt_all (env_hook (- EBUSY))
    (set_crefs fb_primary_only 1) (heap_of 0) (file_at 0)
  = Done (- EBUSY, set_crefs fb_primary_only 1, heap_of 0, [HwClose]).
Proof.
  refine (proj1 (fb_close_hook_failure_keeps_reference cfg_debug vt_all
             (env_hook (- EBUSY)) (set_crefs fb_primary_only 1)
             (heap_of 0) (file_at 0) 0 _ _ _ _) _ _ _);
    try reflexivity; try (simpl; lia).
  eexists. vm_compute. reflexivity.
Defined.

(** ** Sequences of opens and closes *)

Section RefCount.

Context (cfg : config) (vt : fb_vtable_s).

(** [fb_open] on a counter that has room for one more reference. *)
Lemma fb_open_body (e : env) (fb : fb_chardev_s) (h : kheap) (filep : file) :
  0 <= crefs fb < 32767 ->
  let a := fresh (dom h) in
  let called := (crefs fb =? 0) && vt_open vt in
  let calls := if called then [HwOpen] else [] in
  fb_open cfg vt e fb h filep =
  if lock_ret e <? 0 then Done (lock_ret e, fb, h, filep, [])
  else if negb (alloc_ok e) then Done (- ENOMEM, fb, h, filep, [])
  else if called && (hook_ret e <? 0)
       then Done (hook_ret e, fb, h, filep, calls)
       else Done (0, set_crefs fb (crefs fb + 1),
                  <[a := {| overlay := FB_NO_OVERLAY |}]> h,
                  {| f_priv := Some a; f_pos := f_pos filep |}, calls).
Proof.
  intros Hc a called calls. unfold fb_open, kmm_zalloc.
  destruct (lock_ret e <? 0); [done|].
  destruct (alloc_ok e); [|done]. simpl negb. cbv iota.
  fold called. fold calls.
  destruct (called && (hook_ret e <? 0)); [done|].
  rewrite to_int16_id by lia.
  rewrite DEBUGASSERT_ok; [done|]. simpl. lia.
Qed.

Lemma vfs_inv_init (fb : fb_chardev_s) : crefs fb = 0 -> vfs_inv (vfs_init fb).
Proof.
  intros H. split; [done|]. exists []. repeat split; [constructor|done].
Qed.

Lemma vfs_inv_open (s : vfs) (pos : Z) :
  vfs_inv s ->
  let a := fresh (dom (v_heap s)) in
  vfs_inv {| v_fb := set_crefs (v_fb s) (crefs (v_fb s) + 1);
             v_heap := <[a := {| overlay := FB_NO_OVERLAY |}]> (v_heap s);
             v_files := v_files s ++ [{| f_priv := Some a; f_pos := pos |}] |}.
Proof.
  intros [Hc (addrs & Hf & Hn & Hl)] a. split.
  - simpl. rewrite length_app. simpl. lia.
  - exists (addrs ++ [a]). simpl. repeat split.
    + by rewrite !fmap_app, Hf.
    + apply NoDup_app. repeat split; [done| |apply NoDup_singleton].
      intros x Hx ->%list_elem_of_singleton.
      rewrite Forall_forall in Hl. apply Hl in Hx.
      apply elem_of_dom in Hx. by apply is_fresh in Hx.
    + apply Forall_app. split.
      * eapply Forall_impl; [done|]. intros x Hx. simpl in *.
        rewrite lookup_insert_is_Some. destruct (decide (a = x)); auto.
      * apply Forall_singleton. rewrite lookup_insert_eq. by eexists.
Qed.

Lemma vfs_inv_close (s : vfs) (n a : nat) (f : file) :
  vfs_inv s ->
  v_files s !! n = Some f ->
  f_priv f = Some a ->
  vfs_inv {| v_fb := set_crefs (v_fb s) (crefs (v_fb s) - 1);
             v_heap := delete a (v_heap s);
             v_files := delete n (v_files s) |}.
Proof.
  intros [Hc (addrs & Hf & Hn & Hl)] Hlk Hp. split.
  - simpl. rewrite length_delete by eauto. apply lookup_lt_Some in Hlk. lia.
  - assert (addrs !! n = Some a) as Ha.
    { apply (f_equal (.!! n)) in Hf. rewrite !list_lookup_fmap, Hlk in Hf.
      simpl in Hf. rewrite Hp in Hf.
      destruct (addrs !! n); simpl in Hf; congruence. }
    pose proof (delete_Permutation _ _ _ Ha) as Hperm.
    rewrite Hperm in Hn. apply NoDup_cons in Hn as [Hnot Hnd].
    exists (delete n addrs). simpl. repeat split; [|done|].
    + by rewrite !list_fmap_delete, Hf.
    + apply Forall_forall. intros x Hx.
      rewrite lookup_delete_is_Some. split; [by intros ->|].
      rewrite Forall_forall in Hl. apply Hl.
      by eapply list_elem_of_delete_inv.
Qed.

Lemma vfs_inv_live (s : vfs) (n : nat) (f : file) :
  vfs_inv s -> v_files s !! n = Some f ->
  exists a, f_priv f = Some a /\ is_Some (v_heap s !! a).
Proof.
  intros [_ (addrs & Hf & _ & Hl)] Hlk.
  apply (f_equal (.!! n)) in Hf. rewrite !list_lookup_fmap, Hlk in Hf.
  simpl in Hf. destruct (addrs !! n) as [a|] eqn:Ha; [|done].
  exists a. split; [by inversion Hf|].
  rewrite Forall_forall in Hl. apply Hl. by eapply list_elem_of_lookup_2.
Qed.

(** One open, seen from the file layer. *)
Lemma vfs_step_open (s : vfs) (e : env) :
  vfs_inv s ->
  crefs (v_fb s) < 32767 ->
  let ok := (0 <=? lock_ret e) && alloc_ok e in
  let called := ok && (crefs (v_fb s) =? 0) && vt_open vt in
  let success := ok && negb (called && (hook_ret e <? 0)) in
  exists s' ret,
    vfs_step cfg vt s (VfsOpen e)
    = Done (s', Some {| so_open := true; so_before := crefs (v_fb s);
                        so_after := crefs (v_fb s');
                        so_calls := if called then [HwOpen] else [];
                        so_ret := ret |}) /\
    vfs_inv s' /\
    (if success
     then ret = 0 /\ crefs (v_fb s') = crefs (v_fb s) + 1
     else ret < 0 /\ crefs (v_fb s') = crefs (v_fb s)).
Proof.
  intros Hi Hc ok called success.
  assert (0 <= crefs (v_fb s)) as H0 by (destruct Hi as [-> _]; lia).
  unfold vfs_step. rewrite fb_open_body by lia. cbv zeta.
  subst success called ok.
  destruct (Z.ltb_spec (lock_ret e) 0) as [Hl|Hl].
  { replace (0 <=? lock_ret e) with false by lia. simpl.
    exists s, (lock_ret e).
    replace (0 <=? lock_ret e) with false by lia. by destruct s. }
  replace (0 <=? lock_ret e) with true by lia.
  destruct (alloc_ok e); simpl.
  2: { exists s, (- ENOMEM). by destruct s. }
  destruct ((crefs (v_fb s) =? 0) && vt_open vt) eqn:Ec; simpl.
  - destruct (Z.ltb_spec (hook_ret e) 0) as [Hr|Hr]; simpl.
    + exists s, (hook_ret e).
      replace (0 <=? hook_ret e) with false by lia. by destruct s.
    + (exists
        {| v_fb := set_crefs (v_fb s) (crefs (v_fb s) + 1);
           v_heap := <[fresh (dom (v_heap s)) :=
                         {| overlay := FB_NO_OVERLAY |}]> (v_heap s);
           v_files := v_files s ++
                      [{| f_priv := Some (fresh (dom (v_heap s)));
                          f_pos := 0 |}] |}, 0).
      split; [reflexivity|]. simpl.
      split; [by apply vfs_inv_open|done].
  - (exists
        {| v_fb := set_crefs (v_fb s) (crefs (v_fb s) + 1);
           v_heap := <[fresh (dom (v_heap s)) :=
                         {| overlay := FB_NO_OVERLAY |}]> (v_heap s);
           v_files := v_files s ++
                      [{| f_priv := Some (fresh (dom (v_heap s)));
                          f_pos := 0 |}] |}, 0).
    split; [reflexivity|]. simpl.
    split; [by apply vfs_inv_open|done].
Qed.

(** One close of an open file, seen from the file layer. *)
Lemma vfs_step_close (s : vfs) (n : nat) (f : file) (e : env) :
  vfs_inv s ->
  crefs (v_fb s) <= 32767 ->
  v_files s !! n = Some f ->
  let called := (0 <=? lock_ret e) && (crefs (v_fb s) =? 1) && vt_close vt in
  let ret := if called then hook_ret e else lock_ret e in
  exists s',
    vfs_step cfg vt s (VfsClose n e)
    = Done (s', Some {| so_open := false; so_before := crefs (v_fb s);
                        so_after := crefs (v_fb s');
                        so_calls := if called then [HwClose] else [];
                        so_ret := ret |}) /\
    vfs_inv s' /\
    (if 0 <=? ret
     then crefs (v_fb s') = crefs (v_fb s) - 1
     else crefs (v_fb s') = crefs (v_fb s)).
Proof.
  intros Hi Hc Hlk called ret.
  destruct (vfs_inv_live s n f Hi Hlk) as (a & Hp & Ha).
  assert (1 <= crefs (v_fb s)) as H1.
  { destruct Hi as [-> _]. apply lookup_lt_Some in Hlk. lia. }
  unfold vfs_step. rewrite Hlk.
  destruct (Z.ltb_spec (lock_ret e) 0) as [Hl|Hl].
  - unfold fb_close.
    rewrite Hp, (DEBUGASSERT_ok _ (bool_decide _))
      by (by apply bool_decide_eq_true_2).
    rewrite bind_Done. subst ret called.
    replace (lock_ret e <? 0) with true by lia.
    replace (0 <=? lock_ret e) with false by lia. simpl.
    replace (0 <=? lock_ret e) with false by lia.
    exists s. by destruct s.
  - rewrite (fb_close_locked cfg vt e (v_fb s) (v_heap s) f a)
      by (done || lia).
    cbv zeta. subst ret called.
    replace (0 <=? lock_ret e) with true by lia. simpl andb.
    set (called := (crefs (v_fb s) =? 1) && vt_close vt).
    set (ret := if called then hook_ret e else lock_ret e).
    destruct (0 <=? ret) eqn:Er; simpl; rewrite Er.
    + exists {| v_fb := set_crefs (v_fb s) (crefs (v_fb s) - 1);
                v_heap := delete a (v_heap s);
                v_files := delete n (v_files s) |}.
      split; [reflexivity|]. simpl.
      split; [by eapply vfs_inv_close|done].
    + exists s. by destruct s.
Qed.

Lemma vfs_step_open_ok (s : vfs) (e : env) :
  vfs_inv s -> crefs (v_fb s) < 32767 ->
  exists s' o, vfs_step cfg vt s (VfsOpen e) = Done (s', Some o) /\
               vfs_inv s' /\ step_ok vt o /\
               crefs (v_fb s') <= crefs (v_fb s) + 1.
Proof.
  intros Hi Hc.
  assert (0 <= crefs (v_fb s)) as H0 by (destruct Hi as [-> _]; lia).
  destruct (vfs_step_open s e Hi Hc) as (s' & ret & E & Hi' & Hs).
  cbv zeta in *. eexists _, _. split; [exact E|]. split; [done|].
  assert (0 <= crefs (v_fb s')) as H0' by (destruct Hi' as [-> _]; lia).
  destruct (Z.leb_spec 0 (lock_ret e)), (alloc_ok e),
    (Z.eqb_spec (crefs (v_fb s)) 0), (vt_open vt) eqn:Ev,
    (Z.ltb_spec (hook_ret e) 0); simpl in Hs |- *;
    destruct Hs as [Hr Hs];
    (split; [|lia]); unfold step_ok; simpl; rewrite ?Ev;
    (split_and!; [lia|lia|naive_solver lia|naive_solver lia]).
Qed.

Lemma vfs_step_close_ok (s : vfs) (n : nat) (e : env) :
  vfs_inv s -> crefs (v_fb s) <= 32767 ->
  exists s' o, vfs_step cfg vt s (VfsClose n e) = Done (s', o) /\
               vfs_inv s' /\ Forall (step_ok vt) (option_list o) /\
               crefs (v_fb s') <= crefs (v_fb s).
Proof.
  intros Hi Hc.
  destruct (v_files s !! n) as [f|] eqn:Hlk.
  2: { exists s, None. unfold vfs_step. rewrite Hlk.
       split_and!; [done|done|constructor|lia]. }
  assert (1 <= crefs (v_fb s)) as H1.
  { destruct Hi as [-> _]. apply lookup_lt_Some in Hlk. lia. }
  destruct (vfs_step_close s n f e Hi Hc Hlk) as (s' & E & Hi' & Hs).
  cbv zeta in *. eexists _, _. split; [exact E|]. split; [done|].
  assert (0 <= crefs (v_fb s')) as H0' by (destruct Hi' as [-> _]; lia).
  simpl.
  destruct (Z.leb_spec 0 (lock_ret e)),
    (Z.eqb_spec (crefs (v_fb s)) 1), (vt_close vt) eqn:Ev,
    (Z.leb_spec 0 (hook_ret e)); simpl in *;
    repeat match goal with
      | H : context [0 <=? ?x] |- _ => destruct (Z.leb_spec 0 x)
      end; try lia;
    (split; [|lia]); apply Forall_singleton;
    unfold step_ok; simpl; rewrite ?Ev;
    (split_and!; [lia|lia|naive_solver lia|naive_solver lia]).
Qed.

Lemma vfs_run_cons (s : vfs) (c : vfs_call) (cs : list vfs_call)
    (s' : vfs) (o : option step_obs) :
  vfs_step cfg vt s c = Done (s', o) ->
  vfs_run cfg vt s (c :: cs)
  = '(s'', os) ← vfs_run cfg vt s' cs; Done (s'', option_list o ++ os).
Proof. intros E. cbn [vfs_run]. by rewrite E. Qed.

(** Calls that are at most 32767 in all never open a file while 32767
    files are open. *)
Lemma refs_within_short (cs : list vfs_call) (s : vfs) :
  vfs_inv s ->
  crefs (v_fb s) + Z.of_nat (length cs) <= 32767 ->
  refs_within cfg vt s cs = true.
Proof.
  revert s. induction cs as [|c cs IH]; intros s Hi Hb; [done|].
  simpl length in Hb. cbn [refs_within].
  assert (0 <= crefs (v_fb s)) as H0 by (destruct Hi as [-> _]; lia).
  assert (exists s1 o, vfs_step cfg vt s c = Done (s1, o) /\ vfs_inv s1 /\
            crefs (v_fb s1) <= crefs (v_fb s) + 1) as (s1 & o & E & Hi1 & Hc).
  { destruct c as [e|n e].
    - destruct (vfs_step_open_ok s e) as (s1 & o & ? & ? & ? & ?);
        [done|lia|].
      by exists s1, (Some o).
    - destruct (vfs_step_close_ok s n e) as (s1 & o & ? & ? & ? & ?);
        [done|lia|].
      exists s1, o. split_and!; try done. lia. }
  rewrite E. apply andb_true_iff. split.
  - destruct c; [|done]. destruct Hi as [Hi _]. rewrite <- Hi. lia.
  - apply IH; [done|lia].
Qed.

Lemma vfs_run_ok (cs : list vfs_call) (s : vfs) :
  vfs_inv s ->
  crefs (v_fb s) <= 32767 ->
  refs_within cfg vt s cs = true ->
  exists s' os, vfs_run cfg vt s cs = Done (s', os) /\
                vfs_inv s' /\ Forall (step_ok vt) os.
Proof.
  revert s. induction cs as [|c cs IH]; intros s Hi Hb Hw.
  { exists s, []. by split_and!. }
  cbn [refs_within] in Hw. apply andb_true_iff in Hw as [Hw1 Hw2].
  assert (exists s1 o, vfs_step cfg vt s c = Done (s1, o) /\ vfs_inv s1 /\
            Forall (step_ok vt) (option_list o) /\
            crefs (v_fb s1) <= 32767) as (s1 & o & E & Hi1 & Ho & Hc).
  { destruct c as [e|n e].
    - assert (crefs (v_fb s) < 32767) as Hlt
        by (destruct Hi as [-> _]; lia).
      destruct (vfs_step_open_ok s e) as (s1 & o & ? & ? & ? & ?);
        [done|lia|].
      exists s1, (Some o). split_and!; try done; [|lia].
      by apply Forall_singleton.
    - destruct (vfs_step_close_ok s n e) as (s1 & o & ? & ? & ? & ?);
        [done|lia|].
      exists s1, o. split_and!; try done. lia. }
  rewrite E in Hw2.
  destruct (IH s1 Hi1 Hc Hw2) as (s2 & os & E2 & Hi2 & Hos).
  exists s2, (option_list o ++ os).
  rewrite (vfs_run_cons _ _ _ _ _ E), E2.
  split_and!; try done. by apply Forall_app.
Qed.

(** Two opens and two closes in an environment where nothing fails. *)
Lemma two_opens_two_closes (fb : fb_chardev_s) (e1 e2 e3 e4 : env) (n : nat) :
  crefs fb = 0 ->
  env_fine e1 -> env_fine e2 -> env_fine e3 -> env_fine e4 ->
  (n <= 1)%nat ->
  exists s os,
    vfs_run cfg vt (vfs_init fb)
      [VfsOpen e1; VfsOpen e2; VfsClose n e3; VfsClose 0 e4] = Done (s, os) /\
    so_calls <$> os = [if vt_open vt then [HwOpen] else []; []; [];
                       if vt_close vt then [HwClose] else []] /\
    crefs (v_fb s) = 0.
Proof.
  intros Hc (L1 & A1 & R1) (L2 & A2 & R2) (L3 & _ & R3) (L4 & _ & R4) Hn.
  pose proof (vfs_inv_init fb Hc) as I0.
  destruct (vfs_step_open (vfs_init fb) e1 I0) as (s1 & r1 & E1 & I1 & H1);
    [simpl; lia|].
  cbv zeta in E1, H1. simpl v_fb in E1, H1. rewrite Hc, A1 in E1, H1.
  replace (0 <=? lock_ret e1) with true in E1, H1 by lia.
  replace (hook_ret e1 <? 0) with false in H1 by lia.
  rewrite andb_false_r in H1. simpl in E1, H1. destruct H1 as [-> C1].
  destruct (vfs_step_open s1 e2 I1) as (s2 & r2 & E2 & I2 & H2); [lia|].
  cbv zeta in E2, H2. rewrite C1, A2 in E2, H2.
  replace (0 <=? lock_ret e2) with true in E2, H2 by lia.
  simpl in E2, H2. destruct H2 as [-> C2].
  assert (is_Some (v_files s2 !! n)) as [f3 F3].
  { apply lookup_lt_is_Some. destruct I2 as [I2 _]. lia. }
  destruct (vfs_step_close s2 n f3 e3 I2) as (s3 & E3 & I3 & H3);
    [lia|done|].
  cbv zeta in E3, H3. rewrite C2 in E3, H3.
  replace (0 <=? lock_ret e3) with true in E3, H3 by lia.
  simpl in E3, H3.
  replace (0 <=? lock_ret e3) with true in H3 by lia.
  assert (is_Some (v_files s3 !! 0%nat)) as [f4 F4].
  { apply lookup_lt_is_Some. destruct I3 as [I3 _]. lia. }
  destruct (vfs_step_close s3 0 f4 e4 I3) as (s4 & E4 & I4 & H4);
    [lia|done|].
  cbv zeta in E4, H4. rewrite H3 in E4, H4.
  replace (0 <=? lock_ret e4) with true in E4, H4 by lia.
  simpl in E4, H4.
  assert ((if vt_close vt then hook_ret e4 else lock_ret e4) >= 0) as R
    by (destruct (vt_close vt); lia).
  destruct (0 <=? (if vt_close vt then hook_ret e4 else lock_ret e4)) eqn:R';
    [|lia].
  exists s4. eexists.
  rewrite (vfs_run_cons _ _ _ _ _ E1), (vfs_run_cons _ _ _ _ _ E2),
    (vfs_run_cons _ _ _ _ _ E3), (vfs_run_cons _ _ _ _ _ E4).
  cbn [vfs_run]. rewrite !bind_Done. cbv beta iota.
  split; [reflexivity|]. split; [|lia].
  simpl. by destruct (vt_open vt), (vt_close vt).
Qed.

(** Where no hook fails and the hardware has both hooks, the calls of a
    hook are the moves of the counter between 0 and 1. *)
Lemma step_ok_counts (o : step_obs) :
  step_ok vt o ->
  (so_calls o <> [] -> 0 <= so_ret o) ->
  vt_open vt = true -> vt_close vt = true ->
  length (filter (fun c => c = HwOpen) (so_calls o))
    = (if rises o then 1 else 0)%nat /\
  length (filter (fun c => c = HwClose) (so_calls o))
    = (if falls o then 1 else 0)%nat.
Proof.
  intros (H0 & H1 & Hm & Hc) Hr Ho Hcl. unfold rises, falls.
  destruct (so_open o); simpl;
    destruct Hc as [(Ec & Hb & _ & Hiff)|(Ec & Hno)]; rewrite Ec in *;
    simpl; rewrite ?andb_false_r; simpl.
  - rewrite Hb. simpl.
    assert (so_after o = 1) as -> by (apply Hiff, Hr; done). done.
  - destruct (Z.eqb_spec (so_before o) 0), (Z.eqb_spec (so_after o) 1);
      simpl; try done.
    rewrite Hno in Ho by done. done.
  - rewrite Hb. simpl.
    assert (so_after o = 0) as -> by (apply Hiff, Hr; done). done.
  - destruct (Z.eqb_spec (so_before o) 1), (Z.eqb_spec (so_after o) 0);
      simpl; try done.
    rewrite Hno in Hcl by done. done.
Qed.

Lemma hook_calls_cons (k : hook_call) (o : step_obs) (os : list step_obs) :
  hook_calls k (o :: os)
  = (length (filter (fun c => c = k) (so_calls o)) + hook_calls k os)%nat.
Proof.
  unfold hook_calls. rewrite bind_cons, filter_app, length_app. done.
Qed.

Lemma count_obs_cons (f : step_obs -> bool) (o : step_obs)
    (os : list step_obs) :
  count_obs f (o :: os) = ((if f o then 1 else 0) + count_obs f os)%nat.
Proof.
  unfold count_obs. rewrite filter_cons.
  destruct (f o) eqn:E.
  - by rewrite decide_True.
  - by rewrite decide_False.
Qed.

Lemma hooks_on_transitions (os : list step_obs) :
  Forall (step_ok vt) os ->
  Forall (fun o => so_calls o <> [] -> 0 <= so_ret o) os ->
  vt_open vt = true -> vt_close vt = true ->
  hook_calls HwOpen os = count_obs rises os /\
  hook_calls HwClose os = count_obs falls os.
Proof.
  intros Hok Hr Ho Hc. induction os as [|o os IH]; [done|].
  apply Forall_cons in Hok as [Hok1 Hok]. apply Forall_cons in Hr as [Hr1 Hr].
  destruct (IH Hok Hr) as [IH1 IH2].
  destruct (step_ok_counts o Hok1 Hr1 Ho Hc) as [E1 E2].
  by rewrite !hook_calls_cons, !count_obs_cons, E1, E2, IH1, IH2.
Qed.


End RefCount.


(** The same four calls, run. *)
Example two_opens_two_closes_run :
  (fun r => match r with
            | Done (s, os) => Some (crefs (v_fb s), so_calls <$> os)
            | Trap _ => None
            end)
    (vfs_run cfg_debug vt_all (vfs_init fb_primary_only)
       [VfsOpen (env_hook 0); VfsOpen (env_hook 0);
        VfsClose 0 (env_hook 0); VfsClose 0 (env_hook 0)])
  = Some (0, [[HwOpen]; []; []; [HwClose]]).
Proof. vm_compute. reflexivity. Qed.


(** ** The pan-info queue of one surface *)

(** The common entry of the queue operations: the surface resolves to
    its slot, and the slot is there. *)
Ltac resolve_slot Hs :=
  rewrite fb_get_panbuf_in_range, bind_Done, Hs, bind_Done by done.

Section Queue.

Context (cfg : config).

Let P : nat := sizeof_paninfo cfg.

Hypothesis P_pos : (0 < P)%nat.

Lemma cb_eta (c : circbuf_s) : {| cb_size := cb_size c; cb_data := cb_data c |} = c.
Proof. by destruct c. Qed.

Lemma set_buf_same (p : fb_paninfo_s) : set_buf p (buf p) = p.
Proof. by destruct p. Qed.

(** An enqueue that finds room for a whole record. *)
Lemma fb_add_paninfo_room (fb : fb_chardev_s) (p : fb_paninfo_s)
    (info : list byte) (ov : Z) :
  slot_at fb (ov + 1) = Done p ->
  length info = P ->
  (circbuf_used (buf p) + P <= cb_size (buf p))%nat ->
  fb_add_paninfo cfg (Some fb) info ov
  = Done (Some (set_slot fb (ov + 1)
                  (set_buf p {| cb_size := cb_size (buf p);
                                cb_data := cb_data (buf p) ++ info |})),
          OK).
Proof.
  intros Hs Hi Hr. pose proof (slot_at_Done _ _ _ Hs) as [Hrange _].
  unfold fb_add_paninfo.
  resolve_slot Hs.
  unfold circbuf_write, circbuf_space. fold P.
  rewrite Nat.min_l by lia.
  rewrite DEBUGASSERT_ok, bind_Done by lia.
  rewrite firstn_all2 by lia.
  by replace (Z.of_nat P <=? 0) with false by lia.
Qed.

(** An enqueue that finds the ring buffer full. *)
Lemma fb_add_paninfo_full (fb : fb_chardev_s) (p : fb_paninfo_s)
    (info : list byte) (ov : Z) :
  slot_at fb (ov + 1) = Done p ->
  (cb_size (buf p) <= circbuf_used (buf p))%nat ->
  fb_add_paninfo cfg (Some fb) info ov
  = if debug_assertions cfg then Trap AssertFailed
    else Done (Some fb, QueueFull).
Proof.
  intros Hs Hf. pose proof (slot_at_Done _ _ _ Hs) as [Hrange _].
  unfold fb_add_paninfo.
  resolve_slot Hs.
  unfold circbuf_write, circbuf_space. fold P.
  rewrite Nat.min_r by lia.
  replace (cb_size (buf p) - circbuf_used (buf p))%nat with 0%nat by lia.
  rewrite take_0, app_nil_r, cb_eta, set_buf_same, set_slot_same by done.
  unfold DEBUGASSERT.
  destruct (Z.eqb_spec (Z.of_nat 0) (Z.of_nat P)); [lia|].
  by destruct (debug_assertions cfg).
Qed.

Lemma fb_peek_paninfo_pending (fb : fb_chardev_s) (p : fb_paninfo_s) (ov : Z) :
  slot_at fb (ov + 1) = Done p ->
  (P <= circbuf_used (buf p))%nat ->
  fb_peek_paninfo cfg (Some fb) ov = Done (OK, take P (cb_data (buf p))).
Proof.
  intros Hs Hu. pose proof (slot_at_Done _ _ _ Hs) as [Hrange _].
  unfold fb_peek_paninfo.
  resolve_slot Hs.
  unfold circbuf_peek. fold P. rewrite Nat.min_l by lia.
  rewrite DEBUGASSERT_ok, bind_Done
    by (apply orb_true_iff; right; lia).
  by replace (Z.of_nat P <=? 0) with false by lia.
Qed.

Lemma fb_peek_paninfo_empty (fb : fb_chardev_s) (p : fb_paninfo_s) (ov : Z) :
  slot_at fb (ov + 1) = Done p ->
  cb_data (buf p) = [] ->
  fb_peek_paninfo cfg (Some fb) ov = Done (QueueEmpty, []).
Proof.
  intros Hs Hu. pose proof (slot_at_Done _ _ _ Hs) as [Hrange _].
  unfold fb_peek_paninfo.
  resolve_slot Hs.
  unfold circbuf_peek, circbuf_used. rewrite Hu. simpl length.
  rewrite Nat.min_0_r. by rewrite DEBUGASSERT_ok, bind_Done.
Qed.

Lemma fb_pollnotify_in_range (fb : fb_chardev_s) (p : fb_paninfo_s) (ov : Z) :
  slot_at fb (ov + 1) = Done p ->
  fb_pollnotify cfg (Some fb) ov
  = if 0 <? vsyncoffset fb
    then Done (Some (wd_start fb (vsyncoffset fb) (ov + 1)), [])
    else Done (Some fb, fb_do_pollnotify cfg p).
Proof.
  intros Hs. pose proof (slot_at_Done _ _ _ Hs) as [Hrange _].
  unfold fb_pollnotify.
  rewrite DEBUGASSERT_ok, bind_Done by by apply in_range_true.
  destruct (0 <? vsyncoffset fb); [done|]. by rewrite Hs.
Qed.

(** A dequeue that finds a record pending: one record is dropped, and
    the waiters are signalled at once, or the watchdog is armed. *)
Lemma fb_remove_paninfo_pending (fb : fb_chardev_s) (p : fb_paninfo_s)
    (ov : Z) :
  slot_at fb (ov + 1) = Done p ->
  (P <= circbuf_used (buf p))%nat ->
  let p' := set_buf p {| cb_size := cb_size (buf p);
                         cb_data := drop P (cb_data (buf p)) |} in
  let fb' := set_slot fb (ov + 1) p' in
  fb_remove_paninfo cfg (Some fb) ov
  = if 0 <? vsyncoffset fb
    then Done (Some (wd_start fb' (vsyncoffset fb) (ov + 1)), OK, [])
    else Done (Some fb', OK, fb_do_pollnotify cfg p).
Proof.
  intros Hs Hu p' fb'. pose proof (slot_at_Done _ _ _ Hs) as [Hrange _].
  unfold fb_remove_paninfo.
  resolve_slot Hs.
  unfold circbuf_skip. fold P. rewrite Nat.min_l by lia.
  fold p'. fold fb'.
  rewrite DEBUGASSERT_ok, bind_Done
    by (apply orb_true_iff; right; lia).
  rewrite Z.eqb_refl.
  rewrite (fb_pollnotify_in_range fb' p') by by eapply slot_at_set_slot.
  replace (Z.of_nat P <=? 0) with false by lia.
  change (vsyncoffset fb') with (vsyncoffset fb).
  by destruct (0 <? vsyncoffset fb).
Qed.

Lemma fb_remove_paninfo_empty (fb : fb_chardev_s) (p : fb_paninfo_s) (ov : Z) :
  slot_at fb (ov + 1) = Done p ->
  cb_data (buf p) = [] ->
  fb_remove_paninfo cfg (Some fb) ov = Done (Some fb, QueueEmpty, []).
Proof.
  intros Hs Hu. pose proof (slot_at_Done _ _ _ Hs) as [Hrange _].
  unfold fb_remove_paninfo.
  resolve_slot Hs.
  unfold circbuf_skip, circbuf_used. rewrite Hu. simpl length.
  rewrite Nat.min_0_r. simpl drop. rewrite <- Hu, cb_eta, set_buf_same.
  rewrite set_slot_same by done.
  rewrite DEBUGASSERT_ok, bind_Done by done.
  fold P. destruct (Z.eqb_spec (Z.of_nat 0) (Z.of_nat P)); [lia|done].
Qed.

Lemma fb_paninfo_count_in_range (fb : fb_chardev_s) (p : fb_paninfo_s)
    (ov : Z) :
  slot_at fb (ov + 1) = Done p ->
  fb_paninfo_count cfg (Some fb) ov
  = Done (Z.of_nat (circbuf_used (buf p)) / Z.of_nat P).
Proof.
  intros Hs. pose proof (slot_at_Done _ _ _ Hs) as [Hrange _].
  unfold fb_paninfo_count.
  by rewrite fb_get_panbuf_in_range, bind_Done, Hs, bind_Done by done.
Qed.

Lemma slot_at_set_wdog (fb : fb_chardev_s) (w : option (Z * Z)) (id : Z) :
  slot_at (set_wdog fb w) id = slot_at fb id.
Proof. done. Qed.

(** First in, first out: with a record pending, peek after an enqueue
    still gives the oldest record. *)
Lemma fb_peek_after_enqueue_oldest (fb : fb_chardev_s) (p : fb_paninfo_s)
    (r : list byte) (ov : Z) :
  slot_at fb (ov + 1) = Done p ->
  length r = P ->
  (P <= circbuf_used (buf p))%nat ->
  (circbuf_used (buf p) + P <= cb_size (buf p))%nat ->
  exists fb1,
    fb_add_paninfo cfg (Some fb) r ov = Done (Some fb1, OK) /\
    fb_peek_paninfo cfg (Some fb1) ov = Done (OK, take P (cb_data (buf p))).
Proof.
  intros Hs Hr Hu Hroom. eexists. split.
  - by apply fb_add_paninfo_room.
  - erewrite fb_peek_paninfo_pending; [|by eapply slot_at_set_slot|].
    + simpl. by rewrite take_app_le.
    + unfold circbuf_used in *. simpl. rewrite length_app. lia.
Qed.

Lemma length_concat_records (rs : list (list byte)) :
  Forall (fun r => length r = P) rs ->
  length (concat rs) = (length rs * P)%nat.
Proof.
  induction 1 as [|r rs Hr _ IH]; [done|].
  simpl. rewrite length_app, IH, Hr. lia.
Qed.

Lemma take_first_record (rs : list (list byte)) (r : list byte) :
  Forall (fun x => length x = P) rs ->
  length r = P ->
  take P (concat (rs ++ [r])) = hd r rs /\
  drop P (concat (rs ++ [r])) = concat (tl (rs ++ [r])).
Proof.
  intros Hrs Hr. destruct rs as [|x rs]; simpl.
  - rewrite app_nil_r. split; [by apply firstn_all2; lia|].
    by rewrite drop_ge by lia.
  - apply Forall_cons in Hrs as [Hx _].
    by rewrite take_app_length', drop_app_length'.
Qed.

(** C2, as the driver has it.  On a valid surface whose ring buffer
    holds the whole records [rs] within a capacity of whole records, an
    enqueue of [r] that returns success has put [r] behind them.  Peek
    then gives the oldest record pending, which is [r] itself when the
    queue was empty before ([hd r rs]); peek takes the device as it is
    and hands no changed device back, and the pending count is one more
    than before.  Dequeue then returns success, which is all it returns,
    and takes exactly one record out, the oldest: the pending count is
    as before the enqueue.  Peek and dequeue on an empty queue fail
    [QueueEmpty] and change nothing. *)
Theorem enqueue_peek_dequeue_roundtrip (fb : fb_chardev_s)
    (p : fb_paninfo_s) (rs : list (list byte)) (r : list byte) (ov : Z)
    (n : nat) (priv1 : option fb_chardev_s) :
  slot_at fb (ov + 1) = Done p ->
  Forall (fun x => length x = P) rs ->
  cb_data (buf p) = concat rs ->
  cb_size (buf p) = (n * P)%nat ->
  length r = P ->
  fb_add_paninfo cfg (Some fb) r ov = Done (priv1, OK) ->
  exists fb1,
    priv1 = Some fb1 /\
    slot_at fb1 (ov + 1)
      = Done (set_buf p {| cb_size := cb_size (buf p);
                           cb_data := concat (rs ++ [r]) |}) /\
    fb_peek_paninfo cfg (Some fb1) ov = Done (OK, hd r rs) /\
    fb_paninfo_count cfg (Some fb1) ov = Done (Z.of_nat (length rs) + 1) /\
    (exists fb2 woken,
       fb_remove_paninfo cfg (Some fb1) ov = Done (Some fb2, OK, woken) /\
       slot_at fb2 (ov + 1)
         = Done (set_buf p {| cb_size := cb_size (buf p);
                              cb_data := concat (tl (rs ++ [r])) |}) /\
       fb_paninfo_count cfg (Some fb2) ov = Done (Z.of_nat (length rs))) /\
    (forall fb0 p0,
       slot_at fb0 (ov + 1) = Done p0 ->
       cb_data (buf p0) = [] ->
       fb_peek_paninfo cfg (Some fb0) ov = Done (QueueEmpty, []) /\
       fb_remove_paninfo cfg (Some fb0) ov
         = Done (Some fb0, QueueEmpty, [])).
Proof.
  intros Hs Hrs Hd Hn Hr Eadd.
  pose proof (length_concat_records rs Hrs) as Hlen.
  assert (length rs < n)%nat as Hroom.
  { destruct (decide (length rs < n)%nat) as [|Hfull]; [done|].
    rewrite (fb_add_paninfo_full fb p r ov Hs) in Eadd.
    - destruct (debug_assertions cfg); [done|]. by injection Eadd.
    - unfold circbuf_used. rewrite Hd, Hn, Hlen. nia. }
  rewrite (fb_add_paninfo_room fb p r ov Hs Hr) in Eadd
    by (unfold circbuf_used; rewrite Hd, Hn, Hlen; nia).
  injection Eadd as <-.
  set (p1 := set_buf p {| cb_size := cb_size (buf p);
                          cb_data := concat (rs ++ [r]) |}).
  replace (cb_data (buf p) ++ r) with (concat (rs ++ [r]))
    by (rewrite concat_app, Hd; simpl; by rewrite app_nil_r).
  fold p1. set (fb1 := set_slot fb (ov + 1) p1).
  assert (slot_at fb1 (ov + 1) = Done p1) as Hs1
    by by eapply slot_at_set_slot.
  assert (Forall (fun x => length x = P) (rs ++ [r])) as Hrs1
    by (apply Forall_app; split; [done|by apply Forall_singleton]).
  assert (circbuf_used (buf p1) = ((length rs + 1) * P)%nat) as Hu1.
  { unfold circbuf_used. simpl.
    rewrite (length_concat_records _ Hrs1), length_app. done. }
  destruct (take_first_record rs r Hrs Hr) as [Etake Edrop].
  exists fb1. split_and!; [done|done| | | |].
  - rewrite (fb_peek_paninfo_pending fb1 p1) by (done || nia).
    simpl. by rewrite Etake.
  - rewrite (fb_paninfo_count_in_range fb1 p1) by done.
    rewrite Hu1, Nat2Z.inj_mul, Z.div_mul by lia. f_equal. lia.
  - set (p2 := set_buf p {| cb_size := cb_size (buf p);
                            cb_data := concat (tl (rs ++ [r])) |}).
    assert (set_buf p1 {| cb_size := cb_size (buf p1);
                          cb_data := drop P (cb_data (buf p1)) |} = p2) as Ep.
    { simpl. by rewrite Edrop. }
    pose proof (fb_remove_paninfo_pending fb1 p1 ov Hs1) as E.
    cbv zeta in E. rewrite Ep in E. rewrite E by nia.
    assert (slot_at (set_slot fb1 (ov + 1) p2) (ov + 1) = Done p2) as Hs2
      by by eapply slot_at_set_slot.
    assert (Z.of_nat (circbuf_used (buf p2)) / Z.of_nat P
            = Z.of_nat (length rs)) as Ec.
    { unfold circbuf_used. simpl. rewrite <- Edrop, length_drop.
      rewrite (length_concat_records _ Hrs1), length_app. simpl.
      replace ((length rs + 1) * P - P)%nat with (length rs * P)%nat by lia.
      by rewrite Nat2Z.inj_mul, Z.div_mul by lia. }
    destruct (0 <? vsyncoffset fb1); eexists _, _;
      (split; [reflexivity|]); unfold wd_start;
      rewrite ?slot_at_set_wdog; (split; [done|]);
      rewrite (fb_paninfo_count_in_range _ p2)
        by (by rewrite ?slot_at_set_wdog);
      by rewrite Ec.
  - intros fb0 p0 Hs0 He0. split.
    + by eapply fb_peek_paninfo_empty.
    + by eapply fb_remove_paninfo_empty.
Qed.

(** A run of enqueues that fits into the ring buffer. *)
Lemma enqueue_all_room (ov : Z) (rs : list (list byte)) :
  forall (fb : fb_chardev_s) (p : fb_paninfo_s),
    slot_at fb (ov + 1) = Done p ->
    Forall (fun r => length r = P) rs ->
    (circbuf_used (buf p) + length rs * P <= cb_size (buf p))%nat ->
    exists fb',
      enqueue_all cfg (Some fb) rs ov
        = Done (Some fb', replicate (length rs) OK) /\
      slot_at fb' (ov + 1)
        = Done (set_buf p {| cb_size := cb_size (buf p);
                             cb_data := cb_data (buf p) ++ concat rs |}).
Proof.
  induction rs as [|r rs IH]; intros fb p Hs Hl Hroom.
  { exists fb. split; [done|]. simpl.
    by rewrite app_nil_r, cb_eta, set_buf_same. }
  apply Forall_cons in Hl as [Hr Hl]. simpl length in Hroom.
  set (p1 := set_buf p {| cb_size := cb_size (buf p);
                          cb_data := cb_data (buf p) ++ r |}).
  destruct (IH (set_slot fb (ov + 1) p1) p1) as (fb' & E & Hs').
  { by eapply slot_at_set_slot. }
  { done. }
  { unfold circbuf_used in *. simpl. rewrite length_app. lia. }
  exists fb'. cbn [enqueue_all].
  rewrite (fb_add_paninfo_room fb p r ov) by (done || lia).
  rewrite bind_Done. fold p1. rewrite E. split; [done|].
  rewrite Hs'. simpl. by rewrite <- app_assoc.
Qed.

End Queue.

Lemma enqueue_peek_dequeue_roundtrip_witness :
  exists fb1,
    Some (fb_holding (rec_a ++ rec_b)) = Some fb1 /\
    slot_at fb1 (-1 + 1)
      = Done {| buf := {| cb_size := 8; cb_data := concat ([rec_a] ++ [rec_b]) |};
                fds := [None; None] |} /\
    fb_peek_paninfo cfg_debug (Some fb1) (-1) = Done (OK, rec_a) /\
    fb_paninfo_count cfg_debug (Some fb1) (-1) = Done (Z.of_nat 1 + 1) /\
    (exists fb2 woken,
       fb_remove_paninfo cfg_debug (Some fb1) (-1)
         = Done (Some fb2, OK, woken) /\
       slot_at fb2 (-1 + 1)
         = Done {| buf := {| cb_size := 8;
                             cb_data := concat (tl ([rec_a] ++ [rec_b])) |};
                   fds := [None; None] |} /\
       fb_paninfo_count cfg_debug (Some fb2) (-1) = Done (Z.of_nat 1)) /\
    (forall fb0 p0,
       slot_at fb0 (-1 + 1) = Done p0 ->
       cb_data (buf p0) = [] ->
       fb_peek_paninfo cfg_debug (Some fb0) (-1) = Done (QueueEmpty, []) /\
       fb_remove_paninfo cfg_debug (Some fb0) (-1)
         = Done (Some fb0, QueueEmpty, [])).
Proof.
  apply (enqueue_peek_dequeue_roundtrip cfg_debug ltac:(simpl; lia)
           (fb_holding rec_a)
           {| buf := {| cb_size := 8; cb_data := rec_a |};
              fds := [None; None] |}
           [rec_a] rec_b (-1) 2 (Some (fb_holding (rec_a ++ rec_b)))).
  - reflexivity.
  - repeat constructor.
  - reflexivity.
  - reflexivity.
  - reflexivity.
  - reflexivity.
Defined.

(** The round trip from an empty queue: after the enqueue of [rec_a],
    peek gives [rec_a] and the dequeue leaves the queue empty again. *)
Example roundtrip_from_empty :
  fb_add_paninfo cfg_debug (Some fb_primary_only) rec_a (-1)
    = Done (Some (fb_holding rec_a), OK) /\
  fb_peek_paninfo cfg_debug (Some (fb_holding rec_a)) (-1)
    = Done (OK, rec_a) /\
  fb_remove_paninfo cfg_debug (Some (fb_holding rec_a)) (-1)
    = Done (Some fb_primary_only, OK, []) /\
  fb_peek_paninfo cfg_debug (Some fb_primary_only) (-1)
    = Done (QueueEmpty, []) /\
  fb_remove_paninfo cfg_debug (Some fb_primary_only) (-1)
    = Done (Some fb_primary_only, QueueEmpty, []).
Proof. split_and!; reflexivity. Qed.

(** C2 read literally fails in what the dequeue returns: after the
    enqueue of [rec_a] and after the enqueue of [rec_b] it returns the
    same value, [OK], so that no reading of what it returns gives the
    record back. *)
Lemma dequeue_returns_status_only :
  ~ exists decode : Z -> list byte,
      dequeue_returns_enqueued cfg_release fb_primary_only (-1) decode rec_a /\
      dequeue_returns_enqueued cfg_release fb_primary_only (-1) decode rec_b.
Proof.
  intros (decode & Ha & Hb).
  destruct (Ha (Some (fb_holding rec_a)) eq_refl) as (pa & ra & wa & Ea & Da).
  destruct (Hb (Some (fb_holding rec_b)) eq_refl) as (pb & rb & wb & Eb & Db).
  vm_compute in Ea, Eb. injection Ea as _ <- _. injection Eb as _ <- _.
  rewrite Da in Db. discriminate Db.
Qed.

(** ** Registration *)

Section Registration.

Context (cfg : config).

Let P : nat := sizeof_paninfo cfg.

Lemma fb_get_panelinfo_plane (hw : fb_hw) (fb fb' : fb_chardev_s) (ov : Z) :
  plane fb = plane fb' ->
  fb_get_panelinfo hw fb ov = fb_get_panelinfo hw fb' ov.
Proof.
  intros H. unfold fb_get_panelinfo, fb_get_planeinfo. by rewrite H.
Qed.

Lemma init_paninfo_slots (hw : fb_hw) (r : reg_env) (fb : fb_chardev_s)
    (ids : list Z) :
  forall ret slots,
    init_paninfo cfg hw r fb ids = Done (ret, slots) ->
    0 <= ret ->
    Forall2 (slot_registered cfg hw r fb) ids slots.
Proof.
  induction ids as [|i ids IH]; intros ret slots E Hret.
  { simpl in E. injection E as <- <-. constructor. }
  cbn [init_paninfo] in E.
  apply bind_Done_inv in E as ([ret0 pinfo] & E0 & E).
  destruct (Z.ltb_spec ret0 0) as [Hn|Hn].
  { injection E as <- <-. lia. }
  fold P in E.
  destruct (circbuf_init circbuf_zero (Z.to_nat (fbcount pinfo) * P)
              (alloc_circbuf_ok r i)) as [c cret] eqn:Ec.
  apply bind_Done_inv in E as ([] & Ea & E).
  apply bind_Done_inv in E as ([ret1 slots1] & E1 & E).
  injection E as <- <-. constructor; [|by eapply IH].
  exists ret0, pinfo. cbv zeta. fold P. rewrite Ec.
  split_and!; try done.
  intros Hd. simpl. unfold DEBUGASSERT in Ea. rewrite Hd in Ea.
  destruct (Z.eqb_spec cret 0); [done|]. simpl in Ea. discriminate Ea.
Qed.

Lemma fb_register_device_ok (hw : fb_hw) (r : reg_env) (pl ret : Z)
    (fb : fb_chardev_s) :
  fb_register_device cfg hw r pl = Done (ret, Some fb) ->
  ret = OK /\ crefs fb = 0 /\ vsyncoffset fb = 0 /\ wdog fb = None /\
  paninfo_count fb = Z.max 0 (vi_noverlays (getvideoinfo hw).2 + 1) /\
  Forall2 (slot_registered cfg hw r fb)
    (seqZ 0 (vi_noverlays (getvideoinfo hw).2 + 1)) (paninfo fb).
Proof.
  unfold fb_register_device. intros E.
  destruct (alloc_fb_ok r); [|done]. simpl negb in E. cbv iota in E.
  apply bind_Done_inv in E as ([] & _ & E).
  destruct (getvideoinfo hw) as [vret vinfo]. simpl.
  destruct (vret <? 0); [done|].
  apply bind_Done_inv in E as ([] & _ & E).
  destruct (alloc_paninfo_ok r); [|done]. simpl negb in E. cbv iota in E.
  apply bind_Done_inv in E as ([ret1 slots] & E1 & E).
  destruct (Z.ltb_spec ret1 0) as [Hn|Hn]; [done|].
  destruct (register_driver_ret r <? 0); [done|].
  injection E as <- <-.
  apply init_paninfo_slots in E1; [|done].
  split_and!; try done.
  unfold paninfo_count. simpl.
  apply Forall2_length in E1. rewrite <- E1, length_seqZ. lia.
Qed.

(** The ring buffer of a registered slot: empty, with the capacity of
    the reported buffer count times the payload size when [circbuf_init]
    found its memory, and without any capacity when it did not, which
    only a build without assertions lets pass. *)
Lemma slot_registered_buf (hw : fb_hw) (r : reg_env) (fb : fb_chardev_s)
    (i : Z) (slot : fb_paninfo_s) :
  slot_registered cfg hw r fb i slot ->
  exists ret panelinfo,
    fb_get_panelinfo hw fb (i - 1) = Done (ret, panelinfo) /\ 0 <= ret /\
    fds slot = replicate (NPOLLWAITERS cfg) None /\
    cb_data (buf slot) = [] /\
    cb_size (buf slot)
    = (if alloc_circbuf_ok r i then Z.to_nat (fbcount panelinfo) * P
       else 0)%nat /\
    (debug_assertions cfg = true -> alloc_circbuf_ok r i = true).
Proof.
  intros (ret & pinfo & G & Hret & Hs & Hd). exists ret, pinfo.
  cbv zeta in Hs, Hd. unfold circbuf_init in Hs, Hd. rewrite Hs.
  destruct (alloc_circbuf_ok r i); simpl in *; split_and!; try done.
  intros Hdbg. specialize (Hd Hdbg). unfold ENOMEM in Hd. lia.
Qed.

(** After a registration in which every ring buffer found its memory
    (as every registration that returns in a build with assertions is),
    every slot's ring buffer is empty and has the capacity of the
    reported buffer count times the payload size.  From there any run of
    at most that many enqueues succeeds, and the pending count is then
    the number of enqueues made; once the count is reached the next
    enqueue is refused by the ring buffer: it returns [QueueFull] in a
    build without assertions and trips [DEBUGASSERT(ret == sizeof(...))]
    in a build with them. *)
Lemma registered_queue_capacity (hw : fb_hw) (r : reg_env) (pl : Z)
    (fb : fb_chardev_s) (ov : Z) :
  (0 < P)%nat ->
  fb_register_device cfg hw r pl = Done (OK, Some fb) ->
  debug_assertions cfg = true \/ alloc_circbuf_ok r (ov + 1) = true ->
  -1 <= ov <= paninfo_count fb - 2 ->
  exists ret panelinfo p,
    fb_get_panelinfo hw fb ov = Done (ret, panelinfo) /\ 0 <= ret /\
    slot_at fb (ov + 1) = Done p /\
    cb_size (buf p) = (Z.to_nat (fbcount panelinfo) * P)%nat /\
    cb_data (buf p) = [] /\
    forall rs,
      Forall (fun r => length r = P) rs ->
      (length rs <= Z.to_nat (fbcount panelinfo))%nat ->
      exists fb',
        enqueue_all cfg (Some fb) rs ov
          = Done (Some fb', replicate (length rs) OK) /\
        fb_paninfo_count cfg (Some fb') ov = Done (Z.of_nat (length rs)) /\
        (length rs = Z.to_nat (fbcount panelinfo) ->
         forall r', fb_add_paninfo cfg (Some fb') r' ov
                    = if debug_assertions cfg then Trap AssertFailed
                      else Done (Some fb', QueueFull)).
Proof.
  intros P_pos E Hmem Hov.
  apply fb_register_device_ok in E as (_ & _ & _ & _ & _ & Hall).
  destruct (slot_at_in_range fb (ov + 1)) as (p & Hs & Hlk); [lia|].
  destruct (Forall2_lookup_r _ _ _ _ _ Hall Hlk) as (i & Hi & Hreg).
  apply lookup_seqZ in Hi as [-> _].
  replace (0 + Z.of_nat (Z.to_nat (ov + 1))) with (ov + 1) in Hreg by lia.
  apply slot_registered_buf in Hreg
    as (ret & pinfo & G & Hret & _ & Hdata & Hsize & Hd).
  replace (ov + 1 - 1) with ov in G by lia.
  assert (alloc_circbuf_ok r (ov + 1) = true) as Hok by (destruct Hmem; auto).
  rewrite Hok in Hsize.
  exists ret, pinfo, p. split_and!; try done.
  intros rs Hrs Hlen.
  destruct (enqueue_all_room cfg P_pos ov rs fb _ Hs Hrs) as (fb' & Ea & Hs').
  { unfold circbuf_used. rewrite Hdata, Hsize. simpl. fold P. nia. }
  exists fb'. split_and!; [done| |].
  - rewrite (fb_paninfo_count_in_range cfg _ _ _ Hs').
    unfold circbuf_used. simpl. rewrite Hdata. simpl.
    rewrite (length_concat_records cfg) by done.
    fold P. by rewrite Nat2Z.inj_mul, Z.div_mul by lia.
  - intros Hfull r'. apply (fb_add_paninfo_full cfg P_pos _ _ _ _ Hs').
    unfold circbuf_used. simpl. rewrite Hdata, Hsize. simpl.
    rewrite (length_concat_records cfg) by done.
    fold P. nia.
Qed.

End Registration.

(** The sample hardware registers as [fb_double]. *)
Example registration_sample :
  fb_register_device cfg_release hw_double reg_fine 0
  = Done (OK, Some fb_double).
Proof. reflexivity. Qed.

(** Two enqueues, then a third, on the primary surface of the sample
    device, in both builds. *)
Example fill_then_overflow_release :
  enqueue_all cfg_release (Some fb_double) [rec_a; rec_b; rec_a] (-1)
  = Done (Some (set_slot fb_double 0
                  {| buf := {| cb_size := 8; cb_data := rec_a ++ rec_b |};
                     fds := [None; None] |}),
          [OK; OK; QueueFull]).
Proof. reflexivity. Qed.

Example fill_then_overflow_debug :
  enqueue_all cfg_debug (Some fb_double) [rec_a; rec_b; rec_a] (-1)
  = Trap AssertFailed.
Proof. reflexivity. Qed.

(** C1: the capacity and the refusal [QueueFull] the claim states are
    what the code sets out to do and misses in two places.
    On the sample device (buffer count 2) registered in a build with
    assertions, two enqueues succeed and the pending count is 2; the
    third enqueue is refused by the ring buffer, and instead of
    returning [QueueFull], as the same call does in a build without
    assertions and as [return ret <= 0 ? -ENOSPC : OK] provides, it
    stops at [DEBUGASSERT(ret == sizeof(union fb_paninfo_u))].
    When [circbuf_init] finds no memory for the primary surface, a build
    without assertions still registers the device with [OK]: the slot
    has no capacity instead of two records, and the first enqueue is
    refused; a build with assertions stops at [DEBUGASSERT(ret == 0)]. *)
Theorem enqueue_on_full_asserts :
  (exists fb fb2,
     fb_register_device cfg_debug hw_double reg_fine 0 = Done (OK, Some fb) /\
     enqueue_all cfg_debug (Some fb) [rec_a; rec_b] (-1)
       = Done (Some fb2, [OK; OK]) /\
     fb_paninfo_count cfg_debug (Some fb2) (-1) = Done 2 /\
     fb_add_paninfo cfg_debug (Some fb2) rec_a (-1) = Trap AssertFailed /\
     ~ enqueue_on_full_fails cfg_debug fb2 rec_a (-1) /\
     fb_add_paninfo cfg_release (Some fb2) rec_a (-1)
       = Done (Some fb2, QueueFull)) /\
  (exists fb p panelinfo,
     fb_register_device cfg_release hw_double reg_no_ring 0
       = Done (OK, Some fb) /\
     fb_get_panelinfo hw_double fb FB_NO_OVERLAY = Done (OK, panelinfo) /\
     fbcount panelinfo = 2 /\
     slot_at fb 0 = Done p /\ cb_size (buf p) = 0%nat /\
     fb_add_paninfo cfg_release (Some fb) rec_a FB_NO_OVERLAY
       = Done (Some fb, QueueFull) /\
     fb_register_device cfg_debug hw_double reg_no_ring 0
       = Trap AssertFailed).
Proof.
  split.
  - eexists _, _. split_and!; [reflexivity..| |reflexivity].
    intros [priv H]. vm_compute in H. discriminate H.
  - eexists _, _, _. split_and!; reflexivity.
Qed.

(** ** Poll setup and teardown *)

Section Poll.

Context (cfg : config).

Lemma first_free_found (l : list (option pollfd_ptr)) (i : nat) :
  forall k,
    l !! i = Some None ->
    (forall j, (j < i)%nat -> exists w, l !! j = Some (Some w)) ->
    first_free l k = Some (k + i)%nat.
Proof.
  revert i. induction l as [|x l IH]; intros i k Hi Hbefore; [done|].
  destruct i as [|i].
  - simpl in Hi. injection Hi as ->. simpl. f_equal. lia.
  - destruct (Hbefore 0%nat) as [w Hw]; [lia|].
    simpl in Hw. injection Hw as ->. simpl.
    rewrite (IH i (S k)); [f_equal; lia|done|].
    intros j Hj. apply (Hbefore (S j)). lia.
Qed.

Lemma first_free_none (l : list (option pollfd_ptr)) :
  forall k, Forall is_Some l -> first_free l k = None.
Proof.
  induction l as [|x l IH]; intros k H; [done|].
  apply Forall_cons in H as [[w ->] H]. simpl. by apply IH.
Qed.

Lemma priv_of_live (h : kheap) (filep : file) (a : nat) (priv : fb_priv_s) :
  f_priv filep = Some a -> h !! a = Some priv ->
  priv_of cfg h filep = Done priv.
Proof.
  intros Hp Ha. unfold priv_of.
  rewrite Hp, (DEBUGASSERT_ok _ (bool_decide _))
    by (by apply bool_decide_eq_true_2).
  rewrite bind_Done. simpl. by rewrite Ha.
Qed.

(** C5.  On a file whose surface is a slot [p] of the device, with the
    waiter array at its size of [NPOLLWAITERS]: setup puts the caller's
    waiter into the first empty entry [i], records that entry in the
    caller's [pollfd], and signals the caller at once exactly when the
    ring buffer is not full; with every entry taken, setup fails [Busy]
    and changes nothing; teardown empties the entry recorded in the
    caller's [pollfd], and only that one. *)
Theorem fb_poll_setup_teardown (fb : fb_chardev_s) (h : kheap)
    (filep : file) (a : nat) (priv : fb_priv_s) (p : fb_paninfo_s)
    (pfd : pollfd) :
  f_priv filep = Some a ->
  h !! a = Some priv ->
  slot_at fb (overlay priv + 1) = Done p ->
  length (fds p) = NPOLLWAITERS cfg ->
  (forall i,
     fds p !! i = Some None ->
     (forall j, (j < i)%nat -> exists w, fds p !! j = Some (Some w)) ->
     fb_poll cfg fb h filep pfd true
     = Done (OK,
             set_slot fb (overlay priv + 1)
               (set_fds p (<[i := Some (pfd_addr pfd)]> (fds p))),
             {| pfd_addr := pfd_addr pfd;
                pfd_priv := Some (overlay priv + 1, i) |},
             if circbuf_is_full (buf p) then [] else [pfd_addr pfd])) /\
  (Forall is_Some (fds p) ->
   fb_poll cfg fb h filep pfd true = Done (Busy, fb, pfd, [])) /\
  (forall id i q,
     pfd_priv pfd = Some (id, i) ->
     slot_at fb id = Done q ->
     (i < length (fds q))%nat ->
     fb_poll cfg fb h filep pfd false
     = Done (OK, set_slot fb id (set_fds q (<[i := None]> (fds q))),
             {| pfd_addr := pfd_addr pfd; pfd_priv := None |}, [])).
Proof.
  intros Hp Ha Hs Hn.
  pose proof (slot_at_Done _ _ _ Hs) as [Hrange _].
  assert (forall b, fb_poll cfg fb h filep pfd b
            = if b then
                priv ← priv_of cfg h filep;
                pollfds ← fb_get_free_pollfds cfg fb (overlay priv);
                match pollfds with
                | None => Done (- EBUSY, fb, pfd, [])
                | Some (id, i) =>
                    p ← slot_at fb id;
                    let fb' := set_slot fb id
                      (set_fds p (<[i := Some (pfd_addr pfd)]> (fds p))) in
                    panbuf ← fb_get_panbuf cfg fb' (overlay priv);
                    match panbuf with
                    | None => Trap OutOfBounds
                    | Some id' =>
                        p' ← slot_at fb' id';
                        Done (OK, fb',
                              {| pfd_addr := pfd_addr pfd;
                                 pfd_priv := Some (id, i) |},
                              if circbuf_is_full (buf p') then []
                              else [pfd_addr pfd])
                    end
                end
              else
                match pfd_priv pfd with
                | Some (id, i) =>
                    p ← slot_at fb id;
                    if decide (i < length (fds p))%nat then
                      Done (OK,
                            set_slot fb id
                              (set_fds p (<[i := None]> (fds p))),
                            {| pfd_addr := pfd_addr pfd; pfd_priv := None |},
                            [])
                    else Trap OutOfBounds
                | None => Done (OK, fb, pfd, [])
                end) as Body.
  { intros b. unfold fb_poll.
    by rewrite Hp, (DEBUGASSERT_ok _ (bool_decide _))
      by (by apply bool_decide_eq_true_2). }
  assert (fb_get_free_pollfds cfg fb (overlay priv)
          = Done (match first_free (fds p) 0 with
                  | Some i => Some (overlay priv + 1, i)
                  | None => None
                  end)) as Free.
  { unfold fb_get_free_pollfds.
    rewrite DEBUGASSERT_ok, bind_Done by by apply in_range_true.
    rewrite Hs, bind_Done. by rewrite <- Hn, firstn_all. }
  split_and!.
  - intros i Hi Hbefore. rewrite Body.
    rewrite (priv_of_live h filep a priv), bind_Done by done.
    rewrite Free, bind_Done, (first_free_found _ i 0) by done.
    simpl Nat.add. rewrite Hs, bind_Done. cbv zeta.
    rewrite fb_get_panbuf_in_range, bind_Done
      by by rewrite paninfo_count_set_slot.
    by erewrite slot_at_set_slot by done.
  - intros Hfull. rewrite Body.
    rewrite (priv_of_live h filep a priv), bind_Done by done.
    by rewrite Free, bind_Done, first_free_none.
  - intros id i q Hq Hsq Hi. rewrite Body, Hq, Hsq, bind_Done.
    by rewrite decide_True.
Qed.

End Poll.

Lemma fb_poll_setup_teardown_witness :
  fb_poll cfg_debug (fb_with [] [Some 7%nat; None]) (heap_of 0) (file_at 0)
    {| pfd_addr := 9%nat; pfd_priv := None |} true
  = Done (OK, fb_with [] [Some 7%nat; Some 9%nat],
          {| pfd_addr := 9%nat; pfd_priv := Some (0, 1%nat) |}, [9%nat]).
Proof.
  refine (proj1 (fb_poll_setup_teardown cfg_debug
                   (fb_with [] [Some 7%nat; None]) (heap_of 0) (file_at 0)
                   0 {| overlay := FB_NO_OVERLAY |}
                   {| buf := {| cb_size := 8; cb_data := [] |};
                      fds := [Some 7%nat; None] |}
                   {| pfd_addr := 9%nat; pfd_priv := None |} _ _ _ _)
            1%nat _ _); try reflexivity.
  intros [|j] Hj; [by exists 7%nat|lia].
Defined.

(** Setup on a full queue registers the waiter and signals nothing;
    setup with both entries taken fails [Busy]. *)
Example fb_poll_full_queue :
  fb_poll cfg_debug (fb_with (rec_a ++ rec_b) [None; None]) (heap_of 0)
    (file_at 0) {| pfd_addr := 9%nat; pfd_priv := None |} true
  = Done (OK, fb_with (rec_a ++ rec_b) [Some 9%nat; None],
          {| pfd_addr := 9%nat; pfd_priv := Some (0, 0%nat) |}, []).
Proof. reflexivity. Qed.

Example fb_poll_busy :
  fb_poll cfg_debug (fb_with [] [Some 7%nat; Some 8%nat]) (heap_of 0)
    (file_at 0) {| pfd_addr := 9%nat; pfd_priv := None |} true
  = Done (Busy, fb_with [] [Some 7%nat; Some 8%nat],
          {| pfd_addr := 9%nat; pfd_priv := None |}, []).
Proof. reflexivity. Qed.

(** ** Notification after a dequeue *)

Section Notify.

Context (cfg : config).

(** The callback signals the waiters registered in its slot and nobody
    else. *)
Lemma fb_do_pollnotify_registered (p : fb_paninfo_s) (w : pollfd_ptr) :
  w ∈ fb_do_pollnotify cfg p <-> Some w ∈ take (NPOLLWAITERS cfg) (fds p).
Proof.
  unfold fb_do_pollnotify. rewrite list_elem_of_omap. split.
  - intros ([x|] & Hx & E); simpl in E; [|done]. by injection E as ->.
  - intros H. by exists (Some w).
Qed.

Lemma wdog_expire_armed (fb : fb_chardev_s) (delay id : Z)
    (p : fb_paninfo_s) :
  wdog fb = Some (delay, id) ->
  slot_at fb id = Done p ->
  wdog_expire cfg fb = Done (set_wdog fb None, fb_do_pollnotify cfg p).
Proof. intros Hw Hs. unfold wdog_expire. by rewrite Hw, Hs. Qed.

Lemma wdog_expire_idle (fb : fb_chardev_s) :
  wdog fb = None -> wdog_expire cfg fb = Done (fb, []).
Proof. intros Hw. unfold wdog_expire. by rewrite Hw. Qed.

(** With no vsync offset a successful dequeue signals, before it
    returns, exactly the waiters registered on its surface. *)
Lemma fb_remove_paninfo_wakes_now (fb : fb_chardev_s) (p : fb_paninfo_s)
    (ov : Z) :
  (0 < sizeof_paninfo cfg)%nat ->
  slot_at fb (ov + 1) = Done p ->
  (sizeof_paninfo cfg <= circbuf_used (buf p))%nat ->
  vsyncoffset fb <= 0 ->
  exists fb',
    fb_remove_paninfo cfg (Some fb) ov
    = Done (Some fb', OK, fb_do_pollnotify cfg p) /\
    wdog fb' = wdog fb.
Proof.
  intros HP Hs Hu Hv.
  rewrite (fb_remove_paninfo_pending cfg HP fb p ov Hs Hu).
  replace (0 <? vsyncoffset fb) with false by lia. by eexists.
Qed.

(** With a vsync offset a successful dequeue signals nobody; it arms the
    device's one watchdog for its own slot, whatever the watchdog held,
    and the expiry then signals the waiters of that slot. *)
Lemma fb_remove_paninfo_arms_watchdog (fb : fb_chardev_s)
    (p : fb_paninfo_s) (ov : Z) :
  (0 < sizeof_paninfo cfg)%nat ->
  slot_at fb (ov + 1) = Done p ->
  (sizeof_paninfo cfg <= circbuf_used (buf p))%nat ->
  0 < vsyncoffset fb ->
  exists fb' fb'',
    fb_remove_paninfo cfg (Some fb) ov = Done (Some fb', OK, []) /\
    wdog fb' = Some (vsyncoffset fb, ov + 1) /\
    wdog_expire cfg fb' = Done (fb'', fb_do_pollnotify cfg p) /\
    wdog fb'' = None.
Proof.
  intros HP Hs Hu Hv.
  rewrite (fb_remove_paninfo_pending cfg HP fb p ov Hs Hu).
  replace (0 <? vsyncoffset fb) with true by lia.
  set (p' := set_buf p {| cb_size := cb_size (buf p);
                          cb_data := drop (sizeof_paninfo cfg)
                                       (cb_data (buf p)) |}).
  set (fb' := wd_start (set_slot fb (ov + 1) p') (vsyncoffset fb) (ov + 1)).
  exists fb', (set_wdog fb' None). split_and!; [done|done| |done].
  rewrite (wdog_expire_armed fb' (vsyncoffset fb) (ov + 1) p'); [done|done|].
  unfold fb', wd_start. rewrite slot_at_set_wdog. by eapply slot_at_set_slot.
Qed.

End Notify.

(** C4, on a device with an overlay and a vsync offset of 5 ticks: a
    dequeue on the primary surface followed, before the watchdog
    expires, by a dequeue on overlay 0 leaves waiter 10 of the primary
    surface without a signal; only waiter 20 of the overlay is woken.
    Without a vsync offset both are. *)
Theorem deferred_notify_loses_other_surface :
  dequeue_both_then_expire cfg_release (fb_two_surfaces 5) = Done [20%nat] /\
  dequeue_both_then_expire cfg_debug (fb_two_surfaces 5) = Done [20%nat] /\
  dequeue_both_then_expire cfg_release (fb_two_surfaces 0)
    = Done [10%nat; 20%nat].
Proof. split_and!; reflexivity. Qed.

(** ** Read and write *)

(** On a surface of length 10: a read at offset 10 is at end of file; a
    read of 10 bytes at offset 9 gives the last byte and moves the
    position to 10. *)
Example fb_read_at_end :
  fb_read cfg_release (hw_mem mem_ten) fb_primary_only (heap_of 0)
    (file_pos 0 10) 10
  = Done (0, file_pos 0 10, []).
Proof. reflexivity. Qed.

Example fb_read_last_byte :
  fb_read cfg_release (hw_mem mem_ten) fb_primary_only (heap_of 0)
    (file_pos 0 9) 10
  = Done (1, file_pos 0 10, [x09]%byte).
Proof. reflexivity. Qed.

(** A write at offset 10 is refused; a write of 10 bytes at offset 5
    stores 5 bytes, returns 5 and moves the position to 10. *)
Example fb_write_at_end :
  fb_write cfg_release (hw_mem mem_ten) fb_primary_only (heap_of 0)
    (file_pos 0 10) buffer_ff 10
  = Done (BufferFull, file_pos 0 10, None).
Proof. reflexivity. Qed.

Example fb_write_truncated :
  fb_write cfg_release (hw_mem mem_ten) fb_primary_only (heap_of 0)
    (file_pos 0 5) buffer_ff 10
  = Done (5, file_pos 0 10,
          Some [x00; x01; x02; x03; x04; xff; xff; xff; xff; xff]%byte).
Proof. reflexivity. Qed.

(** C10, where [start + len] does not fit [size_t]: on a surface of
    length 10, a read of [SIZE_MAX] bytes at offset 1 is not clamped to
    the 9 bytes left.  The sum wraps to 0, which is below the length, so
    the size becomes the whole request and the copy runs off the frame
    memory. *)
Theorem fb_read_wraps_past_clamp :
  fb_read cfg_release (hw_mem mem_ten) fb_primary_only (heap_of 0)
    (file_pos 0 1) SIZE_MAX_32
  = Trap OutOfBounds.
Proof. vm_compute. reflexivity. Qed.

(** C9, where [start + len] does not fit [size_t]: on a surface of
    length 10, a write of [SIZE_MAX] bytes at offset 1 is not truncated
    to the 9 bytes left; the copy runs off the frame memory. *)
Theorem fb_write_wraps_past_clamp :
  fb_write cfg_release (hw_mem mem_ten) fb_primary_only (heap_of 0)
    (file_pos 0 1) buffer_ff SIZE_MAX_32
  = Trap OutOfBounds.
Proof. vm_compute. reflexivity. Qed.

(** The size the driver arrives at in the two cases above: the end wraps
    to 0 and the difference wraps back to the request. *)
Example wrapped_transfer_size :
  to_size cfg_release (1 + SIZE_MAX_32) = 0 /\
  to_size cfg_release (0 - 1) = SIZE_MAX_32.
Proof. split; reflexivity. Qed.

Section ReadWrite.

Context (cfg : config) (hw : fb_hw) (fb : fb_chardev_s) (h : kheap).
Context (filep : file) (a : nat) (priv : fb_priv_s).
Context (ret : Z) (panelinfo : fb_panelinfo_s) (len : Z).

Let L : Z := fblen panelinfo.
Let pos : Z := f_pos filep.

Hypothesis file_open : f_priv filep = Some a.
Hypothesis priv_live : h !! a = Some priv.
Hypothesis panel : fb_get_panelinfo hw fb (overlay priv) = Done (ret, panelinfo).
Hypothesis panel_ok : 0 <= ret.
Hypothesis mem_len : Z.of_nat (length (fbmem panelinfo)) = L.
Hypothesis size_bits_pos : 0 < size_bits cfg.
Hypothesis off_bits_pos : 0 < off_bits cfg.
Hypothesis L_ssize : L < 2 ^ (size_bits cfg - 1).
Hypothesis L_off : L < 2 ^ (off_bits cfg - 1).
Hypothesis pos_nonneg : 0 <= pos.
Hypothesis len_nonneg : 0 <= len.
Hypothesis no_wrap : pos + len < 2 ^ size_bits cfg.

Lemma pow2_half (w : Z) : 0 < w -> 2 ^ w = 2 * 2 ^ (w - 1).
Proof.
  intros H. replace w with (1 + (w - 1)) at 1 by lia.
  rewrite Z.pow_add_r by lia. done.
Qed.

Lemma to_size_small (z : Z) : 0 <= z < 2 ^ size_bits cfg -> to_size cfg z = z.
Proof. intros H. unfold to_size. by apply Z.mod_small. Qed.

Lemma to_ssize_small (z : Z) :
  0 <= z < 2 ^ (size_bits cfg - 1) -> to_ssize cfg z = z.
Proof.
  intros H. unfold to_ssize. pose proof (pow2_half _ size_bits_pos).
  rewrite Z.mod_small; lia.
Qed.

Lemma to_off_small (z : Z) :
  0 <= z < 2 ^ (off_bits cfg - 1) -> to_off cfg z = z.
Proof.
  intros H. unfold to_off. pose proof (pow2_half _ off_bits_pos).
  rewrite Z.mod_small; lia.
Qed.

(** The transfer size when nothing wraps: the request, cut at the end of
    the frame memory. *)
Lemma transfer_size_clamped :
  pos < L ->
  let start := to_size cfg pos in
  let end_ := to_size cfg (start + len) in
  to_size cfg ((if L <=? end_ then L else end_) - start)
  = Z.min len (L - pos).
Proof.
  intros Hp start end_. subst start end_.
  rewrite (to_size_small pos) by lia.
  rewrite (to_size_small (pos + len)) by lia.
  destruct (Z.leb_spec L (pos + len)); rewrite to_size_small; lia.
Qed.

(** A read when [start + len] fits [size_t]: end of file at or past the
    length, else the request cut at the length, with the position moved
    by the count returned. *)
Lemma fb_read_in_bounds :
  (L <= pos ->
   fb_read cfg hw fb h filep len = Done (0, filep, [])) /\
  (pos < L ->
   let n := Z.min len (L - pos) in
   fb_read cfg hw fb h filep len
   = Done (n, {| f_priv := f_priv filep; f_pos := pos + n |},
           take (Z.to_nat n) (drop (Z.to_nat pos) (fbmem panelinfo)))).
Proof.
  assert (fb_read cfg hw fb h filep len
          = let start := to_size cfg pos in
            if L <=? start then Done (0, filep, [])
            else
              let end_ := to_size cfg (start + len) in
              let size := to_size cfg ((if L <=? end_ then L else end_)
                                       - start) in
              data ← fbmem_load (fbmem panelinfo) start size;
              Done (to_ssize cfg size,
                    {| f_priv := f_priv filep;
                       f_pos := to_off cfg (pos + size) |}, data)) as Body.
  { unfold fb_read.
    rewrite (priv_of_live cfg h filep a priv), bind_Done by done.
    rewrite panel, bind_Done. by replace (ret <? 0) with false by lia. }
  split.
  - intros Hp. rewrite Body. cbv zeta.
    rewrite (to_size_small pos) by lia.
    by replace (L <=? pos) with true by lia.
  - intros Hp n. rewrite Body. cbv zeta.
    rewrite transfer_size_clamped by done. fold n.
    rewrite (to_size_small pos) by lia.
    replace (L <=? pos) with false by lia.
    unfold fbmem_load. replace (pos + n <=? _) with true by lia.
    rewrite bind_Done, to_ssize_small, to_off_small by lia. done.
Qed.

(** A write when [start + len] fits [size_t]: refused at or past the
    length, else truncated at the length and counted as a success. *)
Lemma fb_write_in_bounds (buffer : nat -> byte) :
  (L <= pos ->
   fb_write cfg hw fb h filep buffer len = Done (BufferFull, filep, None)) /\
  (pos < L ->
   let n := Z.min len (L - pos) in
   fb_write cfg hw fb h filep buffer len
   = Done (n, {| f_priv := f_priv filep; f_pos := pos + n |},
           Some (take (Z.to_nat pos) (fbmem panelinfo)
                 ++ map buffer (seq 0 (Z.to_nat n))
                 ++ drop (Z.to_nat (pos + n)) (fbmem panelinfo)))).
Proof.
  assert (fb_write cfg hw fb h filep buffer len
          = let start := to_size cfg pos in
            if L <=? start then Done (- EFBIG, filep, None)
            else
              let end_ := to_size cfg (start + len) in
              let size := to_size cfg ((if L <=? end_ then L else end_)
                                       - start) in
              mem ← fbmem_store (fbmem panelinfo) start size buffer;
              Done (to_ssize cfg size,
                    {| f_priv := f_priv filep;
                       f_pos := to_off cfg (pos + size) |}, Some mem))
    as Body.
  { unfold fb_write.
    rewrite (priv_of_live cfg h filep a priv), bind_Done by done.
    rewrite panel, bind_Done. by replace (ret <? 0) with false by lia. }
  split.
  - intros Hp. rewrite Body. cbv zeta.
    rewrite (to_size_small pos) by lia.
    by replace (L <=? pos) with true by lia.
  - intros Hp n. rewrite Body. cbv zeta.
    rewrite transfer_size_clamped by done. fold n.
    rewrite (to_size_small pos) by lia.
    replace (L <=? pos) with false by lia.
    unfold fbmem_store. replace (pos + n <=? _) with true by lia.
    rewrite bind_Done, to_ssize_small, to_off_small by lia. done.
Qed.

End ReadWrite.

(** * Further properties of the driver *)

(** ** Order and independence of the queues *)

Lemma slot_at_set_slot_ne (fb : fb_chardev_s) (id j : Z) (q : fb_paninfo_s) :
  0 <= id -> j <> id -> slot_at (set_slot fb id q) j = slot_at fb j.
Proof.
  intros Hid Hne. unfold slot_at. rewrite paninfo_count_set_slot.
  destruct ((0 <=? j) && (j <? paninfo_count fb)) eqn:E; [|done].
  apply andb_prop in E as [E1 E2]. simpl.
  rewrite list_lookup_insert_ne by lia. done.
Qed.

Section QueueOrder.

Context (cfg : config).

Let P : nat := sizeof_paninfo cfg.

Hypothesis P_pos : (0 < P)%nat.

Lemma fb_get_panbuf_Done (fb : fb_chardev_s) (ov : Z) (r : option Z) :
  fb_get_panbuf cfg fb ov = Done r -> r = Some (ov + 1).
Proof.
  unfold fb_get_panbuf. destruct (DEBUGASSERT cfg _) as [[]|]; [|done].
  by intros [= <-].
Qed.

(** Draining a queue that holds the records [rs]. *)
Lemma drain_records (ov : Z) (rs : list (list byte)) :
  forall (fb : fb_chardev_s) (p : fb_paninfo_s),
    slot_at fb (ov + 1) = Done p ->
    Forall (fun r => length r = P) rs ->
    cb_data (buf p) = concat rs ->
    exists fb',
      drain cfg (Some fb) ov (length rs) = Done (Some fb', rs) /\
      slot_at fb' (ov + 1)
        = Done (set_buf p {| cb_size := cb_size (buf p); cb_data := [] |}).
Proof.
  induction rs as [|r rs IH]; intros fb p Hs Hl Hd.
  { exists fb. split; [done|]. simpl in Hd.
    by rewrite <- Hd, cb_eta, set_buf_same. }
  apply Forall_cons in Hl as [Hr Hl]. simpl in Hd.
  assert (P <= circbuf_used (buf p))%nat as Hu.
  { unfold circbuf_used. rewrite Hd, length_app. lia. }
  set (p' := set_buf p {| cb_size := cb_size (buf p);
                          cb_data := drop P (cb_data (buf p)) |}).
  assert (cb_data (buf p') = concat rs) as Hd'.
  { simpl. rewrite Hd, drop_app_length'; done. }
  assert (exists fbx woken,
            fb_remove_paninfo cfg (Some fb) ov = Done (Some fbx, OK, woken) /\
            slot_at fbx (ov + 1) = Done p') as (fbx & woken & Er & Hsx).
  { rewrite (fb_remove_paninfo_pending cfg P_pos fb p ov Hs Hu).
    fold P. fold p'.
    assert (slot_at (set_slot fb (ov + 1) p') (ov + 1) = Done p')
      by by eapply slot_at_set_slot.
    destruct (0 <? vsyncoffset fb); eexists _, _; (split; [reflexivity|]);
      unfold wd_start; by rewrite ?slot_at_set_wdog. }
  destruct (IH fbx p' Hsx Hl Hd') as (fb' & Ed & Hs').
  exists fb'. split; [|done]. cbn [length drain].
  rewrite (fb_peek_paninfo_pending cfg P_pos fb p ov Hs Hu), bind_Done.
  cbv beta iota. replace (OK <? 0) with false by done.
  rewrite Er, bind_Done. cbv beta iota.
  replace (OK <? 0) with false by done.
  rewrite Ed, bind_Done. do 3 f_equal.
  fold P. rewrite Hd, take_app_length'; done.
Qed.

(** The queue is first in, first out: records enqueued on an empty
    queue that has room for them come out of peek and dequeue in the
    order they went in, and the queue is empty again afterwards. *)
Theorem queue_is_fifo (fb : fb_chardev_s) (p : fb_paninfo_s)
    (rs : list (list byte)) (ov : Z) :
  slot_at fb (ov + 1) = Done p ->
  cb_data (buf p) = [] ->
  Forall (fun r => length r = P) rs ->
  (length rs * P <= cb_size (buf p))%nat ->
  exists fb1 fb2,
    enqueue_all cfg (Some fb) rs ov
      = Done (Some fb1, replicate (length rs) OK) /\
    drain cfg (Some fb1) ov (length rs) = Done (Some fb2, rs) /\
    slot_at fb2 (ov + 1) = Done p.
Proof.
  intros Hs He Hl Hroom.
  destruct (enqueue_all_room cfg P_pos ov rs fb p Hs Hl) as (fb1 & Ea & Hs1).
  { unfold circbuf_used. rewrite He. simpl. fold P. lia. }
  rewrite He in Hs1. simpl app in Hs1.
  destruct (drain_records ov rs fb1 _ Hs1 Hl eq_refl) as (fb2 & Ed & Hs2).
  exists fb1, fb2. split_and!; [done..|].
  rewrite Hs2. simpl. f_equal. destruct p as [[sz d] w]. simpl in *.
  by rewrite He.
Qed.

End QueueOrder.

Lemma queue_is_fifo_witness :
  exists fb1 fb2,
    enqueue_all cfg_debug (Some fb_double) [rec_a; rec_b] 0
      = Done (Some fb1, replicate 2 OK) /\
    drain cfg_debug (Some fb1) 0 2 = Done (Some fb2, [rec_a; rec_b]) /\
    slot_at fb2 (0 + 1) = Done (empty_slot 8).
Proof.
  apply (queue_is_fifo cfg_debug ltac:(simpl; lia) fb_double (empty_slot 8)
           [rec_a; rec_b] 0); try reflexivity.
  all: try (by repeat constructor); simpl; lia.
Defined.

(** ** What the queue calls leave alone *)

Section QueueFrame.

Context (cfg : config).

Lemma queues_kept_refl (fb : fb_chardev_s) (id : option Z) :
  queues_kept fb fb id.
Proof. split_and!; try done. intros j p Hp. by exists p. Qed.

Lemma queues_kept_set_wdog (fb fb' : fb_chardev_s) (id : option Z)
    (w : option (Z * Z)) :
  queues_kept fb fb' id -> queues_kept fb (set_wdog fb' w) id.
Proof. intros H. exact H. Qed.

Lemma queues_kept_set_buf (fb : fb_chardev_s) (id : Z) (p : fb_paninfo_s)
    (d : list byte) :
  slot_at fb id = Done p ->
  queues_kept fb
    (set_slot fb id (set_buf p {| cb_size := cb_size (buf p);
                                  cb_data := d |}))
    (Some id).
Proof.
  intros Hs. pose proof (slot_at_Done _ _ _ Hs) as [Hr _].
  split_and!; try done.
  - apply paninfo_count_set_slot.
  - intros j Hj. apply slot_at_set_slot_ne; [lia|congruence].
  - intros j q Hq. destruct (decide (j = id)) as [->|Hne].
    + eexists. split; [by eapply slot_at_set_slot|].
      rewrite Hs in Hq. by injection Hq as <-.
    + exists q. by rewrite slot_at_set_slot_ne by lia.
Qed.

(** A call on the queues changes nothing but the pending bytes of the
    surface it is called on and the one watchdog of the device: the
    plane, the number of slots, the reference counter, the vsync offset,
    every waiter array and capacity and the queue of every other surface
    are as before.  The watchdog is shared by all surfaces: enqueue,
    peek and count leave it alone, a dequeue leaves it alone or arms it
    for its own surface in place of whatever it held (on a device with a
    positive vsync offset), and the expiry leaves it idle and changes no
    queue at all. *)
Theorem queue_calls_keep_other_surfaces (fb fb' : fb_chardev_s) (o : qop)
    (ret : Z) :
  run_qop cfg fb o = Done (fb', ret) ->
  queues_kept fb fb' (fmap (fun ov => ov + 1) (qop_surface o)) /\
  wdog_after fb fb' o.
Proof.
  destruct o as [r ov|ov|ov|ov|]; unfold run_qop; intros E.
  - apply bind_Done_inv in E as ([priv ret'] & E & [= <- <-]).
    unfold fb_add_paninfo in E.
    apply bind_Done_inv in E as (pb & Eb & E).
    apply fb_get_panbuf_Done in Eb as ->.
    apply bind_Done_inv in E as (p & Hs & E).
    unfold circbuf_write in E.
    apply bind_Done_inv in E as ([] & _ & [= <- _]). simpl.
    split; [by apply queues_kept_set_buf|done].
  - apply bind_Done_inv in E as ([ret' info] & _ & [= <- <-]).
    split; [apply queues_kept_refl|done].
  - apply bind_Done_inv in E as ([[priv ret'] woken] & E & [= <- <-]).
    unfold fb_remove_paninfo in E.
    apply bind_Done_inv in E as (pb & Eb & E).
    apply fb_get_panbuf_Done in Eb as ->.
    apply bind_Done_inv in E as (p & Hs & E).
    unfold circbuf_skip in E.
    apply bind_Done_inv in E as ([] & _ & E).
    apply bind_Done_inv in E as ([priv' woken'] & E & [= <- _ _]).
    pose proof (queues_kept_set_buf fb (ov + 1) p
                  (drop (sizeof_paninfo cfg
                           `min` circbuf_used (buf p)) (cb_data (buf p))) Hs)
      as K.
    destruct (_ =? _) in E.
    + unfold fb_pollnotify in E.
      apply bind_Done_inv in E as ([] & _ & E).
      destruct (Z.ltb_spec 0 (vsyncoffset
                  (set_slot fb (ov + 1)
                     (set_buf p
                        {| cb_size := cb_size (buf p);
                           cb_data := drop (sizeof_paninfo cfg
                                              `min` circbuf_used (buf p))
                                        (cb_data (buf p)) |}))))
        as [Hv|Hv] in E.
      * injection E as <- _. simpl.
        split; [by apply queues_kept_set_wdog|]. right. by split.
      * apply bind_Done_inv in E as (q & _ & [= <- _]).
        split; [done|by left].
    + injection E as <- _. split; [done|by left].
  - apply bind_Done_inv in E as (ret' & _ & [= <- <-]).
    split; [apply queues_kept_refl|done].
  - apply bind_Done_inv in E as ([fbx woken] & E & [= <- <-]).
    unfold wdog_expire in E. destruct (wdog fb) as [[d arg]|] eqn:Ew.
    + apply bind_Done_inv in E as (q & _ & [= <- _]).
      split; [apply queues_kept_set_wdog, queues_kept_refl|done].
    + injection E as <- _. split; [apply queues_kept_refl|done].
Qed.

End QueueFrame.

Lemma queue_calls_keep_other_surfaces_witness :
  queues_kept fb_armed fb_rearmed (Some (0 + 1)) /\
  wdog_after fb_armed fb_rearmed (QRemove 0).
Proof.
  apply (queue_calls_keep_other_surfaces cfg_debug fb_armed fb_rearmed
           (QRemove 0) OK).
  reflexivity.
Defined.

(** On the sample device the dequeue on overlay 0 takes the watchdog
    over from the primary surface. *)
Example dequeue_rearms_shared_watchdog :
  run_qop cfg_debug fb_armed (QRemove 0) = Done (fb_rearmed, OK) /\
  wdog fb_armed = Some (5, 0) /\ wdog fb_rearmed = Some (5, 1).
Proof. split_and!; reflexivity. Qed.

(** ** The queues stay well formed *)

Section QueueSafety.

Context (cfg : config).

Let P : nat := sizeof_paninfo cfg.

Hypothesis P_pos : (0 < P)%nat.

Lemma queues_wf_slot (fb : fb_chardev_s) (id : Z) (p : fb_paninfo_s) :
  queues_wf cfg fb -> slot_at fb id = Done p -> slot_wf cfg p.
Proof.
  intros [Hall _] Hs. apply slot_at_Done in Hs as [_ Hlk].
  rewrite Forall_lookup in Hall. by eapply Hall.
Qed.

Lemma queues_wf_set_slot (fb : fb_chardev_s) (id : Z) (q : fb_paninfo_s) :
  queues_wf cfg fb -> slot_wf cfg q -> queues_wf cfg (set_slot fb id q).
Proof.
  intros [Hall Hw] Hq. split.
  - simpl. by apply Forall_insert.
  - simpl. by rewrite paninfo_count_set_slot.
Qed.

Lemma queues_wf_arm (fb : fb_chardev_s) (delay id : Z) :
  queues_wf cfg fb -> 0 <= id < paninfo_count fb ->
  queues_wf cfg (wd_start fb delay id).
Proof. intros [Hall _] Hr. by split. Qed.

Lemma slot_wf_data (p : fb_paninfo_s) (d : list byte) (k : nat) :
  slot_wf cfg p ->
  length d = (k * P)%nat ->
  (k * P <= cb_size (buf p))%nat ->
  slot_wf cfg (set_buf p {| cb_size := cb_size (buf p); cb_data := d |}).
Proof.
  intros (n & k0 & Hn & _ & _) Hd Hk. exists n, k. simpl. fold P.
  split_and!; [done..|]. rewrite Hn in Hk. fold P in Hk. nia.
Qed.

(** One call of a well-behaved user on well-formed queues. *)
Lemma run_qop_safe (fb : fb_chardev_s) (o : qop) :
  queues_wf cfg fb ->
  qop_ok cfg fb o ->
  (exists fb' ret,
     run_qop cfg fb o = Done (fb', ret) /\ queues_wf cfg fb' /\
     paninfo_count fb' = paninfo_count fb) \/
  (debug_assertions cfg = true /\ run_qop cfg fb o = Trap AssertFailed).
Proof.
  intros Hwf Hok. destruct o as [r ov|ov|ov|ov|]; unfold run_qop.
  - destruct Hok as [Hr Hov].
    destruct (slot_at_in_range fb (ov + 1)) as (p & Hs & _); [lia|].
    destruct (queues_wf_slot fb _ p Hwf Hs) as (n & k & Hn & Hk & Hle).
    fold P in Hn, Hk.
    destruct (decide (k < n)%nat) as [Hlt|Hge].
    + left. rewrite (fb_add_paninfo_room cfg P_pos fb p r ov Hs Hr), bind_Done
        by (unfold circbuf_used; nia).
      eexists _, _. split; [reflexivity|]. simpl. split.
      * apply queues_wf_set_slot; [done|].
        apply (slot_wf_data p _ (S k)); [by exists n, k| |nia].
        rewrite length_app. lia.
      * apply paninfo_count_set_slot.
    + rewrite (fb_add_paninfo_full cfg P_pos fb p r ov Hs)
        by (unfold circbuf_used; nia).
      destruct (debug_assertions cfg); [by right|]. left.
      rewrite bind_Done. by eexists _, _.
  - destruct (slot_at_in_range fb (ov + 1)) as (p & Hs & _);
      [simpl in Hok; lia|].
    destruct (queues_wf_slot fb _ p Hwf Hs) as (n & k & Hn & Hk & Hle).
    fold P in Hn, Hk. left. destruct k as [|k].
    + rewrite (fb_peek_paninfo_empty cfg fb p ov Hs), bind_Done
        by by apply nil_length_inv.
      by eexists _, _.
    + rewrite (fb_peek_paninfo_pending cfg P_pos fb p ov Hs), bind_Done
        by (unfold circbuf_used; nia).
      by eexists _, _.
  - destruct (slot_at_in_range fb (ov + 1)) as (p & Hs & _);
      [simpl in Hok; lia|].
    destruct (queues_wf_slot fb _ p Hwf Hs) as (n & k & Hn & Hk & Hle).
    fold P in Hn, Hk. left. destruct k as [|k].
    + rewrite (fb_remove_paninfo_empty cfg P_pos fb p ov Hs), bind_Done
        by by apply nil_length_inv.
      by eexists _, _.
    + rewrite (fb_remove_paninfo_pending cfg P_pos fb p ov Hs)
        by (unfold circbuf_used; nia).
      fold P.
      assert (queues_wf cfg
                (set_slot fb (ov + 1)
                   (set_buf p {| cb_size := cb_size (buf p);
                                 cb_data := drop P (cb_data (buf p)) |})))
        as Hwf'.
      { apply queues_wf_set_slot; [done|].
        apply (slot_wf_data p _ k); [by exists n, (S k)| |nia].
        rewrite length_drop. lia. }
      simpl in Hok.
      destruct (0 <? vsyncoffset fb); rewrite bind_Done;
        eexists _, _; (split; [reflexivity|]); simpl.
      * split; [|apply paninfo_count_set_slot].
        apply queues_wf_arm; [done|]. rewrite paninfo_count_set_slot. lia.
      * split; [done|apply paninfo_count_set_slot].
  - destruct (slot_at_in_range fb (ov + 1)) as (p & Hs & _);
      [simpl in Hok; lia|].
    left. rewrite (fb_paninfo_count_in_range cfg fb p ov Hs), bind_Done.
    by eexists _, _.
  - left. destruct (wdog fb) as [[d arg]|] eqn:Hw.
    + destruct Hwf as [Hall Harg]. rewrite Hw in Harg.
      destruct (slot_at_in_range fb arg Harg) as (p & Hs & _).
      rewrite (wdog_expire_armed cfg fb d arg p Hw Hs), bind_Done.
      eexists _, _. split; [reflexivity|]. by split.
    + rewrite (wdog_expire_idle cfg fb Hw), bind_Done. by eexists _, _.
Qed.

(** Any run of calls on the queues by a well-behaved user (surfaces of
    the device, records of the payload size) keeps the queues well
    formed and never reaches outside the slot array.  It runs to the
    end, unless the build has assertions and an enqueue meets a full
    ring buffer: that assertion is the only way out. *)
Theorem queue_calls_are_safe (os : list qop) (fb : fb_chardev_s) :
  queues_wf cfg fb ->
  Forall (qop_ok cfg fb) os ->
  (exists fb' rets,
     run_qops cfg fb os = Done (fb', rets) /\ queues_wf cfg fb' /\
     paninfo_count fb' = paninfo_count fb /\ length rets = length os) \/
  (debug_assertions cfg = true /\ run_qops cfg fb os = Trap AssertFailed).
Proof.
  revert fb. induction os as [|o os IH]; intros fb Hwf Hok.
  { left. by exists fb, []. }
  apply Forall_cons in Hok as [Ho Hok]. cbn [run_qops].
  destruct (run_qop_safe fb o Hwf Ho) as [(fb1 & ret & E & Hwf1 & Hc)|[Hd E]].
  2: { right. by rewrite E. }
  rewrite E, bind_Done.
  destruct (IH fb1 Hwf1) as [(fb2 & rets & E2 & Hwf2 & Hc2 & Hl)|[Hd E2]].
  - eapply Forall_impl; [exact Hok|]. intros o'. unfold qop_ok.
    by rewrite Hc.
  - left. rewrite E2, bind_Done. exists fb2, (ret :: rets).
    split_and!; [done|done|congruence|simpl; by rewrite Hl].
  - right. by rewrite E2.
Qed.

End QueueSafety.

(** A device comes out of registration with well-formed queues. *)
Lemma registered_queues_wf (cfg : config) (hw : fb_hw) (r : reg_env)
    (pl ret : Z) (fb : fb_chardev_s) :
  fb_register_device cfg hw r pl = Done (ret, Some fb) ->
  queues_wf cfg fb.
Proof.
  intros E. apply fb_register_device_ok in E as (_ & _ & _ & Hw & _ & Hall).
  split; [|by rewrite Hw].
  apply Forall2_Forall_r with (Q := slot_wf cfg) in Hall; [done|].
  apply Forall_forall. intros i _ slot Hreg.
  apply slot_registered_buf in Hreg
    as (ret0 & pinfo & _ & _ & _ & Hdata & Hsize & _).
  exists (if alloc_circbuf_ok r i then Z.to_nat (fbcount pinfo) else 0%nat),
    0%nat.
  rewrite Hdata, Hsize. destruct (alloc_circbuf_ok r i); simpl; split_and!; lia.
Qed.

Lemma queue_calls_are_safe_witness :
  (exists fb' rets,
     run_qops cfg_release fb_double
       [QAdd rec_a 0; QAdd rec_b 0; QAdd rec_a 0; QPeek 0; QRemove 0;
        QCount 0; QExpire] = Done (fb', rets) /\
     queues_wf cfg_release fb' /\
     paninfo_count fb' = paninfo_count fb_double /\
     length rets = 7%nat) \/
  (debug_assertions cfg_release = true /\
   run_qops cfg_release fb_double
     [QAdd rec_a 0; QAdd rec_b 0; QAdd rec_a 0; QPeek 0; QRemove 0;
      QCount 0; QExpire] = Trap AssertFailed).
Proof.
  apply (queue_calls_are_safe cfg_release ltac:(simpl; lia)).
  - apply (registered_queues_wf cfg_release hw_double reg_fine 0 OK).
    reflexivity.
  - repeat (apply Forall_cons_2;
            [unfold qop_ok, paninfo_count; simpl;
             first [done | lia | (split; [done|lia])] |]).
    apply Forall_nil_2.
Defined.

(** ** The pending count *)

Section PendingCount.

Context (cfg : config).

Let P : nat := sizeof_paninfo cfg.

Hypothesis P_pos : (0 < P)%nat.

(** On a well-formed slot the pending count is the number of records
    held, between 0 and the capacity in records; an enqueue that returns
    success raises it by exactly one, a dequeue that returns success
    lowers it by exactly one, and an enqueue that returns [QueueFull]
    leaves the device as it was. *)
Theorem pending_count_steps (fb : fb_chardev_s) (p : fb_paninfo_s) (ov : Z) :
  slot_at fb (ov + 1) = Done p ->
  slot_wf cfg p ->
  exists c : Z,
    fb_paninfo_count cfg (Some fb) ov = Done c /\
    0 <= c /\ c * Z.of_nat P <= Z.of_nat (cb_size (buf p)) /\
    (forall r fb',
       length r = P ->
       fb_add_paninfo cfg (Some fb) r ov = Done (Some fb', OK) ->
       fb_paninfo_count cfg (Some fb') ov = Done (c + 1)) /\
    (forall fb' woken,
       fb_remove_paninfo cfg (Some fb) ov = Done (Some fb', OK, woken) ->
       fb_paninfo_count cfg (Some fb') ov = Done (c - 1)) /\
    (forall r priv',
       fb_add_paninfo cfg (Some fb) r ov = Done (priv', QueueFull) ->
       priv' = Some fb).
Proof.
  intros Hs (n & k & Hn & Hk & Hle). fold P in Hn, Hk.
  assert (forall (fbx : fb_chardev_s) (q : fb_paninfo_s) (j : nat),
            slot_at fbx (ov + 1) = Done q ->
            length (cb_data (buf q)) = (j * P)%nat ->
            fb_paninfo_count cfg (Some fbx) ov = Done (Z.of_nat j)) as Count.
  { intros fbx q j Hq Hj.
    rewrite (fb_paninfo_count_in_range cfg fbx q ov Hq).
    unfold circbuf_used. rewrite Hj. fold P.
    by rewrite Nat2Z.inj_mul, Z.div_mul by lia. }
  exists (Z.of_nat k). split_and!.
  - by apply (Count fb p k).
  - lia.
  - rewrite Hn. nia.
  - intros r fb' Hr E. destruct (decide (k < n)%nat) as [Hlt|Hge].
    + rewrite (fb_add_paninfo_room cfg P_pos fb p r ov Hs Hr) in E
        by (unfold circbuf_used; nia).
      injection E as <-.
      replace (Z.of_nat k + 1) with (Z.of_nat (S k)) by lia.
      eapply Count; [by eapply slot_at_set_slot|].
      simpl. rewrite length_app. lia.
    + rewrite (fb_add_paninfo_full cfg P_pos fb p r ov Hs) in E
        by (unfold circbuf_used; nia).
      by destruct (debug_assertions cfg).
  - intros fb' woken E. destruct k as [|k].
    + rewrite (fb_remove_paninfo_empty cfg P_pos fb p ov Hs) in E
        by by apply nil_length_inv.
      done.
    + rewrite (fb_remove_paninfo_pending cfg P_pos fb p ov Hs) in E
        by (unfold circbuf_used; nia).
      fold P in E.
      replace (Z.of_nat (S k) - 1) with (Z.of_nat k) by lia.
      destruct (0 <? vsyncoffset fb); injection E as <- _;
        (eapply Count;
         [unfold wd_start; rewrite ?slot_at_set_wdog;
          by eapply slot_at_set_slot|]);
        simpl; rewrite length_drop; lia.
  - intros r priv' E. destruct (decide (k < n)%nat) as [Hlt|Hge].
    + unfold fb_add_paninfo in E.
      rewrite (fb_get_panbuf_in_range cfg fb ov), bind_Done, Hs, bind_Done
        in E by (by apply slot_at_Done in Hs as [? _]).
      unfold circbuf_write, circbuf_space, circbuf_used in E. fold P in E.
      rewrite Nat.min_l in E by (rewrite Hn, Hk; nia).
      apply bind_Done_inv in E as ([] & _ & E).
      replace (Z.of_nat P <=? 0) with false in E by lia. done.
    + rewrite (fb_add_paninfo_full cfg P_pos fb p r ov Hs) in E
        by (unfold circbuf_used; nia).
      destruct (debug_assertions cfg); [done|]. by injection E as <-.
Qed.

End PendingCount.

Lemma pending_count_steps_witness :
  exists c : Z,
    fb_paninfo_count cfg_debug (Some (fb_holding rec_a)) (-1) = Done c /\
    0 <= c /\ c * Z.of_nat 4 <= Z.of_nat 8 /\
    (forall r fb',
       length r = 4%nat ->
       fb_add_paninfo cfg_debug (Some (fb_holding rec_a)) r (-1)
         = Done (Some fb', OK) ->
       fb_paninfo_count cfg_debug (Some fb') (-1) = Done (c + 1)) /\
    (forall fb' woken,
       fb_remove_paninfo cfg_debug (Some (fb_holding rec_a)) (-1)
         = Done (Some fb', OK, woken) ->
       fb_paninfo_count cfg_debug (Some fb') (-1) = Done (c - 1)) /\
    (forall r priv',
       fb_add_paninfo cfg_debug (Some (fb_holding rec_a)) r (-1)
         = Done (priv', QueueFull) ->
       priv' = Some (fb_holding rec_a)).
Proof.
  apply (pending_count_steps cfg_debug ltac:(simpl; lia) (fb_holding rec_a)
           {| buf := {| cb_size := 8; cb_data := rec_a |};
              fds := [None; None] |} (-1)).
  - reflexivity.
  - exists 2%nat, 1%nat. simpl. lia.
Defined.

(** ** Poll: registering, cancelling, being woken *)

Section PollUse.

Context (cfg : config) (fb : fb_chardev_s) (h : kheap) (filep : file).
Context (a : nat) (priv : fb_priv_s) (p : fb_paninfo_s) (pfd : pollfd).
Context (i : nat).

Let id : Z := overlay priv + 1.
Let p1 : fb_paninfo_s :=
  set_fds p (<[i := Some (pfd_addr pfd)]> (fds p)).
Let fb1 : fb_chardev_s := set_slot fb id p1.
Let pfd1 : pollfd :=
  {| pfd_addr := pfd_addr pfd; pfd_priv := Some (id, i) |}.

Hypothesis file_open : f_priv filep = Some a.
Hypothesis priv_live : h !! a = Some priv.
Hypothesis surface : slot_at fb id = Done p.
Hypothesis array_size : length (fds p) = NPOLLWAITERS cfg.
Hypothesis entry_free : fds p !! i = Some None.
Hypothesis entry_first :
  forall j, (j < i)%nat -> exists w, fds p !! j = Some (Some w).

Lemma poll_setup_registers :
  fb_poll cfg fb h filep pfd true
  = Done (OK, fb1, pfd1,
          if circbuf_is_full (buf p) then [] else [pfd_addr pfd]).
Proof.
  pose proof (slot_at_Done _ _ _ surface) as [Hrange _].
  unfold fb_poll.
  rewrite file_open, (DEBUGASSERT_ok _ (bool_decide _))
    by (by apply bool_decide_eq_true_2).
  rewrite bind_Done, (priv_of_live cfg h filep a priv), bind_Done by done.
  unfold fb_get_free_pollfds. fold id.
  rewrite DEBUGASSERT_ok, bind_Done by by apply in_range_true.
  rewrite surface, !bind_Done, <- array_size, firstn_all.
  rewrite (first_free_found _ i 0) by done. simpl Nat.add.
  rewrite surface, bind_Done. cbv zeta. fold p1. fold fb1.
  rewrite fb_get_panbuf_in_range, bind_Done
    by (subst fb1; by rewrite paninfo_count_set_slot).
  fold id. subst fb1. by erewrite slot_at_set_slot by done.
Qed.

Lemma poll_teardown_restores :
  fb_poll cfg fb1 h filep pfd1 false
  = Done (OK, fb, {| pfd_addr := pfd_addr pfd; pfd_priv := None |}, []).
Proof.
  pose proof (slot_at_Done _ _ _ surface) as [Hrange Hlk].
  unfold fb_poll.
  rewrite file_open, (DEBUGASSERT_ok _ (bool_decide _))
    by (by apply bool_decide_eq_true_2).
  rewrite bind_Done. cbn [pfd1 pfd_priv].
  assert (slot_at fb1 id = Done p1) as -> by by eapply slot_at_set_slot.
  rewrite bind_Done.
  rewrite decide_True
    by (simpl; rewrite length_insert; by eapply lookup_lt_Some).
  do 3 f_equal. subst fb1 p1. unfold set_slot, set_fds, set_paninfo. simpl.
  rewrite !list_insert_insert_eq, (list_insert_id (fds p)) by done.
  replace {| buf := buf p; fds := fds p |} with p by by destruct p.
  rewrite list_insert_id by done. by destruct fb.
Qed.

(** Poll teardown undoes poll setup: after a setup that took an entry,
    the teardown with the caller's [pollfd] puts the device back exactly
    as it was and clears the [pollfd]. *)
Theorem poll_setup_teardown_round_trip :
  exists fb' pfd' signalled,
    fb_poll cfg fb h filep pfd true = Done (OK, fb', pfd', signalled) /\
    fb_poll cfg fb' h filep pfd' false
    = Done (OK, fb, {| pfd_addr := pfd_addr pfd; pfd_priv := None |}, []).
Proof.
  eexists _, _, _. split; [apply poll_setup_registers|].
  apply poll_teardown_restores.
Qed.

Lemma waiters_after_setup (w : pollfd_ptr) :
  w ∈ fb_do_pollnotify cfg p1 <->
  w = pfd_addr pfd \/ w ∈ fb_do_pollnotify cfg p.
Proof.
  rewrite !fb_do_pollnotify_registered. simpl.
  rewrite <- array_size at 1.
  replace (length (fds p))
    with (length (<[i:=Some (pfd_addr pfd)]> (fds p)))
    by by rewrite length_insert.
  rewrite <- array_size, !firstn_all.
  pose proof (lookup_lt_Some _ _ _ entry_free) as Hlt.
  rewrite !list_elem_of_lookup. split.
  - intros [j Hj]. destruct (decide (j = i)) as [->|Hne].
    + rewrite list_lookup_insert_eq in Hj by done. left. congruence.
    + rewrite list_lookup_insert_ne in Hj by done. right. by exists j.
  - intros [->|[j Hj]].
    + exists i. by rewrite list_lookup_insert_eq.
    + exists j. rewrite list_lookup_insert_ne; [done|].
      intros ->. congruence.
Qed.

(** A waiter that registered is woken by the next dequeue on its
    surface when the device has no vsync offset: the dequeue signals the
    caller and the waiters that were registered before, nobody else. *)
Theorem registered_waiter_is_woken :
  (0 < sizeof_paninfo cfg)%nat ->
  (sizeof_paninfo cfg <= circbuf_used (buf p))%nat ->
  vsyncoffset fb <= 0 ->
  exists fb' pfd' signalled fb'' woken,
    fb_poll cfg fb h filep pfd true = Done (OK, fb', pfd', signalled) /\
    fb_remove_paninfo cfg (Some fb') (overlay priv)
      = Done (Some fb'', OK, woken) /\
    forall w, w ∈ woken <->
              w = pfd_addr pfd \/ w ∈ fb_do_pollnotify cfg p.
Proof.
  intros HP Hu Hv.
  destruct (fb_remove_paninfo_wakes_now cfg fb1 p1 (overlay priv) HP)
    as (fb2 & E & _); [subst fb1; by eapply slot_at_set_slot|done|done|].
  eexists _, _, _, fb2, _. split; [apply poll_setup_registers|].
  split; [exact E|]. apply waiters_after_setup.
Qed.

End PollUse.

Lemma poll_setup_teardown_round_trip_witness :
  exists fb' pfd' signalled,
    fb_poll cfg_debug (fb_with rec_a [Some 7%nat; None]) (heap_of 0)
      (file_at 0) {| pfd_addr := 9%nat; pfd_priv := None |} true
    = Done (OK, fb', pfd', signalled) /\
    fb_poll cfg_debug fb' (heap_of 0) (file_at 0) pfd' false
    = Done (OK, fb_with rec_a [Some 7%nat; None],
            {| pfd_addr := 9%nat; pfd_priv := None |}, []).
Proof.
  apply (poll_setup_teardown_round_trip cfg_debug
           (fb_with rec_a [Some 7%nat; None]) (heap_of 0) (file_at 0) 0
           {| overlay := FB_NO_OVERLAY |}
           {| buf := {| cb_size := 8; cb_data := rec_a |};
              fds := [Some 7%nat; None] |}
           {| pfd_addr := 9%nat; pfd_priv := None |} 1%nat);
    try reflexivity.
  intros [|j] Hj; [by exists 7%nat|lia].
Defined.

Lemma registered_waiter_is_woken_witness :
  exists fb' pfd' signalled fb'' woken,
    fb_poll cfg_debug (fb_with rec_a [Some 7%nat; None]) (heap_of 0)
      (file_at 0) {| pfd_addr := 9%nat; pfd_priv := None |} true
    = Done (OK, fb', pfd', signalled) /\
    fb_remove_paninfo cfg_debug (Some fb') FB_NO_OVERLAY
      = Done (Some fb'', OK, woken) /\
    forall w, w ∈ woken <->
              w = 9%nat \/
              w ∈ fb_do_pollnotify cfg_debug
                    {| buf := {| cb_size := 8; cb_data := rec_a |};
                       fds := [Some 7%nat; None] |}.
Proof.
  apply (registered_waiter_is_woken cfg_debug
           (fb_with rec_a [Some 7%nat; None]) (heap_of 0) (file_at 0) 0
           {| overlay := FB_NO_OVERLAY |}
           {| buf := {| cb_size := 8; cb_data := rec_a |};
              fds := [Some 7%nat; None] |}
           {| pfd_addr := 9%nat; pfd_priv := None |} 1%nat);
    try reflexivity; try (simpl; lia).
  intros [|j] Hj; [by exists 7%nat|lia].
Defined.

(** ** Open and close: round trip, failures, the last reference *)

Section OpenCloseUse.

Context (cfg : config) (vt : fb_vtable_s).

(** Close undoes open: when nothing fails, an open followed by the
    close of the file it produced leaves the reference counter and the
    heap exactly as they were. *)
Theorem open_close_round_trip (e1 e2 : env) (fb : fb_chardev_s)
    (h : kheap) (filep : file) :
  0 <= crefs fb < 32767 ->
  env_fine e1 ->
  env_fine e2 ->
  exists fb' h' filep' calls ret calls',
    fb_open cfg vt e1 fb h filep = Done (0, fb', h', filep', calls) /\
    h' !! fresh (dom h) = Some {| overlay := FB_NO_OVERLAY |} /\
    f_priv filep' = Some (fresh (dom h)) /\
    fb_close cfg vt e2 fb' h' filep' = Done (ret, fb, h, calls') /\
    0 <= ret.
Proof.
  intros Hc (L1 & A1 & R1) (L2 & _ & R2).
  rewrite (fb_open_body cfg vt e1 fb h filep) by done. cbv zeta.
  replace (lock_ret e1 <? 0) with false by lia. rewrite A1. simpl negb.
  cbv iota.
  replace (hook_ret e1 <? 0) with false by lia. rewrite andb_false_r.
  eexists _, _, _, _. eexists _, _. split; [reflexivity|].
  split; [apply lookup_insert_eq|]. split; [done|].
  rewrite (fb_close_locked cfg vt e2 _ _ _ (fresh (dom h)));
    [|done|done|rewrite lookup_insert_eq; by eexists|simpl; lia].
  cbv zeta. simpl crefs.
  set (ret := if (crefs fb + 1 =? 1) && vt_close vt
              then hook_ret e2 else lock_ret e2).
  assert (0 <= ret) as Hret by (subst ret; by destruct (_ && _)).
  replace (0 <=? ret) with true by lia.
  split; [|done].
  rewrite delete_insert_id by apply not_elem_of_dom, is_fresh.
  replace (set_crefs (set_crefs fb (crefs fb + 1)) (crefs fb + 1 - 1))
    with fb; [done|].
  destruct fb. unfold set_crefs. simpl. f_equal. lia.
Qed.

(** A failing open or close leaves no trace: whenever either returns a
    negative value, the device, the heap and the file are as before. *)
Theorem failed_open_close_change_nothing (e : env) (fb : fb_chardev_s)
    (h : kheap) (filep : file) (ret : Z) :
  ret < 0 ->
  (forall fb' h' filep' calls,
     fb_open cfg vt e fb h filep = Done (ret, fb', h', filep', calls) ->
     fb' = fb /\ h' = h /\ filep' = filep) /\
  (forall fb' h' calls,
     fb_close cfg vt e fb h filep = Done (ret, fb', h', calls) ->
     fb' = fb /\ h' = h).
Proof.
  intros Hret. split.
  - intros fb' h' filep' calls. unfold fb_open.
    destruct (lock_ret e <? 0); [by intros [= _ <- <- <- _]|].
    destruct (kmm_zalloc h (alloc_ok e)); [|by intros [= _ <- <- <- _]].
    destruct (_ && (hook_ret e <? 0)); [by intros [= _ <- <- <- _]|].
    intros E. apply bind_Done_inv in E as ([] & _ & [= E _]). lia.
  - intros fb' h' calls. unfold fb_close. intros E.
    apply bind_Done_inv in E as ([] & _ & E).
    destruct (lock_ret e <? 0); [by injection E as _ <- <- _|].
    destruct (Z.leb_spec 0 (if (crefs fb =? 1) && vt_close vt
                            then hook_ret e else lock_ret e)) as [Hr|Hr].
    + apply bind_Done_inv in E as ([] & _ & E).
      apply bind_Done_inv in E as (hx & _ & [= E _]). lia.
    + by injection E as _ <- <- _.
Qed.

(** The reference counter is an [int16_t]: the open that follows 32767
    references wraps it to -32768.  A build with assertions stops there;
    a build without them goes on with a negative counter. *)
Theorem open_wraps_reference_counter (e : env) (fb : fb_chardev_s)
    (h : kheap) (filep : file) :
  crefs fb = 32767 ->
  0 <= lock_ret e ->
  alloc_ok e = true ->
  fb_open cfg vt e fb h filep
  = if debug_assertions cfg then Trap AssertFailed
    else Done (0, set_crefs fb (-32768),
               <[fresh (dom h) := {| overlay := FB_NO_OVERLAY |}]> h,
               {| f_priv := Some (fresh (dom h)); f_pos := f_pos filep |},
               []).
Proof.
  intros Hc Hl Ha. unfold fb_open, kmm_zalloc.
  replace (lock_ret e <? 0) with false by lia. rewrite Ha, Hc. simpl.
  unfold DEBUGASSERT. simpl. by destruct (debug_assertions cfg).
Qed.

End OpenCloseUse.

Lemma open_close_round_trip_witness :
  exists fb' h' filep' calls ret calls',
    fb_open cfg_debug vt_all (env_hook 0) fb_primary_only ∅
      {| f_priv := None; f_pos := 0 |} = Done (0, fb', h', filep', calls) /\
    h' !! fresh (dom (∅ : kheap)) = Some {| overlay := FB_NO_OVERLAY |} /\
    f_priv filep' = Some (fresh (dom (∅ : kheap))) /\
    fb_close cfg_debug vt_all (env_hook 0) fb' h' filep'
      = Done (ret, fb_primary_only, ∅, calls') /\
    0 <= ret.
Proof.
  apply (open_close_round_trip cfg_debug vt_all (env_hook 0) (env_hook 0)
           fb_primary_only ∅ {| f_priv := None; f_pos := 0 |}).
  - simpl. lia.
  - unfold env_fine. simpl. lia.
  - unfold env_fine. simpl. lia.
Defined.

Lemma failed_open_close_change_nothing_witness :
  (forall fb' h' filep' calls,
     fb_open cfg_debug vt_all
       {| lock_ret := - EBUSY; alloc_ok := true; hook_ret := 0 |}
       (set_crefs fb_primary_only 1) (heap_of 0) (file_at 0)
     = Done (- EBUSY, fb', h', filep', calls) ->
     fb' = set_crefs fb_primary_only 1 /\ h' = heap_of 0 /\
     filep' = file_at 0) /\
  (forall fb' h' calls,
     fb_close cfg_debug vt_all
       {| lock_ret := - EBUSY; alloc_ok := true; hook_ret := 0 |}
       (set_crefs fb_primary_only 1) (heap_of 0) (file_at 0)
     = Done (- EBUSY, fb', h', calls) ->
     fb' = set_crefs fb_primary_only 1 /\ h' = heap_of 0).
Proof.
  apply (failed_open_close_change_nothing cfg_debug vt_all
           {| lock_ret := - EBUSY; alloc_ok := true; hook_ret := 0 |}
           (set_crefs fb_primary_only 1) (heap_of 0) (file_at 0) (- EBUSY)).
  unfold EBUSY. lia.
Defined.

(** With the lock refused, both calls do return the lock's error. *)
Example lock_failure_is_returned :
  fb_open cfg_debug vt_all
    {| lock_ret := - EBUSY; alloc_ok := true; hook_ret := 0 |}
    (set_crefs fb_primary_only 1) (heap_of 0) (file_at 0)
  = Done (- EBUSY, set_crefs fb_primary_only 1, heap_of 0, file_at 0, []) /\
  fb_close cfg_debug vt_all
    {| lock_ret := - EBUSY; alloc_ok := true; hook_ret := 0 |}
    (set_crefs fb_primary_only 1) (heap_of 0) (file_at 0)
  = Done (- EBUSY, set_crefs fb_primary_only 1, heap_of 0, []).
Proof. split; reflexivity. Qed.

Lemma open_wraps_reference_counter_witness :
  fb_open cfg_debug vt_all (env_hook 0) (set_crefs fb_primary_only 32767) ∅
    {| f_priv := None; f_pos := 0 |}
  = Trap AssertFailed.
Proof.
  apply (open_wraps_reference_counter cfg_debug vt_all (env_hook 0)
           (set_crefs fb_primary_only 32767) ∅
           {| f_priv := None; f_pos := 0 |}).
  - reflexivity.
  - simpl. lia.
  - reflexivity.
Defined.

(** ** Reading and writing the frame memory *)

Section FrameMemory.

Context (cfg : config) (hw : fb_hw) (fb : fb_chardev_s) (h : kheap).
Context (filep : file) (a : nat) (priv : fb_priv_s).
Context (ret : Z) (panelinfo : fb_panelinfo_s).

Let L : Z := fblen panelinfo.
Let pos : Z := f_pos filep.

Hypothesis file_open : f_priv filep = Some a.
Hypothesis priv_live : h !! a = Some priv.
Hypothesis panel :
  fb_get_panelinfo hw fb (overlay priv) = Done (ret, panelinfo).
Hypothesis panel_ok : 0 <= ret.
Hypothesis mem_len : Z.of_nat (length (fbmem panelinfo)) = L.
Hypothesis size_bits_pos : 0 < size_bits cfg.
Hypothesis off_bits_pos : 0 < off_bits cfg.
Hypothesis L_ssize : L < 2 ^ (size_bits cfg - 1).
Hypothesis L_off : L < 2 ^ (off_bits cfg - 1).
Hypothesis pos_in : 0 <= pos < L.

(** A write changes the frame memory only where it writes: the memory
    keeps its length, the bytes before the position and the bytes from
    the new position on are as before, and the bytes in between are the
    caller's. *)
Theorem fb_write_touches_its_range_only (buffer : nat -> byte) (len : Z) :
  0 <= len ->
  pos + len < 2 ^ size_bits cfg ->
  exists n filep' mem',
    fb_write cfg hw fb h filep buffer len = Done (n, filep', Some mem') /\
    n = Z.min len (L - pos) /\
    f_pos filep' = pos + n /\
    length mem' = length (fbmem panelinfo) /\
    (forall j : nat,
       (Z.of_nat j < pos \/ pos + n <= Z.of_nat j) ->
       mem' !! j = fbmem panelinfo !! j) /\
    (forall j : nat,
       (Z.of_nat j < n) ->
       mem' !! (Z.to_nat pos + j)%nat = Some (buffer j)).
Proof.
  intros Hlen Hwrap.
  destruct (fb_write_in_bounds cfg hw fb h filep a priv ret panelinfo len
              file_open priv_live panel panel_ok mem_len size_bits_pos
              off_bits_pos L_ssize L_off ltac:(fold pos; lia) Hlen Hwrap
              buffer) as [_ E].
  specialize (E ltac:(fold pos L; lia)). cbv zeta in E.
  fold L pos in E. set (n := Z.min len (L - pos)) in *.
  eexists n, _, _. split; [exact E|]. split; [done|]. split; [done|].
  assert (length (take (Z.to_nat pos) (fbmem panelinfo)) = Z.to_nat pos)
    as Htake by (rewrite length_take; lia).
  assert (length (map buffer (seq 0 (Z.to_nat n))) = Z.to_nat n) as Hmap
    by by rewrite length_map, length_seq.
  split_and!.
  - rewrite !length_app, Htake, Hmap, length_drop. lia.
  - intros j [Hj|Hj].
    + rewrite lookup_app_l by lia. apply lookup_take_lt. lia.
    + rewrite lookup_app_r by lia. rewrite lookup_app_r by lia.
      rewrite lookup_drop, Htake, Hmap. f_equal. lia.
  - intros j Hj. rewrite lookup_app_r by lia.
    rewrite lookup_app_l by lia. rewrite Htake.
    replace (Z.to_nat pos + j - Z.to_nat pos)%nat with j by lia.
    rewrite list_lookup_fmap, lookup_seq_lt by lia. done.
Qed.

(** What was written is read back: after a write, a read of the same
    length at the same position, from hardware that now reports the
    written memory, returns the count the write returned and the bytes
    the caller wrote, and ends at the same position. *)
Theorem fb_write_then_read (buffer : nat -> byte) (len : Z) (hw' : fb_hw)
    (ret' : Z) (panelinfo' : fb_panelinfo_s) :
  0 <= len ->
  pos + len < 2 ^ size_bits cfg ->
  fb_get_panelinfo hw' fb (overlay priv) = Done (ret', panelinfo') ->
  0 <= ret' ->
  fblen panelinfo' = L ->
  exists n filep' mem',
    fb_write cfg hw fb h filep buffer len = Done (n, filep', Some mem') /\
    (fbmem panelinfo' = mem' ->
     fb_read cfg hw' fb h filep len
     = Done (n, filep', map buffer (seq 0 (Z.to_nat n)))).
Proof.
  intros Hlen Hwrap Hpanel' Hret' HL'.
  destruct (fb_write_in_bounds cfg hw fb h filep a priv ret panelinfo len
              file_open priv_live panel panel_ok mem_len size_bits_pos
              off_bits_pos L_ssize L_off ltac:(fold pos; lia) Hlen Hwrap
              buffer) as [_ E].
  specialize (E ltac:(fold pos L; lia)). cbv zeta in E.
  fold L pos in E. set (n := Z.min len (L - pos)) in *.
  eexists n, _, _. split; [exact E|]. intros Hmem.
  assert (length (take (Z.to_nat pos) (fbmem panelinfo)) = Z.to_nat pos)
    as Htake by (rewrite length_take; lia).
  assert (length (map buffer (seq 0 (Z.to_nat n))) = Z.to_nat n) as Hmap
    by by rewrite length_map, length_seq.
  destruct (fb_read_in_bounds cfg hw' fb h filep a priv ret' panelinfo' len
              file_open priv_live Hpanel' Hret') as [_ R];
    try (rewrite ?HL'; fold pos; done || lia).
  { rewrite Hmem, HL', !length_app, Htake, Hmap, length_drop. lia. }
  specialize (R ltac:(rewrite HL'; fold pos; lia)). cbv zeta in R.
  rewrite HL' in R. fold pos n in R. rewrite R. do 2 f_equal.
  rewrite Hmem, drop_app_length' by done.
  by rewrite take_app_length'.
Qed.

(** Reads continue where the last one stopped: two reads in a row
    return, together, what one read of the combined length returns, and
    end at the same position. *)
Theorem fb_read_twice (len1 len2 : Z) :
  0 <= len1 -> 0 <= len2 ->
  pos + len1 + len2 < 2 ^ size_bits cfg ->
  exists n1 f1 d1 n2 f2 d2,
    fb_read cfg hw fb h filep len1 = Done (n1, f1, d1) /\
    fb_read cfg hw fb h f1 len2 = Done (n2, f2, d2) /\
    fb_read cfg hw fb h filep (len1 + len2) = Done (n1 + n2, f2, d1 ++ d2).
Proof.
  intros H1 H2 Hwrap.
  destruct (fb_read_in_bounds cfg hw fb h filep a priv ret panelinfo len1
              file_open priv_live panel panel_ok mem_len size_bits_pos
              off_bits_pos L_ssize L_off ltac:(fold pos; lia) H1
              ltac:(fold pos; lia)) as [_ E1].
  specialize (E1 ltac:(fold pos L; lia)). cbv zeta in E1. fold L pos in E1.
  destruct (fb_read_in_bounds cfg hw fb h filep a priv ret panelinfo
              (len1 + len2)
              file_open priv_live panel panel_ok mem_len size_bits_pos
              off_bits_pos L_ssize L_off ltac:(fold pos; lia)
              ltac:(lia) ltac:(fold pos; lia)) as [_ E12].
  specialize (E12 ltac:(fold pos L; lia)). cbv zeta in E12.
  fold L pos in E12.
  set (n1 := Z.min len1 (L - pos)) in *.
  set (f1 := {| f_priv := f_priv filep; f_pos := pos + n1 |}) in *.
  destruct (fb_read_in_bounds cfg hw fb h f1 a priv ret panelinfo len2
              file_open priv_live panel panel_ok mem_len size_bits_pos
              off_bits_pos L_ssize L_off ltac:(simpl; lia) H2
              ltac:(simpl; lia)) as [Eend Emid].
  simpl f_pos in Eend, Emid. fold L in Eend, Emid.
  destruct (decide (L <= pos + n1)) as [Hend|Hmid].
  - eexists _, _, _, 0, f1, []. split; [exact E1|].
    split; [by apply Eend|]. rewrite E12, app_nil_r, Z.add_0_r.
    replace (Z.min (len1 + len2) (L - pos)) with n1 by lia. done.
  - specialize (Emid ltac:(lia)). cbv zeta in Emid.
    eexists _, _, _, _, _, _. split; [exact E1|]. split; [exact Emid|].
    rewrite E12. simpl f_priv.
    replace (Z.min (len1 + len2) (L - pos))
      with (n1 + Z.min len2 (L - (pos + n1))) by lia.
    f_equal. f_equal; [f_equal; f_equal; lia|].
    replace (Z.to_nat (pos + n1)) with (Z.to_nat pos + Z.to_nat n1)%nat
      by lia.
    rewrite <- drop_drop, take_take_drop. f_equal. lia.
Qed.

End FrameMemory.

Lemma fb_write_touches_its_range_only_witness :
  exists n filep' mem',
    fb_write cfg_release (hw_mem mem_ten) fb_primary_only (heap_of 0)
      (file_pos 0 5) buffer_ff 10 = Done (n, filep', Some mem') /\
    n = Z.min 10 (10 - 5) /\
    f_pos filep' = 5 + n /\
    length mem' = length mem_ten /\
    (forall j : nat,
       (Z.of_nat j < 5 \/ 5 + n <= Z.of_nat j) ->
       mem' !! j = mem_ten !! j) /\
    (forall j : nat,
       (Z.of_nat j < n) ->
       mem' !! (Z.to_nat 5 + j)%nat = Some (buffer_ff j)).
Proof.
  apply (fb_write_touches_its_range_only cfg_release (hw_mem mem_ten)
           fb_primary_only (heap_of 0) (file_pos 0 5) 0
           {| overlay := FB_NO_OVERLAY |} 0 (panel_mem mem_ten));
    try reflexivity; simpl; lia.
Defined.

Lemma fb_write_then_read_witness :
  exists n filep' mem',
    fb_write cfg_release (hw_mem mem_ten) fb_primary_only (heap_of 0)
      (file_pos 0 5) buffer_ff 10 = Done (n, filep', Some mem') /\
    (fbmem (panel_mem mem_ten_written) = mem' ->
     fb_read cfg_release (hw_mem mem_ten_written) fb_primary_only (heap_of 0)
       (file_pos 0 5) 10
     = Done (n, filep', map buffer_ff (seq 0 (Z.to_nat n)))).
Proof.
  apply (fb_write_then_read cfg_release (hw_mem mem_ten)
           fb_primary_only (heap_of 0) (file_pos 0 5) 0
           {| overlay := FB_NO_OVERLAY |} 0 (panel_mem mem_ten)
           ltac:(reflexivity) ltac:(reflexivity) ltac:(reflexivity)
           ltac:(lia) ltac:(reflexivity) ltac:(simpl; lia) ltac:(simpl; lia)
           ltac:(simpl; lia) ltac:(simpl; lia) ltac:(simpl; lia)
           buffer_ff 10 (hw_mem mem_ten_written) 0
           (panel_mem mem_ten_written));
    try reflexivity; simpl; lia.
Defined.

Lemma fb_read_twice_witness :
  exists n1 f1 d1 n2 f2 d2,
    fb_read cfg_release (hw_mem mem_ten) fb_primary_only (heap_of 0)
      (file_pos 0 5) 3 = Done (n1, f1, d1) /\
    fb_read cfg_release (hw_mem mem_ten) fb_primary_only (heap_of 0)
      f1 4 = Done (n2, f2, d2) /\
    fb_read cfg_release (hw_mem mem_ten) fb_primary_only (heap_of 0)
      (file_pos 0 5) (3 + 4) = Done (n1 + n2, f2, d1 ++ d2).
Proof.
  apply (fb_read_twice cfg_release (hw_mem mem_ten)
           fb_primary_only (heap_of 0) (file_pos 0 5) 0
           {| overlay := FB_NO_OVERLAY |} 0 (panel_mem mem_ten));
    try reflexivity; simpl; lia.
Defined.

(** ** Seek, mmap and a failing panel query *)

Lemma to_int_small (int_bits z : Z) :
  0 < int_bits ->
  - 2 ^ (int_bits - 1) <= z < 2 ^ (int_bits - 1) ->
  to_int int_bits z = z.
Proof.
  intros Hb H. unfold to_int.
  assert (2 ^ int_bits = 2 * 2 ^ (int_bits - 1)) as E.
  { replace int_bits with (1 + (int_bits - 1)) at 1 by lia.
    by rewrite Z.pow_add_r by lia. }
  rewrite Z.mod_small; lia.
Qed.

Lemma to_off_id (cfg : config) (z : Z) :
  0 < off_bits cfg ->
  - 2 ^ (off_bits cfg - 1) <= z < 2 ^ (off_bits cfg - 1) ->
  to_off cfg z = z.
Proof. intros Hb H. by apply (to_int_small (off_bits cfg)). Qed.

Lemma off_size_common_small (cfg : config) (z : Z) :
  0 < size_bits cfg -> 0 < off_bits cfg ->
  0 <= z < common_max cfg ->
  off_size_common cfg z = z.
Proof.
  unfold off_size_common, common_max. intros Hs Ho H.
  destruct (off_bits cfg <=? size_bits cfg).
  - by apply to_size_small.
  - apply to_off_id; [done|]. lia.
Qed.

Section FilePosition.

Context (cfg : config) (int_bits : Z) (hw : fb_hw) (fb : fb_chardev_s).
Context (h : kheap) (filep : file) (a : nat) (priv : fb_priv_s).

Hypothesis file_open : f_priv filep = Some a.
Hypothesis priv_live : h !! a = Some priv.

(** A seek never leaves a negative position behind: it either leaves
    the file as it was, or moves it to a position that is not negative
    and returns that position (as an [int]).  A [whence] that is none of
    the three is refused with [-EINVAL]. *)
Theorem fb_seek_keeps_position_valid (offset whence ret : Z) (filep' : file) :
  0 <= f_pos filep ->
  fb_seek cfg int_bits hw fb h filep offset whence = Done (ret, filep') ->
  f_priv filep' = f_priv filep /\
  0 <= f_pos filep' /\
  (filep' = filep \/ ret = to_int int_bits (f_pos filep')) /\
  (whence <> SEEK_SET -> whence <> SEEK_CUR -> whence <> SEEK_END ->
   ret = - EINVAL /\ filep' = filep).
Proof.
  intros Hpos E. unfold fb_seek in E.
  apply bind_Done_inv in E as ([] & _ & E).
  apply bind_Done_inv in E as (np & En & E).
  assert (whence <> SEEK_SET -> whence <> SEEK_CUR -> whence <> SEEK_END ->
          np = inl (- EINVAL)) as Hbad.
  { intros H1 H2 H3.
    destruct (Z.eqb_spec whence SEEK_CUR); [done|].
    destruct (Z.eqb_spec whence SEEK_SET); [done|].
    destruct (Z.eqb_spec whence SEEK_END); [done|].
    by injection En as <-. }
  destruct np as [r|newpos].
  - injection E as <- <-. split_and!; try done; [by left|].
    intros H1 H2 H3. specialize (Hbad H1 H2 H3). by injection Hbad as ->.
  - destruct (Z.leb_spec 0 newpos); injection E as <- <-;
      (split_and!; [done|simpl; lia|auto|]);
      intros H1 H2 H3; by specialize (Hbad H1 H2 H3).
Qed.

Context (ret0 : Z) (panelinfo : fb_panelinfo_s).

Let L : Z := fblen panelinfo.

Hypothesis panel :
  fb_get_panelinfo hw fb (overlay priv) = Done (ret0, panelinfo).

(** When the hardware's panel query fails, read, write, mmap and a seek
    from the end all return the hardware's error as it is and move
    nothing. *)
Theorem panel_failure_is_passed_on (len offset : Z) (buffer : nat -> byte)
    (map : mm_map_entry_s) :
  ret0 < 0 ->
  fb_read cfg hw fb h filep len = Done (ret0, filep, []) /\
  fb_write cfg hw fb h filep buffer len = Done (ret0, filep, None) /\
  fb_mmap cfg hw fb h filep map = Done (ret0, map) /\
  fb_seek cfg int_bits hw fb h filep offset SEEK_END = Done (ret0, filep).
Proof.
  intros Hr. unfold fb_read, fb_write, fb_mmap, fb_seek.
  rewrite file_open, (DEBUGASSERT_ok _ (bool_decide _))
    by (by apply bool_decide_eq_true_2).
  rewrite <- file_open.
  rewrite (priv_of_live cfg h filep a priv), !bind_Done by done.
  rewrite panel, !bind_Done.
  replace (ret0 <? 0) with true by lia. done.
Qed.

Hypothesis panel_ok : 0 <= ret0.
Hypothesis size_bits_pos : 0 < size_bits cfg.
Hypothesis off_bits_pos : 0 < off_bits cfg.
Hypothesis L_nonneg : 0 <= L.

(** A seek to the end of the buffer, or past it, is accepted; from
    there every read is at end of file and every write is refused. *)
Theorem fb_seek_to_end_then_transfer (offset : Z) :
  0 <= offset ->
  L + offset < 2 ^ (off_bits cfg - 1) ->
  L + offset < 2 ^ size_bits cfg ->
  exists filep',
    fb_seek cfg int_bits hw fb h filep offset SEEK_END
      = Done (to_int int_bits (L + offset), filep') /\
    f_pos filep' = L + offset /\
    (forall len, fb_read cfg hw fb h filep' len = Done (0, filep', [])) /\
    (forall buffer len,
       fb_write cfg hw fb h filep' buffer len
       = Done (BufferFull, filep', None)).
Proof.
  intros Hoff Hfit Hsize.
  exists {| f_priv := f_priv filep; f_pos := L + offset |}. split_and!.
  - unfold fb_seek.
    rewrite file_open, (DEBUGASSERT_ok _ (bool_decide _))
      by (by apply bool_decide_eq_true_2).
    rewrite <- file_open. rewrite bind_Done. simpl.
    rewrite (priv_of_live cfg h filep a priv), bind_Done by done.
    rewrite panel, bind_Done. replace (ret0 <? 0) with false by lia.
    rewrite bind_Done. fold L. rewrite to_off_id by lia.
    by replace (0 <=? L + offset) with true by lia.
  - done.
  - intros len. unfold fb_read.
    rewrite (priv_of_live cfg h _ a priv), bind_Done by done.
    rewrite panel, bind_Done. replace (ret0 <? 0) with false by lia.
    simpl f_pos. rewrite to_size_small by lia. fold L.
    by replace (L <=? L + offset) with true by lia.
  - intros buffer len. unfold fb_write.
    rewrite (priv_of_live cfg h _ a priv), bind_Done by done.
    rewrite panel, bind_Done. replace (ret0 <? 0) with false by lia.
    simpl f_pos. rewrite to_size_small by lia. fold L.
    by replace (L <=? L + offset) with true by lia.
Qed.

Hypothesis L_fits : L < common_max cfg.

(** Where the end of the range fits the type it is computed in, mmap
    accepts exactly the ranges that lie inside the buffer and are not
    empty, and hands back the offset asked for; every other request is
    refused with [-EINVAL] and left as it was. *)
Theorem fb_mmap_accepts_inner_ranges (map : mm_map_entry_s) :
  0 <= mm_length map ->
  (0 <= mm_offset map -> mm_offset map + mm_length map < common_max cfg) ->
  fb_mmap cfg hw fb h filep map
  = if decide (0 <= mm_offset map /\ 0 < mm_length map /\
               mm_offset map + mm_length map <= L)
    then Done (OK, {| mm_offset := mm_offset map;
                      mm_length := mm_length map;
                      mm_vaddr := Some (mm_offset map) |})
    else Done (- EINVAL, map).
Proof.
  intros Hlen Hfit. unfold fb_mmap.
  rewrite (priv_of_live cfg h filep a priv), bind_Done by done.
  rewrite panel, bind_Done. replace (ret0 <? 0) with false by lia.
  fold L. rewrite (off_size_common_small cfg L) by lia.
  destruct (Z.leb_spec 0 (mm_offset map)) as [Ho|Ho]; simpl.
  2: { rewrite decide_False; [done|lia]. }
  rewrite !off_size_common_small by lia.
  destruct (Z.ltb_spec (mm_offset map) L), (Z.eqb_spec (mm_length map) 0),
    (Z.leb_spec (mm_offset map + mm_length map) L); simpl;
    first [by rewrite decide_True by lia | by rewrite decide_False by lia].
Qed.

End FilePosition.

(** Where [off_t] is no wider than [size_t], the end of the range is
    computed in [size_t], and a range whose end wraps to 0 passes the
    check: for every offset inside the buffer, the length that reaches
    exactly [2 ^ size_bits] is accepted, far beyond the buffer. *)
Theorem fb_mmap_accepts_wrapped_range (cfg : config) (hw : fb_hw)
    (fb : fb_chardev_s) (h : kheap) (filep : file) (a : nat)
    (priv : fb_priv_s) (ret0 : Z) (panelinfo : fb_panelinfo_s) (offset : Z) :
  f_priv filep = Some a ->
  h !! a = Some priv ->
  fb_get_panelinfo hw fb (overlay priv) = Done (ret0, panelinfo) ->
  0 <= ret0 ->
  0 < off_bits cfg <= size_bits cfg ->
  fblen panelinfo < 2 ^ size_bits cfg ->
  0 < offset < fblen panelinfo ->
  fb_mmap cfg hw fb h filep
    {| mm_offset := offset; mm_length := 2 ^ size_bits cfg - offset;
       mm_vaddr := None |}
  = Done (OK, {| mm_offset := offset;
                 mm_length := 2 ^ size_bits cfg - offset;
                 mm_vaddr := Some offset |}).
Proof.
  intros Hp Ha Hpanel Hret Hbits HL Hoff. unfold fb_mmap.
  rewrite (priv_of_live cfg h filep a priv), bind_Done by done.
  rewrite Hpanel, bind_Done. replace (ret0 <? 0) with false by lia.
  unfold off_size_common. replace (off_bits cfg <=? size_bits cfg) with true
    by lia.
  simpl mm_offset. simpl mm_length.
  rewrite (to_size_small cfg offset), (to_size_small cfg (fblen panelinfo))
    by lia.
  replace (offset + (2 ^ size_bits cfg - offset)) with (2 ^ size_bits cfg)
    by lia.
  unfold to_size at 1. rewrite Z.mod_same by lia.
  replace (0 <=? offset) with true by lia.
  replace (offset <? fblen panelinfo) with true by lia.
  replace (2 ^ size_bits cfg - offset =? 0) with false by lia.
  by replace (0 <=? fblen panelinfo) with true by lia.
Qed.

Lemma fb_seek_keeps_position_valid_witness :
  f_priv (file_pos 0 3) = f_priv (file_pos 0 5) /\
  0 <= f_pos (file_pos 0 3) /\
  (file_pos 0 3 = file_pos 0 5 \/ 3 = to_int 32 (f_pos (file_pos 0 3))) /\
  (SEEK_CUR <> SEEK_SET -> SEEK_CUR <> SEEK_CUR -> SEEK_CUR <> SEEK_END ->
   3 = - EINVAL /\ file_pos 0 3 = file_pos 0 5).
Proof.
  apply (fb_seek_keeps_position_valid cfg_release 32 (hw_mem mem_ten)
           fb_primary_only (heap_of 0) (file_pos 0 5) (-2) SEEK_CUR 3
           (file_pos 0 3)).
  - simpl. lia.
  - reflexivity.
Defined.

Lemma panel_failure_is_passed_on_witness :
  fb_read cfg_debug hw_broken fb_primary_only (heap_of 0) (file_pos 0 5) 4
    = Done (- EINVAL, file_pos 0 5, []) /\
  fb_write cfg_debug hw_broken fb_primary_only (heap_of 0) (file_pos 0 5)
    buffer_ff 4 = Done (- EINVAL, file_pos 0 5, None) /\
  fb_mmap cfg_debug hw_broken fb_primary_only (heap_of 0) (file_pos 0 5)
    (map_of 0 4) = Done (- EINVAL, map_of 0 4) /\
  fb_seek cfg_debug 32 hw_broken fb_primary_only (heap_of 0) (file_pos 0 5)
    0 SEEK_END = Done (- EINVAL, file_pos 0 5).
Proof.
  apply (panel_failure_is_passed_on cfg_debug 32 hw_broken fb_primary_only
           (heap_of 0) (file_pos 0 5) 0 {| overlay := FB_NO_OVERLAY |}
           ltac:(reflexivity) ltac:(reflexivity) (- EINVAL) no_panelinfo
           ltac:(reflexivity)).
  unfold EINVAL. lia.
Defined.

Lemma fb_seek_to_end_then_transfer_witness :
  exists filep',
    fb_seek cfg_release 32 (hw_mem mem_ten) fb_primary_only (heap_of 0)
      (file_pos 0 5) 3 SEEK_END = Done (to_int 32 (10 + 3), filep') /\
    f_pos filep' = 10 + 3 /\
    (forall len,
       fb_read cfg_release (hw_mem mem_ten) fb_primary_only (heap_of 0)
         filep' len = Done (0, filep', [])) /\
    (forall buffer len,
       fb_write cfg_release (hw_mem mem_ten) fb_primary_only (heap_of 0)
         filep' buffer len = Done (BufferFull, filep', None)).
Proof.
  apply (fb_seek_to_end_then_transfer cfg_release 32 (hw_mem mem_ten)
           fb_primary_only (heap_of 0) (file_pos 0 5) 0
           {| overlay := FB_NO_OVERLAY |} ltac:(reflexivity)
           ltac:(reflexivity) 0 (panel_mem mem_ten));
    try reflexivity; simpl; lia.
Defined.

Lemma fb_mmap_accepts_inner_ranges_witness :
  fb_mmap cfg_release (hw_mem mem_ten) fb_primary_only (heap_of 0)
    (file_pos 0 5) (map_of 2 4)
  = Done (OK, {| mm_offset := 2; mm_length := 4; mm_vaddr := Some 2 |}).
Proof.
  refine (eq_trans
            (fb_mmap_accepts_inner_ranges cfg_release (hw_mem mem_ten)
               fb_primary_only (heap_of 0) (file_pos 0 5) 0
               {| overlay := FB_NO_OVERLAY |} ltac:(reflexivity)
               ltac:(reflexivity) 0 (panel_mem mem_ten) ltac:(reflexivity)
               _ _ _ _ _ (map_of 2 4) _ _) _);
    try reflexivity; try (simpl; lia); try (vm_compute; lia).
Defined.

Lemma fb_mmap_accepts_wrapped_range_witness :
  fb_mmap cfg_release (hw_mem mem_ten) fb_primary_only (heap_of 0)
    (file_pos 0 5) (map_of 1 SIZE_MAX_32)
  = Done (OK, {| mm_offset := 1; mm_length := SIZE_MAX_32;
                 mm_vaddr := Some 1 |}).
Proof.
  apply (fb_mmap_accepts_wrapped_range cfg_release (hw_mem mem_ten)
           fb_primary_only (heap_of 0) (file_pos 0 5) 0
           {| overlay := FB_NO_OVERLAY |} 0 (panel_mem mem_ten) 1);
    try reflexivity; simpl; lia.
Defined.

(** ** Overlay selection and the screen information *)

(** Selecting an overlay concerns the calling file only: the return
    value is the hardware's; on success the file's selection becomes the
    overlay asked for, on failure nothing changes; the selection of
    every other open file is as before, and no block appears or goes. *)
Theorem select_overlay_is_per_file (cfg : config) (hw : fb_hw) (h h' : kheap)
    (filep : file) (a : nat) (old : fb_priv_s) (ov ret : Z) :
  f_priv filep = Some a ->
  h !! a = Some old ->
  fb_ioctl_select_overlay cfg hw h filep ov = Done (ret, h') ->
  ret = (getoverlayinfo hw ov).1 /\
  (0 <= ret -> priv_of cfg h' filep = Done {| overlay := ov |}) /\
  (ret < 0 -> h' = h) /\
  (forall b, b <> a -> h' !! b = h !! b) /\
  dom h' = dom h.
Proof.
  intros Hp Ha E. unfold fb_ioctl_select_overlay in E.
  rewrite Hp, (DEBUGASSERT_ok _ (bool_decide _)), bind_Done in E
    by (by apply bool_decide_eq_true_2).
  destruct (getoverlayinfo hw ov) as [r oinfo]. simpl.
  destruct (Z.leb_spec 0 r) as [Hr|Hr].
  - rewrite decide_True in E by by eexists.
    injection E as <- <-. split_and!; try done; try lia.
    + intros _. apply (priv_of_live cfg _ filep a); [done|].
      apply lookup_insert_eq.
    + intros b Hb. by apply lookup_insert_ne.
    + apply dom_insert_lookup_L. by eexists.
  - injection E as <- <-. split_and!; try done. lia.
Qed.

Lemma select_overlay_is_per_file_witness :
  0 = (getoverlayinfo hw_double 0).1 /\
  (0 <= 0 ->
   priv_of cfg_debug (<[0%nat := {| overlay := 0 |}]> (heap_of 0)) (file_at 0)
   = Done {| overlay := 0 |}) /\
  (0 < 0 -> <[0%nat := {| overlay := 0 |}]> (heap_of 0) = heap_of 0) /\
  (forall b, b <> 0%nat ->
     <[0%nat := {| overlay := 0 |}]> (heap_of 0) !! b = heap_of 0 !! b) /\
  dom (<[0%nat := {| overlay := 0 |}]> (heap_of 0)) = dom (heap_of 0).
Proof.
  apply (select_overlay_is_per_file cfg_debug hw_double (heap_of 0) _
           (file_at 0) 0 {| overlay := FB_NO_OVERLAY |} 0 0).
  - reflexivity.
  - vm_compute. reflexivity.
  - vm_compute. reflexivity.
Defined.

(** The colour fields reported for a pixel format never overlap: a
    format is either not described at all, or one grey field reported
    for red, green and blue alike, or colours packed without gap from
    bit 0 (blue, green, red, then transparency if there is any), within
    32 bits. *)
Theorem vscreeninfo_channels_layout (fmt : fb_fmt) :
  let c := vscreeninfo_channels fmt in
  channels_unset c \/ channels_grey c \/ channels_packed c.
Proof.
  destruct fmt; cbv zeta.
  1, 2: right; left; by repeat split.
  1, 2, 3, 4: right; right; repeat split; simpl; try done; auto.
  - right. right. repeat split; simpl; try done. right. by split.
  - left. by repeat split.
Qed.

(** ** Registration and the panel information *)

(** Registration binds a device to the vtable only when it returns
    [OK]: any negative return leaves the vtable without a device.  The
    device bound has one slot per overlay besides the primary one, every
    queue empty, no waiter registered, no reference, no vsync offset and
    the watchdog idle. *)
Theorem fb_register_binds_on_success (cfg : config) (up_fbinitialize : Z)
    (up_fbgetvplane : option fb_hw) (r : reg_env) (pl ret : Z)
    (priv : option fb_chardev_s) :
  fb_register cfg up_fbinitialize up_fbgetvplane r pl = Done (ret, priv) ->
  (ret < 0 -> priv = None) /\
  (forall fb, priv = Some fb ->
     ret = OK /\ 0 <= up_fbinitialize /\
     exists hw,
       up_fbgetvplane = Some hw /\
       paninfo_count fb = Z.max 0 (vi_noverlays (getvideoinfo hw).2 + 1) /\
       Forall (fun p => cb_data (buf p) = [] /\
                        fds p = replicate (NPOLLWAITERS cfg) None)
              (paninfo fb) /\
       crefs fb = 0 /\ vsyncoffset fb = 0 /\ wdog fb = None /\
       queues_wf cfg fb).
Proof.
  intros E.
  assert (forall fb, priv = Some fb ->
     ret = OK /\ 0 <= up_fbinitialize /\
     exists hw,
       up_fbgetvplane = Some hw /\
       paninfo_count fb = Z.max 0 (vi_noverlays (getvideoinfo hw).2 + 1) /\
       Forall (fun p => cb_data (buf p) = [] /\
                        fds p = replicate (NPOLLWAITERS cfg) None)
              (paninfo fb) /\
       crefs fb = 0 /\ vsyncoffset fb = 0 /\ wdog fb = None /\
       queues_wf cfg fb) as Bound.
  { intros fb ->. unfold fb_register in E.
    destruct (Z.ltb_spec up_fbinitialize 0); [done|].
    destruct up_fbgetvplane as [hw|]; [|done].
    pose proof (registered_queues_wf cfg hw r pl ret fb E) as Hwf.
    apply fb_register_device_ok in E as (-> & Hc & Hv & Hw & Hn & Hall).
    split_and!; [done..|]. exists hw. split_and!; try done.
    apply Forall2_Forall_r with (Q := fun p => cb_data (buf p) = [] /\
                        fds p = replicate (NPOLLWAITERS cfg) None) in Hall;
      [done|].
    apply Forall_forall. intros i _ slot Hreg.
    by apply slot_registered_buf in Hreg as (_ & _ & _ & _ & ? & ? & _). }
  split; [|done]. intros Hneg. destruct priv as [fb|]; [|done].
  destruct (Bound fb eq_refl) as (-> & _). done.
Qed.

Lemma fb_register_binds_on_success_witness :
  (0 < 0 -> Some fb_double = None) /\
  (forall fb, Some fb_double = Some fb ->
     0 = OK /\ 0 <= 0 /\
     exists hw,
       Some hw_double = Some hw /\
       paninfo_count fb = Z.max 0 (vi_noverlays (getvideoinfo hw).2 + 1) /\
       Forall (fun p => cb_data (buf p) = [] /\
                        fds p = replicate (NPOLLWAITERS cfg_release) None)
              (paninfo fb) /\
       crefs fb = 0 /\ vsyncoffset fb = 0 /\ wdog fb = None /\
       queues_wf cfg_release fb).
Proof.
  apply (fb_register_binds_on_success cfg_release 0 (Some hw_double)
           reg_fine 0 0 (Some fb_double)).
  reflexivity.
Defined.

(** When the slot array cannot be allocated, registration gives up
    without a device but returns what [getvideoinfo] returned, which is
    not negative: the caller is told of no failure. *)
Theorem fb_register_device_hides_allocation_failure (cfg : config)
    (hw : fb_hw) (r : reg_env) (pl : Z) :
  alloc_fb_ok r = true ->
  alloc_paninfo_ok r = false ->
  0 <= (getvideoinfo hw).1 ->
  0 <= pl <= 255 ->
  pl < vi_nplanes (getvideoinfo hw).2 ->
  fb_register_device cfg hw r pl = Done ((getvideoinfo hw).1, None).
Proof.
  intros Hf Hp Hret Hpl Hn. unfold fb_register_device.
  rewrite Hf, Hp. simpl negb. cbv iota.
  rewrite DEBUGASSERT_ok, bind_Done by (apply andb_true_intro; lia).
  destruct (getvideoinfo hw) as [vret vinfo]. simpl in *.
  replace (vret <? 0) with false by lia.
  by rewrite DEBUGASSERT_ok, bind_Done by (apply andb_true_intro; lia).
Qed.

Lemma fb_register_device_hides_allocation_failure_witness :
  fb_register_device cfg_debug hw_double
    {| alloc_fb_ok := true; alloc_paninfo_ok := false;
       alloc_circbuf_ok := fun _ => true; register_driver_ret := 0 |} 0
  = Done (OK, None).
Proof.
  apply (fb_register_device_hides_allocation_failure cfg_debug hw_double
           {| alloc_fb_ok := true; alloc_paninfo_ok := false;
              alloc_circbuf_ok := fun _ => true;
              register_driver_ret := 0 |} 0);
    try reflexivity; simpl; lia.
Defined.


(** ** The up-time file *)

(** The up time is the tick count rounded to the nearest hundredth of a
    second, halves upwards: the hundredths printed are never above 99,
    and seconds and hundredths together are
    [(100 * ticks + CLOCKS_PER_SEC / 2) / CLOCKS_PER_SEC] hundredths.
    This holds where [100 * CLOCKS_PER_SEC + CLOCKS_PER_SEC / 2] fits an
    [unsigned int]. *)
Theorem uptime_seconds_rounds (time_bits uint_bits clocks_per_sec : Z)
    (ticktime : Z) :
  0 < time_bits ->
  0 < clocks_per_sec ->
  100 * clocks_per_sec + clocks_per_sec / 2 <= 2 ^ uint_bits ->
  0 <= ticktime < 2 ^ time_bits ->
  let '(sec, csec) :=
    uptime_seconds time_bits uint_bits clocks_per_sec ticktime in
  0 <= sec /\ 0 <= csec <= 99 /\
  100 * sec + csec = (100 * ticktime + clocks_per_sec / 2) / clocks_per_sec.
Proof.
  intros Htb Hcps Hfit Ht. unfold uptime_seconds.
  set (sec := ticktime / clocks_per_sec).
  set (rem := ticktime mod clocks_per_sec).
  assert (0 <= rem < clocks_per_sec) as Hrem
    by (apply Z.mod_pos_bound; lia).
  assert (ticktime = clocks_per_sec * sec + rem) as Hdiv
    by (apply Z.div_mod; lia).
  assert (0 <= sec) as Hsec by (apply Z.div_pos; lia).
  assert (0 <= clocks_per_sec / 2) as Hhalf by (apply Z.div_pos; lia).
  assert (clocks_per_sec / 2 < clocks_per_sec) as Hhalf'
    by (apply Z.div_lt_upper_bound; lia).
  rewrite (Z.mod_small rem) by lia.
  rewrite (Z.mod_small (100 * rem + clocks_per_sec / 2)) by lia.
  set (c0 := (100 * rem + clocks_per_sec / 2) / clocks_per_sec).
  assert (0 <= c0 <= 100) as Hc0.
  { split; [apply Z.div_pos; lia|].
    apply Z.lt_succ_r, Z.div_lt_upper_bound; lia. }
  assert ((100 * ticktime + clocks_per_sec / 2) / clocks_per_sec
          = 100 * sec + c0) as Htotal.
  { replace (100 * ticktime + clocks_per_sec / 2)
      with ((100 * sec) * clocks_per_sec
            + (100 * rem + clocks_per_sec / 2)) by lia.
    by rewrite Z.div_add_l by lia. }
  rewrite Htotal.
  destruct (Z.ltb_spec 99 c0) as [Hcarry|Hno]; [|lia].
  assert (2 <= clocks_per_sec) as Hcps2.
  { destruct (decide (clocks_per_sec = 1)) as [E|]; [|lia].
    assert (rem = 0) as Hr0 by lia.
    unfold c0 in Hcarry. rewrite Hr0, E in Hcarry.
    change ((100 * 0 + 1 / 2) / 1) with 0 in Hcarry. lia. }
  assert (c0 = 100) as Hc100 by lia. rewrite Hc100.
  assert (sec + 1 < 2 ^ time_bits) as Hsec1.
  { assert (2 ^ time_bits = 2 * 2 ^ (time_bits - 1)) as E.
    { replace time_bits with (1 + (time_bits - 1)) at 1 by lia.
      by rewrite Z.pow_add_r by lia. }
    assert (sec < 2 ^ (time_bits - 1)); [|lia].
    apply Z.div_lt_upper_bound; [lia|]. nia. }
  rewrite Z.mod_small by lia.
  replace (100 - 100) with 0 by lia. rewrite Z.mod_0_l by lia.
  lia.
Qed.

Lemma uptime_seconds_rounds_witness :
  let '(sec, csec) := uptime_seconds 32 32 1000 1999 in
  0 <= sec /\ 0 <= csec <= 99 /\
  100 * sec + csec = (100 * 1999 + 1000 / 2) / 1000.
Proof.
  apply (uptime_seconds_rounds 32 32 1000 1999);
    [lia | lia | by vm_compute | split; [lia | by vm_compute]].
Defined.

(** 1999 ticks at 1000 ticks a second are shown as 2.00: the rounding
    carries into the seconds. *)
Example uptime_seconds_carry : uptime_seconds 32 32 1000 1999 = (2, 0).
Proof. reflexivity. Qed.
